(** * MacroMe: the "Macro Tetris" meal-planning engine

    A shallow embedding of [src/lib/macroTetris.ts] and the properties the
    design document states about it.

    Numbers.  Every quantity of the engine is a JavaScript [number].  The
    module [JS] keeps the four kinds of value the code can produce (a finite
    value, the two infinities and NaN) and computes finite values exactly,
    over the rationals: it does not round to binary64 and has a single zero
    (a zero divisor counts as +0).  The properties of the engine stated
    over [JS] are worded so as to hold of the doubles of the program as
    well: they compare the result with the expression the code computes, or
    use laws that rounding keeps (the order of quotients, exact arithmetic
    on whole numbers); the auxiliary lemmas are facts of the exact model.
    Where rounding decides the outcome, for the quotients of the
    availability calculator and the products of the shortfall report on
    decimal quantities, the module [F64] carries the same two functions
    over binary64, and the inputs on which the two differ are part of the
    properties below.

    Effects.  [generatePlan] reads three tables, writes two and draws random
    days.  The tables it reads, the outcome of the plan insertion and the
    random draws are inputs of the embedded function; the rows it writes are
    part of its result. *)

From Stdlib Require Import QArith Qround Qabs ZArith List Ascii String Bool Lia Lqa.
From Stdlib Require Import Permutation.
From Stdlib Require PrimFloat FloatOps SpecFloat Uint63.
Import ListNotations.

Set Implicit Arguments.

(* ------------------------------------------------------------------------- *)
(** ** JavaScript numbers *)

Module JS.

Inductive num : Type :=
  | Fin (q : Q)
  | PInf
  | NInf
  | NaN.

Definition of_Z (z : Z) : num := Fin (inject_Z z).

Definition Qltb (a b : Q) : bool := negb (Qle_bool b a).

(** The sign of a value, as a [comparison] with zero. *)
Definition sign (x : num) : comparison :=
  match x with
  | Fin q => q ?= 0
  | PInf => Gt
  | NInf => Lt
  | NaN => Eq
  end.

Definition inf_of_sign (s : comparison) : num :=
  match s with
  | Gt => PInf
  | Lt => NInf
  | Eq => NaN
  end.

Definition sign_mul (s t : comparison) : comparison :=
  match s, t with
  | Eq, _ | _, Eq => Eq
  | Gt, Gt | Lt, Lt => Gt
  | Gt, Lt | Lt, Gt => Lt
  end.

Definition neg (x : num) : num :=
  match x with
  | Fin q => Fin (- q)
  | PInf => NInf
  | NInf => PInf
  | NaN => NaN
  end.

(** [x + y] *)
Definition add (x y : num) : num :=
  match x, y with
  | NaN, _ | _, NaN => NaN
  | Fin a, Fin b => Fin (a + b)
  | PInf, NInf | NInf, PInf => NaN
  | PInf, _ | _, PInf => PInf
  | NInf, _ | _, NInf => NInf
  end.

(** [x - y] *)
Definition sub (x y : num) : num := add x (neg y).

(** [x * y] *)
Definition mul (x y : num) : num :=
  match x, y with
  | NaN, _ | _, NaN => NaN
  | Fin a, Fin b => Fin (a * b)
  | _, _ => inf_of_sign (sign_mul (sign x) (sign y))
  end.

(** [x / y]; a finite zero divisor is +0. *)
Definition div (x y : num) : num :=
  match x, y with
  | NaN, _ | _, NaN => NaN
  | Fin a, Fin b => if Qeq_bool b 0 then inf_of_sign (a ?= 0) else Fin (a / b)
  | Fin _, _ => Fin 0
  | _, Fin b => if Qltb b 0 then neg x else x
  | _, _ => NaN
  end.

(** [x < y], [x <= y], [x > y], [x >= y]: false as soon as one side is NaN. *)
Definition lt (x y : num) : bool :=
  match x, y with
  | NaN, _ | _, NaN => false
  | Fin a, Fin b => Qltb a b
  | NInf, NInf | PInf, _ | _, NInf => false
  | _, _ => true
  end.

Definition le (x y : num) : bool :=
  match x, y with
  | NaN, _ | _, NaN => false
  | Fin a, Fin b => Qle_bool a b
  | NInf, _ | _, PInf => true
  | _, _ => false
  end.

Definition gt (x y : num) : bool := lt y x.
Definition ge (x y : num) : bool := le y x.

(** [x === y] on numbers. *)
Definition seq (x y : num) : bool :=
  match x, y with
  | Fin a, Fin b => Qeq_bool a b
  | PInf, PInf | NInf, NInf => true
  | _, _ => false
  end.

(** [Math.min(x, y)] and [Math.max(x, y)]: NaN as soon as one side is. *)
Definition min (x y : num) : num :=
  match x, y with
  | NaN, _ | _, NaN => NaN
  | _, _ => if le x y then x else y
  end.

Definition max (x y : num) : num :=
  match x, y with
  | NaN, _ | _, NaN => NaN
  | _, _ => if le y x then x else y
  end.

(** [Math.min(x, y, z)] reads its arguments from left to right. *)
Definition min3 (x y z : num) : num := min (min x y) z.

(** [Math.floor], [Math.ceil], [Math.round] (halves go up), [Math.abs]. *)
Definition floor (x : num) : num :=
  match x with
  | Fin q => of_Z (Qfloor q)
  | _ => x
  end.

Definition ceil (x : num) : num :=
  match x with
  | Fin q => of_Z (Qceiling q)
  | _ => x
  end.

Definition round (x : num) : num :=
  match x with
  | Fin q => of_Z (Qfloor (q + (1 # 2)))
  | _ => x
  end.

Definition abs (x : num) : num :=
  match x with
  | Fin q => Fin (Qabs q)
  | NaN => NaN
  | _ => PInf
  end.

(** Truthiness of a number: 0 and NaN are falsy. *)
Definition truthy (x : num) : bool :=
  match x with
  | Fin q => negb (Qeq_bool q 0)
  | NaN => false
  | _ => true
  end.

(** [x || d] *)
Definition or_else (x d : num) : num := if truthy x then x else d.


Definition is_finite (x : num) : Prop :=
  match x with Fin _ => True | _ => False end.

End JS.

Import JS.

Declare Scope num_scope.
Delimit Scope num_scope with num.
Bind Scope num_scope with num.
Notation "x + y" := (JS.add x y) : num_scope.
Notation "x - y" := (JS.sub x y) : num_scope.
Notation "x * y" := (JS.mul x y) : num_scope.
Notation "x / y" := (JS.div x y) : num_scope.
Notation "x <? y" := (JS.lt x y) : num_scope.
Notation "x <=? y" := (JS.le x y) : num_scope.
Notation "x >? y" := (JS.gt x y) : num_scope.
Notation "x >=? y" := (JS.ge x y) : num_scope.
Notation "x === y" := (JS.seq x y) (at level 70, no associativity) : num_scope.

(** Integer literals of the source. *)
Definition num_to_Z (x : num) : option Z :=
  match x with
  | Fin (z # 1) => Some z
  | _ => None
  end.

Number Notation num JS.of_Z num_to_Z : num_scope.

Local Open Scope string_scope.
Local Open Scope list_scope.

(* ------------------------------------------------------------------------- *)
(** ** Data model ([src/lib/types/database.ts] and the types of the engine)

    Only the columns the engine reads are kept. *)

Module Ingredient.
Record t : Type := make
  { id : string;
    name : string;
    unit : string;
    protein : num;
    carbs : num;
    fat : num;
    kcal : num }.
End Ingredient.

(** A row of [recipe_ingredients] joined with its [ingredients] row. *)
Module RecipeIngredient.
Record t : Type := make
  { ingredient_id : string;
    quantity : num;
    unit : string;
    ingredients : Ingredient.t }.
End RecipeIngredient.

Module Recipe.
Record t : Type := make
  { id : string;
    name : string;
    recipe_ingredients : list RecipeIngredient.t }.
End Recipe.

Module PantryItem.
Record t : Type := make
  { ingredient_id : string;
    quantity : num;
    unit : string }.
End PantryItem.

Module User.
Record t : Type := make
  { id : string;
    kcal_target : num;
    protein_pct : num;
    carb_pct : num;
    fat_pct : num }.
End User.

Record MacroProfile : Type := mkMacros
  { calories : num;
    protein : num;
    carbs : num;
    fat : num }.

(** [RecipeWithMacros extends Recipe]: the recipe row and three more fields. *)
Record RecipeWithMacros : Type := mkRecipeWithMacros
  { base : Recipe.t;
    macros : MacroProfile;
    proteinDensity : num;
    availableServings : num }.

Definition rid (r : RecipeWithMacros) : string := Recipe.id (base r).

(** An element of [selectedRecipes]. *)
Record Selection : Type := mkSelection
  { recipe : RecipeWithMacros;
    servings : num;
    day : num;
    slot : string }.

(* ------------------------------------------------------------------------- *)
(** ** calculateRecipeMacros *)

Definition calculateRecipeMacros (recipe : Recipe.t) : MacroProfile :=
  let acc :=
    fold_left
      (fun (acc : MacroProfile) (ingredient : RecipeIngredient.t) =>
         let quantity := RecipeIngredient.quantity ingredient in
         let nutrition := RecipeIngredient.ingredients ingredient in
         {| calories := (calories acc + (Ingredient.kcal nutrition * quantity) / 100)%num;
            protein := (protein acc + (Ingredient.protein nutrition * quantity) / 100)%num;
            carbs := (carbs acc + (Ingredient.carbs nutrition * quantity) / 100)%num;
            fat := (fat acc + (Ingredient.fat nutrition * quantity) / 100)%num |})
      (Recipe.recipe_ingredients recipe)
      {| calories := 0%num; protein := 0%num; carbs := 0%num; fat := 0%num |} in
  {| calories := JS.round (calories acc);
     protein := JS.round (protein acc);
     carbs := JS.round (carbs acc);
     fat := JS.round (fat acc) |}.

(* ------------------------------------------------------------------------- *)
(** ** calculateAvailableServings *)

(** [pantryItems.find((p) => p.ingredient_id === key)] *)
Definition find_pantry (pantryItems : list PantryItem.t) (key : string)
  : option PantryItem.t :=
  find (fun p => String.eqb (PantryItem.ingredient_id p) key) pantryItems.

(** The body of the [forEach]: one required ingredient against the pantry. *)
Definition availability_step (pantryItems : list PantryItem.t)
  (maxServings : num) (recipeIngredient : RecipeIngredient.t) : num :=
  match find_pantry pantryItems (RecipeIngredient.ingredient_id recipeIngredient) with
  | None => 0%num
  | Some pantryItem =>
      let availableQuantity := PantryItem.quantity pantryItem in
      let requiredQuantity := RecipeIngredient.quantity recipeIngredient in
      let possibleServings := JS.floor (availableQuantity / requiredQuantity) in
      JS.min maxServings possibleServings
  end.

Definition calculateAvailableServings (recipe : Recipe.t)
  (pantryItems : list PantryItem.t) : num :=
  let maxServings :=
    fold_left (availability_step pantryItems)
      (Recipe.recipe_ingredients recipe) PInf in
  if (maxServings === PInf)%num then 0%num else maxServings.

(* ------------------------------------------------------------------------- *)
(** ** Array.prototype.sort

    The sort of the language is stable, and a comparator result that is NaN
    counts as +0.  [cmp a b > 0] puts [a] after [b]. *)

Fixpoint sort_insert {A : Type} (cmp : A -> A -> num) (x : A) (l : list A)
  : list A :=
  match l with
  | [] => [x]
  | y :: l' => if (cmp x y >? 0)%num then y :: sort_insert cmp x l' else x :: l
  end.

Definition js_sort {A : Type} (cmp : A -> A -> num) (l : list A) : list A :=
  fold_right (sort_insert cmp) [] l.

(* ------------------------------------------------------------------------- *)
(** ** sortByProteinDensity *)

Definition sortByProteinDensity (recipes : list RecipeWithMacros)
  : list RecipeWithMacros :=
  js_sort (fun a b => (proteinDensity b - proteinDensity a)%num)
    (filter (fun recipe => (availableServings recipe >? 0)%num) recipes).

(* ------------------------------------------------------------------------- *)
(** ** greedyProteinFill *)

(** The default value of the [daysInWeek] parameter; no caller overrides it. *)
Definition daysInWeek : Z := 7.

Definition mealSlots : list string := ["breakfast"; "lunch"; "dinner"].

(** The variables the loop updates. *)
Record GreedyState : Type := mkGreedyState
  { selectedRecipes : list Selection;
    currentMacros : MacroProfile;
    currentDay : Z;
    currentSlot : Z }.

Definition dailyProteinNeeded (dailyTargets currentMacros : MacroProfile) : num :=
  JS.max 0%num (protein dailyTargets - protein currentMacros / JS.of_Z daysInWeek)%num.

(** [Math.min(servingsNeeded, recipe.availableServings, 3)] *)
Definition servingsToAdd (dailyTargets currentMacros : MacroProfile)
  (recipe : RecipeWithMacros) : num :=
  let servingsNeeded :=
    JS.ceil (dailyProteinNeeded dailyTargets currentMacros / protein (macros recipe)) in
  JS.min3 servingsNeeded (availableServings recipe) 3%num.

(** [acc.calories += m.calories * servings], and the same for the three
    other fields: the update the greedy loop and the fine-tuner both make. *)
Definition add_servings (acc m : MacroProfile) (servings : num) : MacroProfile :=
  {| calories := (calories acc + calories m * servings)%num;
     protein := (protein acc + protein m * servings)%num;
     carbs := (carbs acc + carbs m * servings)%num;
     fat := (fat acc + fat m * servings)%num |}.

Definition zero_macros : MacroProfile :=
  {| calories := 0%num; protein := 0%num; carbs := 0%num; fat := 0%num |}.

(** One turn of the [for] loop; [None] is [break]. *)
Definition greedy_body (dailyTargets : MacroProfile) (st : GreedyState)
  (recipe : RecipeWithMacros) : option GreedyState :=
  if (dailyProteinNeeded dailyTargets (currentMacros st) <=? 0)%num then None
  else
    let servingsToAdd := servingsToAdd dailyTargets (currentMacros st) recipe in
    if (servingsToAdd >? 0)%num then
      let cur := currentMacros st in
      let m := macros recipe in
      let currentSlot' := (currentSlot st + 1)%Z in
      Some
        {| selectedRecipes :=
             selectedRecipes st ++
             [ {| recipe := recipe;
                  servings := servingsToAdd;
                  day := JS.of_Z (currentDay st mod daysInWeek);
                  slot := nth (Z.to_nat (currentSlot st mod Z.of_nat (List.length mealSlots)))
                            mealSlots "" |} ];
           currentMacros := add_servings cur m servingsToAdd;
           currentDay :=
             if (currentSlot' mod Z.of_nat (List.length mealSlots) =? 0)%Z
             then (currentDay st + 1)%Z else currentDay st;
           currentSlot := currentSlot' |}
    else Some st.

Fixpoint greedy_loop (dailyTargets : MacroProfile)
  (sortedRecipes : list RecipeWithMacros) (st : GreedyState) : GreedyState :=
  match sortedRecipes with
  | [] => st
  | recipe :: rest =>
      match greedy_body dailyTargets st recipe with
      | None => st
      | Some st' => greedy_loop dailyTargets rest st'
      end
  end.

Definition greedy_init : GreedyState :=
  {| selectedRecipes := [];
     currentMacros := zero_macros;
     currentDay := 0;
     currentSlot := 0 |}.

(** Returns [{ selectedRecipes, currentMacros }]. *)
Definition greedyProteinFill (recipes : list RecipeWithMacros)
  (dailyTargets : MacroProfile) : list Selection * MacroProfile :=
  let sortedRecipes := sortByProteinDensity recipes in
  let st := greedy_loop dailyTargets sortedRecipes greedy_init in
  (selectedRecipes st, currentMacros st).

(* ------------------------------------------------------------------------- *)
(** ** fillRemainingMacros

    [Math.random()] is a stream of draws: [rng n] is the result of the
    [n]-th call made by the function. *)

Definition Rng : Type := nat -> num.

Definition usedRecipeIds (selectedRecipes : list Selection) : list string :=
  map (fun s => rid (recipe s)) selectedRecipes.

(** [usedRecipeIds.has(id)] *)
Definition has_id (ids : list string) (id : string) : bool :=
  existsb (String.eqb id) ids.

Definition availableRecipes (recipes : list RecipeWithMacros)
  (selectedRecipes : list Selection) : list RecipeWithMacros :=
  filter
    (fun r => negb (has_id (usedRecipeIds selectedRecipes) (rid r))
              && (availableServings r >? 0)%num)
    recipes.

Definition dailyCarbGap (dailyTargets currentMacros : MacroProfile) : num :=
  JS.max 0%num (carbs dailyTargets - carbs currentMacros / JS.of_Z daysInWeek)%num.

Definition dailyFatGap (dailyTargets currentMacros : MacroProfile) : num :=
  JS.max 0%num (fat dailyTargets - fat currentMacros / JS.of_Z daysInWeek)%num.

Definition carbRichRecipes (availableRecipes : list RecipeWithMacros)
  : list RecipeWithMacros :=
  js_sort
    (fun a b => (carbs (macros b) / calories (macros b)
                 - carbs (macros a) / calories (macros a))%num)
    (filter (fun r => (carbs (macros r) >? fat (macros r))%num) availableRecipes).

Definition fatRichRecipes (availableRecipes : list RecipeWithMacros)
  : list RecipeWithMacros :=
  js_sort
    (fun a b => (fat (macros b) / calories (macros b)
                 - fat (macros a) / calories (macros a))%num)
    (filter (fun r => (fat (macros r) >? carbs (macros r))%num) availableRecipes).

(** [Math.floor(Math.random() * daysInWeek)] for the draw [u]. *)
Definition random_day (u : num) : num := JS.floor (u * JS.of_Z daysInWeek)%num.

(** The carbohydrate step: the selections it appends and the draws it uses. *)
Definition carb_step (dailyTargets currentMacros : MacroProfile)
  (carbRich : list RecipeWithMacros) (rng : Rng) (drawn : nat)
  : list Selection * nat :=
  match carbRich with
  | recipe :: _ =>
      if (dailyCarbGap dailyTargets currentMacros >? 0)%num then
        let servingsNeeded :=
          JS.min3
            (JS.ceil (dailyCarbGap dailyTargets currentMacros / carbs (macros recipe)))
            (availableServings recipe) 2%num in
        if (servingsNeeded >? 0)%num then
          ([ {| recipe := recipe; servings := servingsNeeded;
                day := random_day (rng drawn); slot := "snack" |} ], S drawn)
        else ([], drawn)
      else ([], drawn)
  | [] => ([], drawn)
  end.

(** The fat step. *)
Definition fat_step (dailyTargets currentMacros : MacroProfile)
  (fatRich : list RecipeWithMacros) (rng : Rng) (drawn : nat)
  : list Selection * nat :=
  match fatRich with
  | recipe :: _ =>
      if (dailyFatGap dailyTargets currentMacros >? 0)%num then
        let servingsNeeded :=
          JS.min3
            (JS.ceil (dailyFatGap dailyTargets currentMacros / fat (macros recipe)))
            (availableServings recipe) 2%num in
        if (servingsNeeded >? 0)%num then
          ([ {| recipe := recipe; servings := servingsNeeded;
                day := random_day (rng drawn); slot := "snack" |} ], S drawn)
        else ([], drawn)
      else ([], drawn)
  | [] => ([], drawn)
  end.

Definition fillRemainingMacros (rng : Rng) (recipes : list RecipeWithMacros)
  (selectedRecipes : list Selection) (currentMacros dailyTargets : MacroProfile)
  : list Selection :=
  let availableRecipes := availableRecipes recipes selectedRecipes in
  let carbRichRecipes := carbRichRecipes availableRecipes in
  let fatRichRecipes := fatRichRecipes availableRecipes in
  let additionalRecipes := selectedRecipes in
  let '(pushed_carb, drawn) :=
    carb_step dailyTargets currentMacros carbRichRecipes rng 0%nat in
  let additionalRecipes := additionalRecipes ++ pushed_carb in
  let '(pushed_fat, _) :=
    fat_step dailyTargets currentMacros fatRichRecipes rng drawn in
  additionalRecipes ++ pushed_fat.

(* ------------------------------------------------------------------------- *)
(** ** fineTuneMacros *)

(** The [forEach] that sums the week. *)
Definition weeklyMacros (selectedRecipes : list Selection) : MacroProfile :=
  fold_left
    (fun acc selection => add_servings acc (macros (recipe selection)) (servings selection))
    selectedRecipes zero_macros.

Definition dailyMacros (selectedRecipes : list Selection) : MacroProfile :=
  let weeklyMacros := weeklyMacros selectedRecipes in
  {| calories := (calories weeklyMacros / JS.of_Z daysInWeek)%num;
     protein := (protein weeklyMacros / JS.of_Z daysInWeek)%num;
     carbs := (carbs weeklyMacros / JS.of_Z daysInWeek)%num;
     fat := (fat weeklyMacros / JS.of_Z daysInWeek)%num |}.

Definition fineTuneMacros (selectedRecipes : list Selection)
  (dailyTargets : MacroProfile) : list Selection :=
  let dailyMacros := dailyMacros selectedRecipes in
  map
    (fun selection =>
       let calorieAccuracy :=
         (JS.abs (calories dailyMacros - calories dailyTargets)
          / calories dailyTargets)%num in
       if (calorieAccuracy >? Fin (15 # 100))%num then
         let scaleFactor :=
           if (calorieAccuracy >? Fin (5 # 10))%num then Fin (8 # 10) else Fin (9 # 10) in
         {| recipe := recipe selection;
            servings := JS.max 1%num (JS.round (servings selection * scaleFactor)%num);
            day := day selection;
            slot := slot selection |}
       else selection)
    selectedRecipes.

(* ------------------------------------------------------------------------- *)
(** ** calculateMissingIngredients

    [ingredientNeeds] is a [Map]: it keeps its keys in insertion order, and
    [forEach] visits them in that order. *)

Module Need.
Record t : Type := make
  { needed : num;
    unit : string;
    name : string;
    available : num }.
End Need.

Module Shortfall.
Record t : Type := make
  { ingredientId : string;
    ingredientName : string;
    neededQuantity : num;
    unit : string;
    availableQuantity : num }.
End Shortfall.

Definition NeedsMap : Type := list (string * Need.t).

(** [ingredientNeeds.has(key)] *)
Definition needs_has (m : NeedsMap) (key : string) : bool :=
  existsb (fun kv => String.eqb (fst kv) key) m.

(** [ingredientNeeds.get(key).needed += totalNeeded] *)
Fixpoint needs_bump (m : NeedsMap) (key : string) (totalNeeded : num) : NeedsMap :=
  match m with
  | [] => []
  | (k, current) :: m' =>
      if String.eqb k key then
        (k, {| Need.needed := (Need.needed current + totalNeeded)%num;
               Need.unit := Need.unit current;
               Need.name := Need.name current;
               Need.available := Need.available current |}) :: m'
      else (k, current) :: needs_bump m' key totalNeeded
  end.

(** [ingredientNeeds.set(key, v)] for a key the map does not hold yet. *)
Definition needs_set (m : NeedsMap) (key : string) (v : Need.t) : NeedsMap :=
  m ++ [(key, v)].

(** [pantryItem?.quantity || 0] *)
Definition pantry_quantity (pantryItems : list PantryItem.t) (key : string) : num :=
  match find_pantry pantryItems key with
  | Some pantryItem => JS.or_else (PantryItem.quantity pantryItem) 0%num
  | None => 0%num
  end.

(** The body of the inner [forEach]. *)
Definition needs_step (pantryItems : list PantryItem.t) (selection : Selection)
  (ingredientNeeds : NeedsMap) (ingredient : RecipeIngredient.t) : NeedsMap :=
  let totalNeeded := (RecipeIngredient.quantity ingredient * servings selection)%num in
  let key := RecipeIngredient.ingredient_id ingredient in
  if needs_has ingredientNeeds key then needs_bump ingredientNeeds key totalNeeded
  else
    needs_set ingredientNeeds key
      {| Need.needed := totalNeeded;
         Need.unit := RecipeIngredient.unit ingredient;
         Need.name := Ingredient.name (RecipeIngredient.ingredients ingredient);
         Need.available := pantry_quantity pantryItems key |}.

Definition ingredientNeeds (selectedRecipes : list Selection)
  (pantryItems : list PantryItem.t) : NeedsMap :=
  fold_left
    (fun m selection =>
       fold_left (needs_step pantryItems selection)
         (Recipe.recipe_ingredients (base (recipe selection))) m)
    selectedRecipes [].

Definition calculateMissingIngredients (selectedRecipes : list Selection)
  (pantryItems : list PantryItem.t) : list Shortfall.t :=
  fold_left
    (fun missingIngredients kv =>
       let '(ingredientId, need) := kv in
       if (Need.needed need >? Need.available need)%num then
         missingIngredients ++
         [ {| Shortfall.ingredientId := ingredientId;
              Shortfall.ingredientName := Need.name need;
              Shortfall.neededQuantity := (Need.needed need - Need.available need)%num;
              Shortfall.unit := Need.unit need;
              Shortfall.availableQuantity := Need.available need |} ]
       else missingIngredients)
    (ingredientNeeds selectedRecipes pantryItems) [].

(* ------------------------------------------------------------------------- *)
(** ** The pantry functions over binary64

    [calculateAvailableServings] and [calculateMissingIngredients] once
    more, with the quantities as the doubles the program holds: a decimal
    of the database is the double nearest to it, and quotients, products,
    sums and differences round to the nearest double. *)

Module F64.

(** A binary64 number. *)
Definition float : Set := PrimFloat.float.

(** An integer below 2^53 in absolute value, exactly. *)
Definition of_Z (z : Z) : float :=
  match z with
  | Z0 => PrimFloat.zero
  | Zpos _ => PrimFloat.of_uint63 (Uint63.of_Z z)
  | Zneg p => PrimFloat.opp (PrimFloat.of_uint63 (Uint63.of_Z (Zpos p)))
  end.

(** The double nearest to a decimal of the database (numerator and
    denominator below 2^53, so that the division rounds once). *)
Definition of_num (x : num) : float :=
  match x with
  | Fin q => PrimFloat.div (of_Z (Qnum q)) (of_Z (Zpos (Qden q)))
  | PInf => PrimFloat.infinity
  | NInf => PrimFloat.neg_infinity
  | NaN => PrimFloat.nan
  end.

(** [Math.floor]: a finite value is [m * 2^e] up to its sign. *)
Definition floor (x : float) : float :=
  match FloatOps.Prim2SF x with
  | SpecFloat.S754_finite s m (Zneg k) =>
      let z := Z.shiftr (Zpos m) (Zpos k) in
      let exact := (Z.shiftl z (Zpos k) =? Zpos m)%Z in
      if s then of_Z (- (if exact then z else z + 1)) else of_Z z
  | _ => x
  end.

(** [Math.min(x, y)] *)
Definition min (x y : float) : float :=
  if PrimFloat.is_nan x || PrimFloat.is_nan y then PrimFloat.nan
  else if PrimFloat.ltb y x then y
  else if PrimFloat.ltb x y then x
  else match PrimFloat.classify x with FloatClass.NZero => x | _ => y end.

(** Truthiness of a number: 0, -0 and NaN are falsy. *)
Definition truthy (x : float) : bool :=
  negb (PrimFloat.is_nan x || PrimFloat.eqb x PrimFloat.zero).

Definition availability_step (pantryItems : list PantryItem.t)
  (maxServings : float) (recipeIngredient : RecipeIngredient.t) : float :=
  match find_pantry pantryItems (RecipeIngredient.ingredient_id recipeIngredient) with
  | None => PrimFloat.zero
  | Some pantryItem =>
      let availableQuantity := of_num (PantryItem.quantity pantryItem) in
      let requiredQuantity := of_num (RecipeIngredient.quantity recipeIngredient) in
      let possibleServings := floor (PrimFloat.div availableQuantity requiredQuantity) in
      min maxServings possibleServings
  end.

Definition calculateAvailableServings (recipe : Recipe.t)
  (pantryItems : list PantryItem.t) : float :=
  let maxServings :=
    fold_left (availability_step pantryItems)
      (Recipe.recipe_ingredients recipe) PrimFloat.infinity in
  if PrimFloat.eqb maxServings PrimFloat.infinity then PrimFloat.zero else maxServings.

Module Need.
Record t : Type := make
  { needed : float;
    unit : string;
    name : string;
    available : float }.
End Need.

Module Shortfall.
Record t : Type := make
  { ingredientId : string;
    ingredientName : string;
    neededQuantity : float;
    unit : string;
    availableQuantity : float }.
End Shortfall.

Definition NeedsMap : Type := list (string * Need.t).

Definition needs_has (m : NeedsMap) (key : string) : bool :=
  existsb (fun kv => String.eqb (fst kv) key) m.

Fixpoint needs_bump (m : NeedsMap) (key : string) (totalNeeded : float) : NeedsMap :=
  match m with
  | [] => []
  | (k, current) :: m' =>
      if String.eqb k key then
        (k, {| Need.needed := PrimFloat.add (Need.needed current) totalNeeded;
               Need.unit := Need.unit current;
               Need.name := Need.name current;
               Need.available := Need.available current |}) :: m'
      else (k, current) :: needs_bump m' key totalNeeded
  end.

Definition needs_set (m : NeedsMap) (key : string) (v : Need.t) : NeedsMap :=
  m ++ [(key, v)].

(** [pantryItem?.quantity || 0] *)
Definition pantry_quantity (pantryItems : list PantryItem.t) (key : string) : float :=
  match find_pantry pantryItems key with
  | Some pantryItem =>
      let quantity := of_num (PantryItem.quantity pantryItem) in
      if truthy quantity then quantity else PrimFloat.zero
  | None => PrimFloat.zero
  end.

Definition needs_step (pantryItems : list PantryItem.t) (selection : Selection)
  (ingredientNeeds : NeedsMap) (ingredient : RecipeIngredient.t) : NeedsMap :=
  let totalNeeded :=
    PrimFloat.mul (of_num (RecipeIngredient.quantity ingredient))
      (of_num (servings selection)) in
  let key := RecipeIngredient.ingredient_id ingredient in
  if needs_has ingredientNeeds key then needs_bump ingredientNeeds key totalNeeded
  else
    needs_set ingredientNeeds key
      {| Need.needed := totalNeeded;
         Need.unit := RecipeIngredient.unit ingredient;
         Need.name := Ingredient.name (RecipeIngredient.ingredients ingredient);
         Need.available := pantry_quantity pantryItems key |}.

Definition ingredientNeeds (selectedRecipes : list Selection)
  (pantryItems : list PantryItem.t) : NeedsMap :=
  fold_left
    (fun m selection =>
       fold_left (needs_step pantryItems selection)
         (Recipe.recipe_ingredients (base (recipe selection))) m)
    selectedRecipes [].

Definition calculateMissingIngredients (selectedRecipes : list Selection)
  (pantryItems : list PantryItem.t) : list Shortfall.t :=
  fold_left
    (fun missingIngredients kv =>
       let '(ingredientId, need) := kv in
       if PrimFloat.ltb (Need.available need) (Need.needed need) then
         missingIngredients ++
         [ {| Shortfall.ingredientId := ingredientId;
              Shortfall.ingredientName := Need.name need;
              Shortfall.neededQuantity :=
                PrimFloat.sub (Need.needed need) (Need.available need);
              Shortfall.unit := Need.unit need;
              Shortfall.availableQuantity := Need.available need |} ]
       else missingIngredients)
    (ingredientNeeds selectedRecipes pantryItems) [].

End F64.

(* ------------------------------------------------------------------------- *)
(** ** generatePlan

    The database is an input: what the three [select]s return, whether the
    insertion into [meal_plans] succeeds and which insertions into [meals]
    do.  The deletion of an earlier plan for the same week only logs a
    warning when it fails and leaves no trace in the result; it is left out.
    What the function throws is rethrown unchanged by its [catch]. *)

(** What a call can throw: an [Error] the function raises with a message,
    the [TypeError] of a method call on [null] and the [RangeError] of
    [toISOString] on an invalid date (their messages are the engine's). *)
Inductive Thrown : Type :=
  | Error (message : string)
  | TypeError
  | RangeError.

(** A [Date]: the invalid date, or an instant, given by what [toISOString]
    prints for it. *)
Module Date.
Inductive t : Type :=
  | Invalid
  | At (iso : string).
End Date.

(** [weekStart.toISOString()] *)
Definition toISOString (d : Date.t) : Thrown + string :=
  match d with
  | Date.Invalid => inl RangeError
  | Date.At iso => inr iso
  end.

(** [s.split('T')[0]] *)
Fixpoint before_T (s : string) : string :=
  match s with
  | EmptyString => EmptyString
  | String c s' => if Ascii.eqb c "T"%char then EmptyString else String c (before_T s')
  end.

(** [planError?.message || 'Unknown error']: a missing message and the empty
    message both give the default. *)
Definition message_or (message : option string) (default : string) : string :=
  match message with
  | None | Some EmptyString => default
  | Some m => m
  end.

Inductive Fetched (A : Type) : Type :=
  | FetchError
  | Data (rows : A).
Arguments FetchError {A}.
Arguments Data {A} rows.

Module MealPlan.
Record t : Type := make
  { id : string;
    user_id : string;
    week_start : string;
    total_kcal : num;
    total_protein : num;
    total_carbs : num;
    total_fat : num }.
End MealPlan.

Module Meal.
Record t : Type := make
  { meal_plan_id : string;
    recipe_id : string;
    servings : num;
    day_of_week : num;
    meal_slot : string }.
End Meal.

Record Db : Type := mkDb
  { (** [from('users').select('*').eq('id', userId).single()]: the row, or
        [None] when the query fails or finds no row. *)
    users_single : option User.t;
    (** [from('pantry_items').select(...)]: [data] may be [null]. *)
    pantry_items_select : Fetched (option (list PantryItem.t));
    (** [from('recipes').select(...)]: [data] may be [null]. *)
    recipes_select : Fetched (option (list Recipe.t));
    (** Insertion into [meal_plans]: the identifier of the new row, or, when
        there is an error or no row, the message of the error, if it has
        one. *)
    meal_plans_insert : option string + string;
    (** Insertion of the [i]-th meal succeeds. *)
    meals_insert : nat -> bool }.

Record MacroAccuracy : Type := mkMacroAccuracy
  { acc_calories : num;
    acc_protein : num;
    acc_carbs : num;
    acc_fat : num }.

Record OptimizationResult : Type := mkOptimizationResult
  { mealPlan : MealPlan.t;
    meals : list Meal.t;
    missingIngredients : list Shortfall.t;
    macroAccuracy : MacroAccuracy }.

(** Step 1b: the daily targets in grams. *)
Definition dailyTargets_of (userProfile : User.t) : MacroProfile :=
  {| calories := User.kcal_target userProfile;
     protein :=
       JS.round (User.kcal_target userProfile * User.protein_pct userProfile / 100 / 4)%num;
     carbs :=
       JS.round (User.kcal_target userProfile * User.carb_pct userProfile / 100 / 4)%num;
     fat :=
       JS.round (User.kcal_target userProfile * User.fat_pct userProfile / 100 / 9)%num |}.

(** Step 2: macros, availability and protein density of every recipe. *)
Definition recipesWithMacros_of (recipes : list Recipe.t)
  (pantryItems : list PantryItem.t) : list RecipeWithMacros :=
  map
    (fun recipe =>
       let macros := calculateRecipeMacros recipe in
       let availableServings := calculateAvailableServings recipe pantryItems in
       let proteinDensity :=
         if (calories macros >? 0)%num
         then (protein macros / calories macros * 100)%num else 0%num in
       {| base := recipe;
          macros := macros;
          proteinDensity := proteinDensity;
          availableServings := availableServings |})
    recipes.

(** Steps 3 to 5: the selections the plan is made of. *)
Definition finalRecipes_of (rng : Rng) (recipesWithMacros : list RecipeWithMacros)
  (dailyTargets : MacroProfile) : list Selection :=
  let '(proteinFilledRecipes, currentMacros) :=
    greedyProteinFill recipesWithMacros dailyTargets in
  let filledRecipes :=
    fillRemainingMacros rng recipesWithMacros proteinFilledRecipes
      currentMacros dailyTargets in
  fineTuneMacros filledRecipes dailyTargets.

(** [finalRecipes.reduce((sum, s) => sum + f(s) * s.servings, 0)] *)
Definition reduce_macro (f : MacroProfile -> num) (finalRecipes : list Selection)
  : num :=
  fold_left (fun sum s => (sum + f (macros (recipe s)) * servings s)%num)
    finalRecipes 0%num.

(** Step 9, first half: the daily averages of the final plan. *)
Definition finalMacros (finalRecipes : list Selection) : MacroProfile :=
  {| calories := (reduce_macro calories finalRecipes / 7)%num;
     protein := (reduce_macro protein finalRecipes / 7)%num;
     carbs := (reduce_macro carbs finalRecipes / 7)%num;
     fat := (reduce_macro fat finalRecipes / 7)%num |}.

(** [Math.round((1 - Math.abs(actual - target) / target) * 100)] *)
Definition accuracy (actual target : num) : num :=
  JS.round ((1 - JS.abs (actual - target) / target) * 100)%num.

Definition macroAccuracy_of (finalRecipes : list Selection)
  (dailyTargets : MacroProfile) : MacroAccuracy :=
  let finalMacros := finalMacros finalRecipes in
  {| acc_calories := accuracy (calories finalMacros) (calories dailyTargets);
     acc_protein := accuracy (protein finalMacros) (protein dailyTargets);
     acc_carbs := accuracy (carbs finalMacros) (carbs dailyTargets);
     acc_fat := accuracy (fat finalMacros) (fat dailyTargets) |}.

(** Step 8: one row per selection whose insertion succeeds. *)
Fixpoint insert_meals (ok : nat -> bool) (planId : string) (i : nat)
  (finalRecipes : list Selection) : list Meal.t :=
  match finalRecipes with
  | [] => []
  | selection :: rest =>
      let later := insert_meals ok planId (S i) rest in
      if ok i then
        {| Meal.meal_plan_id := planId;
           Meal.recipe_id := rid (recipe selection);
           Meal.servings := servings selection;
           Meal.day_of_week := day selection;
           Meal.meal_slot := slot selection |} :: later
      else later
  end.

Definition generatePlan (db : Db) (rng : Rng) (userId : string)
  (weekStart : Date.t) : Thrown + OptimizationResult :=
  match users_single db with
  | None => inl (Error "User profile not found")
  | Some userProfile =>
  match pantry_items_select db with
  | FetchError => inl (Error "Failed to fetch pantry items")
  | Data pantryItems =>
  match recipes_select db with
  | FetchError => inl (Error "Failed to fetch recipes")
  | Data None => inl TypeError
  | Data (Some recipes) =>
      let pantryItems := match pantryItems with Some l => l | None => [] end in
      let dailyTargets := dailyTargets_of userProfile in
      let recipesWithMacros := recipesWithMacros_of recipes pantryItems in
      let '(proteinFilledRecipes, currentMacros) :=
        greedyProteinFill recipesWithMacros dailyTargets in
      let filledRecipes :=
        fillRemainingMacros rng recipesWithMacros proteinFilledRecipes
          currentMacros dailyTargets in
      let finalRecipes := fineTuneMacros filledRecipes dailyTargets in
      let missingIngredients := calculateMissingIngredients finalRecipes pantryItems in
      match toISOString weekStart with
      | inl thrown => inl thrown
      | inr iso =>
      let weekStartStr := before_T iso in
      match meal_plans_insert db with
      | inl planError =>
          inl (Error ("Failed to create meal plan: "
                      ++ message_or planError "Unknown error")%string)
      | inr planId =>
          inr {| mealPlan :=
                   {| MealPlan.id := planId;
                      MealPlan.user_id := userId;
                      MealPlan.week_start := weekStartStr;
                      MealPlan.total_kcal := JS.round (calories currentMacros);
                      MealPlan.total_protein := JS.round (protein currentMacros);
                      MealPlan.total_carbs := JS.round (carbs currentMacros);
                      MealPlan.total_fat := JS.round (fat currentMacros) |};
                 meals := insert_meals (meals_insert db) planId 0 finalRecipes;
                 missingIngredients := missingIngredients;
                 macroAccuracy := macroAccuracy_of finalRecipes dailyTargets |}
      end end
  end end end.
(* ------------------------------------------------------------------------- *)
(** ** Auxiliary definitions: the Availability Calculator *)

Definition is_pos (x : num) : Prop :=
  match x with Fin q => 0 < q | _ => False end.

Definition is_nonneg (x : num) : Prop :=
  match x with Fin q => 0 <= q | _ => False end.

(** The rational a finite number holds. *)
Definition num_q (x : num) : Q :=
  match x with Fin q => q | _ => 0 end.

(** Requirement quantities are positive, quantities on hand are not negative. *)
Definition positive_requirements (l : list RecipeIngredient.t) : Prop :=
  Forall (fun ri => is_pos (RecipeIngredient.quantity ri)) l.

Definition nonneg_pantry (pantryItems : list PantryItem.t) : Prop :=
  Forall (fun p => is_nonneg (PantryItem.quantity p)) pantryItems.

(** Whole servings one pantry entry yields for one requirement. *)
Definition possibleZ (p : PantryItem.t) (ri : RecipeIngredient.t) : Z :=
  Qfloor (num_q (PantryItem.quantity p) / num_q (RecipeIngredient.quantity ri)).

(** The running minimum of the loop, with [None] for the initial infinity. *)
Definition ext (a : option Z) : num :=
  match a with Some z => JS.of_Z z | None => PInf end.

Definition ext_min (a : option Z) (z : Z) : Z :=
  match a with Some a => Z.min a z | None => z end.

Definition step_ext (pantryItems : list PantryItem.t) (a : option Z)
  (ri : RecipeIngredient.t) : option Z :=
  match find_pantry pantryItems (RecipeIngredient.ingredient_id ri) with
  | None => Some 0%Z
  | Some p => Some (ext_min a (possibleZ p ri))
  end.

Definition absent (pantryItems : list PantryItem.t) (ri : RecipeIngredient.t) : Prop :=
  find_pantry pantryItems (RecipeIngredient.ingredient_id ri) = None.

Definition ext_nonneg (a : option Z) : Prop :=
  match a with Some z => (0 <= z)%Z | None => True end.



(* ------------------------------------------------------------------------- *)
(** ** Sample data *)

Definition ex_ingredient (name : string) (protein carbs fat kcal : Q) : Ingredient.t :=
  {| Ingredient.id := name; Ingredient.name := name; Ingredient.unit := "g";
     Ingredient.protein := Fin protein; Ingredient.carbs := Fin carbs;
     Ingredient.fat := Fin fat; Ingredient.kcal := Fin kcal |}.

Definition ex_chicken : Ingredient.t := ex_ingredient "chicken" 23 0 (36 # 10) 165.
Definition ex_rice : Ingredient.t := ex_ingredient "rice" (26 # 10) 23 (9 # 10) 111.
Definition ex_oil : Ingredient.t := ex_ingredient "oil" 0 0 100 884.

Definition ex_requirement (i : Ingredient.t) (quantity : Q) : RecipeIngredient.t :=
  {| RecipeIngredient.ingredient_id := Ingredient.id i;
     RecipeIngredient.quantity := Fin quantity;
     RecipeIngredient.unit := "g";
     RecipeIngredient.ingredients := i |}.

Definition ex_pantry : list PantryItem.t :=
  [ PantryItem.make "chicken" 1000%num "g";
    PantryItem.make "rice" 500%num "g";
    PantryItem.make "oil" 500%num "ml" ].

Definition ex_chicken_rice : Recipe.t :=
  Recipe.make "r1" "Chicken and rice" [ex_requirement ex_chicken 150; ex_requirement ex_rice 80].

Definition ex_rice_bowl : Recipe.t :=
  Recipe.make "r2" "Rice bowl" [ex_requirement ex_rice 100].

Definition ex_oil_shot : Recipe.t :=
  Recipe.make "r3" "Dressing" [ex_requirement ex_oil 10].


(** A recipe with no ingredient requirement. *)
Definition ex_tap_water : Recipe.t := Recipe.make "r5" "Tap water" [].

(* ------------------------------------------------------------------------- *)
(** ** Auxiliary definitions: the greedy protein fill *)

(** A property of every element of a list, given the elements before it. *)
Definition all_splits {A : Type} (P : list A -> A -> Prop) (l : list A) : Prop :=
  forall pre a post, l = pre ++ a :: post -> P pre a.

(** [a] is what the loop pushes for its recipe when [done] is what it has
    pushed so far. *)
Definition pushed_after (dailyTargets : MacroProfile) (done : list Selection)
  (a : Selection) : Prop :=
  servings a = servingsToAdd dailyTargets (weeklyMacros done) (recipe a)
  /\ (servings a >? 0)%num = true.

(** The loop keeps its accumulator equal to the sum of what it has pushed. *)
Definition greedy_inv (st : GreedyState) : Prop :=
  currentMacros st = weeklyMacros (selectedRecipes st).

Definition ex_with_macros (id : string) (kcal p c f : Z) (available : num)
  : RecipeWithMacros :=
  {| base := Recipe.make id id [];
     macros := {| calories := JS.of_Z kcal; protein := JS.of_Z p;
                  carbs := JS.of_Z c; fat := JS.of_Z f |};
     proteinDensity := (JS.of_Z p / JS.of_Z kcal * 100)%num;
     availableServings := available |}.

(** The scenario of the design document: 2000 kcal at 30/40/30. *)
Definition ex_targets : MacroProfile :=
  {| calories := 2000; protein := 150; carbs := 200; fat := 67 |}.

Definition ex_chicken_rice_macros : RecipeWithMacros :=
  ex_with_macros "chicken-rice" 400 40 30 10 10%num.

(* ------------------------------------------------------------------------- *)
(** ** Auxiliary definitions: the Fine-Tuner, in the words of the design *)

(** Relative deviation of the recomputed daily-average calories from the
    target calories. *)
Definition relative_deviation (assignments : list Selection)
  (dailyTargets : MacroProfile) : num :=
  (JS.abs (calories (dailyMacros assignments) - calories dailyTargets)
   / calories dailyTargets)%num.

(** Servings scaled by a multiplier, rounded to the nearest integer, with a
    floor of one serving. *)
Definition scale_servings (multiplier : num) (a : Selection) : Selection :=
  {| recipe := recipe a;
     servings := JS.max 1 (JS.round (servings a * multiplier)%num);
     day := day a;
     slot := slot a |}.

Definition fine_tune_spec (assignments : list Selection)
  (dailyTargets : MacroProfile) : list Selection :=
  let deviation := relative_deviation assignments dailyTargets in
  if (deviation <=? Fin (15 # 100))%num then assignments
  else
    let multiplier :=
      if (deviation >? Fin (5 # 10))%num then Fin (8 # 10) else Fin (9 # 10) in
    map (scale_servings multiplier) assignments.

(** Servings and calories per serving are numbers proper. *)
Definition finite_assignment (a : Selection) : Prop :=
  is_finite (servings a) /\ is_finite (calories (macros (recipe a))).

Definition ex_three_chicken_rice : Selection :=
  {| recipe := ex_chicken_rice_macros; servings := 3; day := 0; slot := "breakfast" |}.

(* ------------------------------------------------------------------------- *)
(** ** Sample databases *)

Definition ex_user : User.t :=
  {| User.id := "u1"; User.kcal_target := 2000; User.protein_pct := 30;
     User.carb_pct := 40; User.fat_pct := 30 |}.

Definition ex_rng : Rng := fun _ => Fin (1 # 2).

(** A weight-gainer shake: 400 kcal and 15 g of protein per 100 g, served by
    7001.75 g; one serving is 28007 kcal and 1050 g of protein. *)
Definition ex_gainer : Ingredient.t := ex_ingredient "gainer" 15 0 0 400.

Definition ex_gainer_shake : Recipe.t :=
  Recipe.make "r6" "Gainer shake" [ex_requirement ex_gainer (700175 # 100)].

Definition ex_db_gainer : Db :=
  {| users_single := Some ex_user;
     pantry_items_select := Data (Some [PantryItem.make "gainer" 10000%num "g"]);
     recipes_select := Data (Some [ex_gainer_shake]);
     meal_plans_insert := inr "plan-1";
     meals_insert := fun _ => true |}.

(** [pantryItems || []] *)
Definition pantry_or_empty (pantryItems : option (list PantryItem.t))
  : list PantryItem.t :=
  match pantryItems with Some l => l | None => [] end.

(** The plan [generatePlan] builds for the shake. *)
Definition ex_gainer_plan : list Selection :=
  finalRecipes_of ex_rng
    (recipesWithMacros_of [ex_gainer_shake] [PantryItem.make "gainer" 10000%num "g"])
    (dailyTargets_of ex_user).

(** A user on a low-protein diet: 2000 kcal at 1% protein, 69% carbohydrate
    and 30% fat, with the sample pantry and three recipes. *)
Definition ex_user_low_protein : User.t :=
  {| User.id := "u2"; User.kcal_target := 2000; User.protein_pct := 1;
     User.carb_pct := 69; User.fat_pct := 30 |}.

Definition ex_db_low_protein : Db :=
  {| users_single := Some ex_user_low_protein;
     pantry_items_select := Data (Some ex_pantry);
     recipes_select := Data (Some [ex_chicken_rice; ex_rice_bowl; ex_oil_shot]);
     meal_plans_insert := inr "plan-2";
     meals_insert := fun _ => true |}.

Definition ex_low_protein_plan : list Selection :=
  finalRecipes_of ex_rng
    (recipesWithMacros_of [ex_chicken_rice; ex_rice_bowl; ex_oil_shot] ex_pantry)
    (dailyTargets_of ex_user_low_protein).

(** A profile whose protein percentage is 150, and one whose energy target
    is negative. *)
Definition ex_user_bad_pct : User.t :=
  {| User.id := "u3"; User.kcal_target := 2000; User.protein_pct := 150;
     User.carb_pct := 40; User.fat_pct := 30 |}.

Definition ex_user_bad_energy : User.t :=
  {| User.id := "u4"; User.kcal_target := -2000; User.protein_pct := -30;
     User.carb_pct := 40; User.fat_pct := 30 |}.

Definition ex_db_of (u : User.t) : Db :=
  {| users_single := Some u;
     pantry_items_select := Data (Some ex_pantry);
     recipes_select := Data (Some [ex_chicken_rice; ex_rice_bowl; ex_oil_shot]);
     meal_plans_insert := inr "plan-3";
     meals_insert := fun _ => true |}.

(* ------------------------------------------------------------------------- *)
(** ** Auxiliary definitions: the Gap Filler *)

(** [Math.random()] returns a number in [0, 1). *)
Definition unit_interval_rng (rng : Rng) : Prop :=
  forall n, exists u : Q, rng n = Fin u /\ 0 <= u /\ u < 1.

(** A recipe the Gap Filler may pick: in the pool, not selected yet, and
    with some availability. *)
Definition gap_candidate (recipes : list RecipeWithMacros)
  (selectedRecipes : list Selection) (r : RecipeWithMacros) : Prop :=
  In r recipes
  /\ has_id (usedRecipeIds selectedRecipes) (rid r) = false
  /\ (availableServings r >? 0)%num = true.

(** An assignment in the snack slot of one of the seven days. *)
Definition snack_in_week (a : Selection) : Prop :=
  slot a = "snack" /\ exists d : Z, day a = JS.of_Z d /\ (0 <= d <= 6)%Z.

Definition ex_pool : list RecipeWithMacros :=
  recipesWithMacros_of [ex_chicken_rice; ex_rice_bowl; ex_oil_shot] ex_pantry.

Definition ex_low_protein_targets : MacroProfile := dailyTargets_of ex_user_low_protein.

(* ------------------------------------------------------------------------- *)
(** ** Auxiliary definitions: recipes of a plan *)

(** Recipe identifiers are the primary key of the [recipes] table. *)
Definition distinct_recipes (recipes : list RecipeWithMacros) : Prop :=
  NoDup (map rid recipes).

(* ------------------------------------------------------------------------- *)
(** ** Auxiliary definitions: the Shortfall Reporter *)

(** [ingredientNeeds.get(key)] *)
Definition needs_get (m : NeedsMap) (key : string) : option Need.t :=
  option_map snd (find (fun kv => String.eqb (fst kv) key) m).

(** The sum of a list of numbers, taken from left to right. *)
Definition sum_nums (l : list num) : num :=
  match l with
  | [] => 0%num
  | x :: l' => fold_left JS.add l' x
  end.

(** What one assignment requires of the ingredient [key]: per-serving
    requirement times servings, for each of its requirements of [key]. *)
Definition amounts_of (a : Selection) (ris : list RecipeIngredient.t)
  (key : string) : list num :=
  map (fun ri => (RecipeIngredient.quantity ri * servings a)%num)
    (filter (fun ri => String.eqb (RecipeIngredient.ingredient_id ri) key) ris).

Definition requirement_amounts (assignments : list Selection) (key : string)
  : list num :=
  flat_map
    (fun a => amounts_of a (Recipe.recipe_ingredients (base (recipe a))) key)
    assignments.


(** The entry of [key] in the map, after the amounts [l] have been seen. *)
Definition need_matches (pantryItems : list PantryItem.t) (key : string)
  (m : NeedsMap) (l : list num) : Prop :=
  match l with
  | [] => needs_get m key = None
  | _ :: _ =>
      exists need,
        needs_get m key = Some need
        /\ Need.needed need = sum_nums l
        /\ Need.available need = pantry_quantity pantryItems key
  end.

(** [forEach] pushing the entries of the map that fall short. *)
Definition is_short (kv : string * Need.t) : bool :=
  (Need.needed (snd kv) >? Need.available (snd kv))%num.

Definition shortfall_of (kv : string * Need.t) : Shortfall.t :=
  {| Shortfall.ingredientId := fst kv;
     Shortfall.ingredientName := Need.name (snd kv);
     Shortfall.neededQuantity := (Need.needed (snd kv) - Need.available (snd kv))%num;
     Shortfall.unit := Need.unit (snd kv);
     Shortfall.availableQuantity := Need.available (snd kv) |}.


Definition ex_chicken_rice_selection : Selection :=
  {| recipe :=
       {| base := ex_chicken_rice;
          macros := calculateRecipeMacros ex_chicken_rice;
          proteinDensity := 0;
          availableServings := 2 |};
     servings := 3; day := 0; slot := "breakfast" |}.





(* ------------------------------------------------------------------------- *)
(** ** Auxiliary definitions: whole numbers and finite data *)

(** An integer. *)
Definition whole (x : num) : Prop := exists z : Z, x = JS.of_Z z.

(** An integer between two bounds. *)
Definition whole_between (lo hi : Z) (x : num) : Prop :=
  exists z : Z, x = JS.of_Z z /\ (lo <= z <= hi)%Z.

(** A requirement whose quantity is a number other than zero, for an
    ingredient the pantry holds in a finite quantity. *)
Definition well_stocked (pantryItems : list PantryItem.t)
  (ri : RecipeIngredient.t) : Prop :=
  match RecipeIngredient.quantity ri with
  | Fin q => ~ q == 0
  | _ => False
  end
  /\ match find_pantry pantryItems (RecipeIngredient.ingredient_id ri) with
     | Some p => is_finite (PantryItem.quantity p)
     | None => True
     end.

(** Every field of a macro profile. *)
Definition all_fields (P : num -> Prop) (m : MacroProfile) : Prop :=
  P (calories m) /\ P (protein m) /\ P (carbs m) /\ P (fat m).

(** A requirement with a finite quantity of an ingredient with finite
    nutrition facts; one where none of them is negative. *)
Definition finite_requirement (ri : RecipeIngredient.t) : Prop :=
  is_finite (RecipeIngredient.quantity ri)
  /\ is_finite (Ingredient.kcal (RecipeIngredient.ingredients ri))
  /\ is_finite (Ingredient.protein (RecipeIngredient.ingredients ri))
  /\ is_finite (Ingredient.carbs (RecipeIngredient.ingredients ri))
  /\ is_finite (Ingredient.fat (RecipeIngredient.ingredients ri)).

Definition nonneg_requirement (ri : RecipeIngredient.t) : Prop :=
  is_nonneg (RecipeIngredient.quantity ri)
  /\ is_nonneg (Ingredient.kcal (RecipeIngredient.ingredients ri))
  /\ is_nonneg (Ingredient.protein (RecipeIngredient.ingredients ri))
  /\ is_nonneg (Ingredient.carbs (RecipeIngredient.ingredients ri))
  /\ is_nonneg (Ingredient.fat (RecipeIngredient.ingredients ri)).

(** The loop of [calculateRecipeMacros], before the rounding. *)
Definition macros_step (acc : MacroProfile) (ingredient : RecipeIngredient.t)
  : MacroProfile :=
  let quantity := RecipeIngredient.quantity ingredient in
  let nutrition := RecipeIngredient.ingredients ingredient in
  {| calories := (calories acc + (Ingredient.kcal nutrition * quantity) / 100)%num;
     protein := (protein acc + (Ingredient.protein nutrition * quantity) / 100)%num;
     carbs := (carbs acc + (Ingredient.carbs nutrition * quantity) / 100)%num;
     fat := (fat acc + (Ingredient.fat nutrition * quantity) / 100)%num |}.

(* ------------------------------------------------------------------------- *)
(** ** Auxiliary definitions: descending order *)

(** The comparator [(a, b) => key(b) - key(a)]. *)
Definition key_cmp {A : Type} (key : A -> num) (a b : A) : num :=
  (key b - key a)%num.

(** [a] may stand before [b]: its key is at least that of [b]. *)
Definition key_desc {A : Type} (key : A -> num) (a b : A) : Prop :=
  (key a >=? key b)%num = true.

(** Descending in [key]: every element may stand before all later ones. *)
Fixpoint descending {A : Type} (key : A -> num) (l : list A) : Prop :=
  match l with
  | [] => True
  | x :: l' => Forall (key_desc key x) l' /\ descending key l'
  end.

(** The densities the Gap Filler ranks by. *)
Definition carb_density (r : RecipeWithMacros) : num :=
  (carbs (macros r) / calories (macros r))%num.

Definition fat_density (r : RecipeWithMacros) : num :=
  (fat (macros r) / calories (macros r))%num.

(** The cursor of the greedy loop: as many slots used as assignments made,
    three slots to a day. *)
Definition cursor_inv (st : GreedyState) : Prop :=
  currentSlot st = Z.of_nat (List.length (selectedRecipes st))
  /\ currentDay st = (currentSlot st / 3)%Z.

(** Day and slot of the assignment made after [done]. *)
Definition placed_after (done : list Selection) (a : Selection) : Prop :=
  day a = JS.of_Z ((Z.of_nat (List.length done) / 3) mod 7)
  /\ slot a = nth (List.length done mod 3)%nat mealSlots "".

(** The sample user before anything was entered in the pantry. *)
Definition ex_db_empty_pantry : Db :=
  {| users_single := Some ex_user;
     pantry_items_select := Data None;
     recipes_select := Data (Some [ex_chicken_rice; ex_rice_bowl; ex_tap_water]);
     meal_plans_insert := inr "plan-4";
     meals_insert := fun _ => true |}.

(* ------------------------------------------------------------------------- *)
(** ** Auxiliary definitions: servings of a plan *)

(** What the Fine-Tuner may do to one assignment with a whole number of
    servings: keep recipe, day and slot, and leave a whole number of
    servings between 1 and what it was. *)
Definition tuned_down (a b : Selection) : Prop :=
  recipe b = recipe a /\ day b = day a /\ slot b = slot a
  /\ forall k : Z,
       servings a = JS.of_Z k -> (1 <= k)%Z ->
       exists k' : Z, servings b = JS.of_Z k' /\ (1 <= k' <= k)%Z.

(** Three servings become two; one and two servings stay. *)
Definition three_to_two (a : Selection) : Selection :=
  if (servings a === 3)%num then
    {| recipe := recipe a; servings := 2; day := day a; slot := slot a |}
  else a.

(** An integer or one of the three values that are not finite. *)
Definition whole_or_not_finite (x : num) : Prop :=
  whole x \/ x = PInf \/ x = NInf \/ x = NaN.

(** The constraints of the [meals] table on servings (an integer; the
    stages keep it between 1 and 3), day (0 to 6) and slot. *)
Definition valid_assignment (a : Selection) : Prop :=
  whole_between 1 3 (servings a)
  /\ whole_between 0 6 (day a)
  /\ In (slot a) ["breakfast"; "lunch"; "dinner"; "snack"].

Definition valid_meal (m : Meal.t) : Prop :=
  whole_between 1 3 (Meal.servings m)
  /\ whole_between 0 6 (Meal.day_of_week m)
  /\ In (Meal.meal_slot m) ["breakfast"; "lunch"; "dinner"; "snack"].

(* ------------------------------------------------------------------------- *)
(** ** Auxiliary definitions: plans within the stock *)

(** The ingredient of every requirement of every assignment of a plan. *)
Definition plan_ingredient_ids (assignments : list Selection) : list string :=
  flat_map
    (fun a => map RecipeIngredient.ingredient_id
                (Recipe.recipe_ingredients (base (recipe a))))
    assignments.

(** A positive whole number; a whole number that is not negative. *)
Definition whole_pos (x : num) : Prop :=
  exists z : Z, x = JS.of_Z z /\ (0 < z)%Z.

Definition whole_nonneg (x : num) : Prop :=
  exists z : Z, x = JS.of_Z z /\ (0 <= z)%Z.

(** Requirements for whole quantities, a pantry of whole quantities. *)
Definition whole_requirements (l : list RecipeIngredient.t) : Prop :=
  Forall (fun ri => whole_pos (RecipeIngredient.quantity ri)) l.

Definition whole_pantry (pantryItems : list PantryItem.t) : Prop :=
  Forall (fun p => whole_nonneg (PantryItem.quantity p)) pantryItems.

(** An assignment of a recipe that requires whole quantities, for a whole
    number of servings, no more than the pantry yields for that recipe. *)
Definition within_stock (pantryItems : list PantryItem.t) (a : Selection) : Prop :=
  whole_requirements (Recipe.recipe_ingredients (base (recipe a)))
  /\ whole_nonneg (servings a)
  /\ (servings a <=? calculateAvailableServings (base (recipe a)) pantryItems)%num
     = true.

(** A pantry with rice for three servings of either rice recipe, and the
    plan the stages compute from it for the sample user. *)
Definition ex_shared_rice_pantry : list PantryItem.t :=
  [ PantryItem.make "chicken" 1000%num "g"; PantryItem.make "rice" 300%num "g" ].

Definition ex_shared_rice_plan : list Selection :=
  finalRecipes_of ex_rng
    (recipesWithMacros_of [ex_chicken_rice; ex_rice_bowl] ex_shared_rice_pantry)
    (dailyTargets_of ex_user).

(** The recipe of an assignment is a row of the recipe table, and the
    assignment has no more servings than the pantry yields for it. *)
Definition within_availability (rows : list Recipe.t)
  (pantryItems : list PantryItem.t) (a : Selection) : Prop :=
  In (base (recipe a)) rows
  /\ (servings a <=? calculateAvailableServings (base (recipe a)) pantryItems)%num
     = true.

(** The plan computed for the sample user from chicken and rice and a
    dressing, which have no ingredient in common. *)
Definition ex_disjoint_plan : list Selection :=
  finalRecipes_of ex_rng
    (recipesWithMacros_of [ex_chicken_rice; ex_oil_shot] ex_pantry)
    (dailyTargets_of ex_user).

(* ------------------------------------------------------------------------- *)
(** ** Auxiliary definitions: the week and the profile of a call *)

(** The Monday the sample plans start on. *)
Definition ex_week : Date.t := Date.At "2024-01-01T00:00:00.000Z".

(** The same database with another profile row for the user. *)
Definition with_profile (db : Db) (userProfile : User.t) : Db :=
  {| users_single := Some userProfile;
     pantry_items_select := pantry_items_select db;
     recipes_select := recipes_select db;
     meal_plans_insert := meal_plans_insert db;
     meals_insert := meals_insert db |}.

(* ------------------------------------------------------------------------- *)
(** ** Auxiliary definitions: decimal quantities *)


Definition ex_rice_spoon : Recipe.t :=
  Recipe.make "r9" "Rice spoon" [ex_requirement ex_rice (26 # 10)].

Definition ex_rice_only (quantity : Q) : list PantryItem.t :=
  [ PantryItem.make "rice" (Fin quantity) "g" ].

Definition ex_servings_of (row : Recipe.t) (k : Z) : Selection :=
  {| recipe :=
       {| base := row;
          macros := calculateRecipeMacros row;
          proteinDensity := 0;
          availableServings := JS.of_Z k |};
     servings := JS.of_Z k; day := 0; slot := "breakfast" |}.

(* ------------------------------------------------------------------------- *)
(** ** Facts about numbers *)

Lemma Qltb_spec (a b : Q) : Qltb a b = true <-> a < b.
Proof.
  unfold Qltb. rewrite negb_true_iff.
  split; intro H.
  - apply Qnot_le_lt. intro Hle. apply Qle_bool_iff in Hle. congruence.
  - destruct (Qle_bool b a) eqn:E; [|reflexivity].
    apply Qle_bool_iff in E. exfalso. exact (Qlt_not_le _ _ H E).
Qed.

Lemma Qltb_false (a b : Q) : Qltb a b = false <-> b <= a.
Proof.
  unfold Qltb. rewrite negb_false_iff. apply Qle_bool_iff.
Qed.

Lemma le_of_Z (a b : Z) : (JS.of_Z a <=? JS.of_Z b)%num = (a <=? b)%Z.
Proof.
  unfold JS.of_Z; simpl. unfold Qle_bool; simpl. now rewrite !Z.mul_1_r.
Qed.

Lemma lt_of_Z (a b : Z) : (JS.of_Z a <? JS.of_Z b)%num = (a <? b)%Z.
Proof.
  unfold JS.of_Z; simpl. unfold Qltb, Qle_bool; simpl. rewrite !Z.mul_1_r.
  now rewrite Z.ltb_antisym.
Qed.

Lemma min_of_Z (a b : Z) : JS.min (JS.of_Z a) (JS.of_Z b) = JS.of_Z (Z.min a b).
Proof.
  unfold JS.min. change (Fin (inject_Z a)) with (JS.of_Z a).
  change (Fin (inject_Z b)) with (JS.of_Z b).
  unfold JS.of_Z at 1 2. cbv beta iota.
  change (Fin (inject_Z a)) with (JS.of_Z a).
  change (Fin (inject_Z b)) with (JS.of_Z b).
  rewrite le_of_Z.
  destruct (Z.leb_spec a b); [rewrite Z.min_l | rewrite Z.min_r]; auto; lia.
Qed.

Lemma min_PInf_l (x : num) : JS.min PInf x = x.
Proof. destruct x; reflexivity. Qed.

(* ------------------------------------------------------------------------- *)
(** ** The Availability Calculator *)

Lemma find_pantry_In pantryItems key p :
  find_pantry pantryItems key = Some p -> In p pantryItems.
Proof. intro H. apply find_some in H. tauto. Qed.

Lemma floor_div_pos (pq rq : num) :
  is_finite pq -> is_pos rq ->
  JS.floor (pq / rq)%num = JS.of_Z (Qfloor (num_q pq / num_q rq)).
Proof.
  destruct pq as [a| | |], rq as [b| | |]; cbn [is_finite is_pos num_q]; try tauto.
  intros _ Hb. cbn [JS.div].
  destruct (Qeq_bool b 0) eqn:E.
  - apply Qeq_bool_iff in E. rewrite E in Hb. exfalso. exact (Qlt_irrefl _ Hb).
  - reflexivity.
Qed.

Lemma is_nonneg_finite x : is_nonneg x -> is_finite x.
Proof. destruct x; simpl; tauto. Qed.

Lemma possibleZ_nonneg p ri :
  is_nonneg (PantryItem.quantity p) -> is_pos (RecipeIngredient.quantity ri) ->
  (0 <= possibleZ p ri)%Z.
Proof.
  unfold possibleZ.
  destruct (PantryItem.quantity p) as [a| | |]; cbn [is_nonneg num_q]; try tauto.
  destruct (RecipeIngredient.quantity ri) as [b| | |]; cbn [is_pos num_q]; try tauto.
  intros Ha Hb.
  change 0%Z with (Qfloor 0). apply Qfloor_resp_le.
  apply Qle_shift_div_l; [exact Hb|]. lra.
Qed.

Lemma availability_step_ext pantryItems a ri :
  nonneg_pantry pantryItems -> is_pos (RecipeIngredient.quantity ri) ->
  availability_step pantryItems (ext a) ri = ext (step_ext pantryItems a ri).
Proof.
  intros Hp Hri. unfold availability_step, step_ext.
  destruct (find_pantry pantryItems (RecipeIngredient.ingredient_id ri)) as [p|] eqn:E.
  - assert (Hq : is_nonneg (PantryItem.quantity p)).
    { apply find_pantry_In in E. unfold nonneg_pantry in Hp.
      rewrite Forall_forall in Hp. auto. }
    cbv zeta. rewrite floor_div_pos by auto using is_nonneg_finite.
    fold (possibleZ p ri).
    destruct a as [a|]; simpl ext.
    + apply min_of_Z.
    + apply min_PInf_l.
  - reflexivity.
Qed.

Lemma availability_fold_ext pantryItems l :
  nonneg_pantry pantryItems -> positive_requirements l ->
  forall a,
    fold_left (availability_step pantryItems) l (ext a)
    = ext (fold_left (step_ext pantryItems) l a).
Proof.
  intros Hp. induction 1 as [|ri l Hri Hl IH]; intro a; simpl.
  - reflexivity.
  - rewrite availability_step_ext by assumption. apply IH.
Qed.

Lemma step_ext_nonneg pantryItems a ri :
  nonneg_pantry pantryItems -> is_pos (RecipeIngredient.quantity ri) ->
  ext_nonneg a -> ext_nonneg (step_ext pantryItems a ri).
Proof.
  intros Hp Hri Ha. unfold step_ext.
  destruct (find_pantry _ _) as [p|] eqn:E; simpl; [|lia].
  assert (0 <= possibleZ p ri)%Z.
  { apply possibleZ_nonneg; auto. apply find_pantry_In in E.
    unfold nonneg_pantry in Hp. rewrite Forall_forall in Hp. auto. }
  destruct a; simpl in *; lia.
Qed.

Lemma nonneg_pantry_find pantryItems key p :
  nonneg_pantry pantryItems -> find_pantry pantryItems key = Some p ->
  is_nonneg (PantryItem.quantity p).
Proof.
  intros Hp E. apply find_pantry_In in E.
  unfold nonneg_pantry in Hp. rewrite Forall_forall in Hp. auto.
Qed.

Section AvailabilityFold.

Variable pantryItems : list PantryItem.t.
Hypothesis pantry_ok : nonneg_pantry pantryItems.

Let F := fold_left (step_ext pantryItems).

Lemma F_cons ri l a : F (ri :: l) a = F l (step_ext pantryItems a ri).
Proof. reflexivity. Qed.

Lemma step_ext_cases a ri :
  (absent pantryItems ri /\ step_ext pantryItems a ri = Some 0%Z)
  \/ (exists p,
        find_pantry pantryItems (RecipeIngredient.ingredient_id ri) = Some p
        /\ step_ext pantryItems a ri = Some (ext_min a (possibleZ p ri))).
Proof.
  unfold step_ext, absent.
  destruct (find_pantry _ _) as [p|]; [right; eauto | left; auto].
Qed.

Lemma fold_ext_some l z : exists n, F l (Some z) = Some n.
Proof.
  revert z. induction l as [|ri l IH]; intro z.
  - simpl; eauto.
  - rewrite F_cons.
    destruct (step_ext_cases (Some z) ri) as [[_ ->]|(p & _ & ->)]; apply IH.
Qed.

Lemma fold_ext_cons_some ri l a : exists n, F (ri :: l) a = Some n.
Proof.
  rewrite F_cons.
  destruct (step_ext_cases a ri) as [[_ ->]|(p & _ & ->)]; apply fold_ext_some.
Qed.

Lemma fold_ext_nonneg l :
  positive_requirements l -> forall a, ext_nonneg a -> ext_nonneg (F l a).
Proof.
  induction 1 as [|ri l Hri Hl IH]; intros a Ha; [exact Ha|].
  rewrite F_cons. apply IH. now apply step_ext_nonneg.
Qed.

Lemma fold_ext_le_start l :
  positive_requirements l ->
  forall z n, (0 <= z)%Z -> F l (Some z) = Some n -> (n <= z)%Z.
Proof.
  induction 1 as [|ri l Hri Hl IH]; intros z n Hz.
  - simpl. intro H. inversion H. lia.
  - rewrite F_cons.
    destruct (step_ext_cases (Some z) ri) as [[_ ->]|(p & E & ->)]; intro H.
    + apply IH in H; lia.
    + pose proof (possibleZ_nonneg p ri (nonneg_pantry_find _ pantry_ok E) Hri).
      apply IH in H; simpl in *; lia.
Qed.

Lemma fold_ext_le_each l :
  positive_requirements l ->
  forall a n ri p, ext_nonneg a -> F l a = Some n -> In ri l ->
    find_pantry pantryItems (RecipeIngredient.ingredient_id ri) = Some p ->
    (n <= possibleZ p ri)%Z.
Proof.
  induction 1 as [|r l Hr Hl IH]; intros a n ri p Ha HF Hin Hfind.
  - destruct Hin.
  - rewrite F_cons in HF. destruct Hin as [->|Hin].
    + unfold step_ext in HF. rewrite Hfind in HF.
      pose proof (possibleZ_nonneg p ri (nonneg_pantry_find _ pantry_ok Hfind) Hr).
      apply fold_ext_le_start in HF; auto.
      * destruct a; simpl in *; lia.
      * destruct a; simpl in *; lia.
    + apply (IH (step_ext pantryItems a r) n ri p); auto.
      now apply step_ext_nonneg.
Qed.

Lemma fold_ext_absent l :
  positive_requirements l ->
  forall a, ext_nonneg a ->
    (exists ri, In ri l /\ absent pantryItems ri) -> F l a = Some 0%Z.
Proof.
  induction 1 as [|r l Hr Hl IH]; intros a Ha (ri & Hin & Habs).
  - destruct Hin.
  - rewrite F_cons. destruct Hin as [->|Hin].
    + unfold step_ext. unfold absent in Habs. rewrite Habs.
      destruct (fold_ext_some l 0) as (n & Hn).
      pose proof (fold_ext_le_start Hl (z:=0) ltac:(lia) Hn).
      pose proof (fold_ext_nonneg Hl (Some 0%Z) ltac:(simpl; lia)) as Hnn.
      rewrite Hn in *. simpl in Hnn. f_equal. lia.
    + apply IH; [now apply step_ext_nonneg | eauto].
Qed.


End AvailabilityFold.

Lemma calculateAvailableServings_ext recipe pantryItems :
  nonneg_pantry pantryItems ->
  positive_requirements (Recipe.recipe_ingredients recipe) ->
  calculateAvailableServings recipe pantryItems
  = match fold_left (step_ext pantryItems) (Recipe.recipe_ingredients recipe) None with
    | Some n => JS.of_Z n
    | None => 0%num
    end.
Proof.
  intros Hp Hl. unfold calculateAvailableServings.
  change PInf with (ext None).
  rewrite availability_fold_ext by assumption.
  destruct (fold_left _ _ _); reflexivity.
Qed.







(** C5 as stated fails: the recipe without requirements is reported with
    zero servings and not with an unbounded number of them. *)
Lemma no_requirement_is_not_unlimited :
  calculateAvailableServings ex_tap_water ex_pantry = 0%num
  /\ calculateAvailableServings ex_tap_water ex_pantry <> PInf
  /\ (calculateAvailableServings ex_tap_water ex_pantry >? 0)%num = false.
Proof. split; [reflexivity | split; [discriminate | reflexivity]]. Qed.




(* ------------------------------------------------------------------------- *)
(** ** Comparisons of numbers, case by case *)

Lemma Qle_bool_false (a b : Q) : Qle_bool a b = false <-> b < a.
Proof.
  split; intro H.
  - apply Qnot_le_lt. intro Hle. apply Qle_bool_iff in Hle. congruence.
  - destruct (Qle_bool a b) eqn:E; [|reflexivity].
    apply Qle_bool_iff in E. exfalso. exact (Qlt_not_le _ _ H E).
Qed.

Lemma Qeq_bool_false (a b : Q) : Qeq_bool a b = false <-> ~ a == b.
Proof.
  split; intro H.
  - intro E. apply Qeq_bool_iff in E. congruence.
  - destruct (Qeq_bool a b) eqn:E; [|reflexivity].
    apply Qeq_bool_iff in E. contradiction.
Qed.

Ltac q_prop :=
  repeat match goal with
    | H : Qle_bool _ _ = true |- _ => apply Qle_bool_iff in H
    | H : Qle_bool _ _ = false |- _ => apply Qle_bool_false in H
    | H : Qltb _ _ = true |- _ => apply Qltb_spec in H
    | H : Qltb _ _ = false |- _ => apply Qltb_false in H
    | H : Qeq_bool _ _ = true |- _ => apply Qeq_bool_iff in H
    | H : Qeq_bool _ _ = false |- _ => apply Qeq_bool_false in H
    | |- Qle_bool _ _ = true => apply Qle_bool_iff
    | |- Qle_bool _ _ = false => apply Qle_bool_false
    | |- Qltb _ _ = true => apply Qltb_spec
    | |- Qltb _ _ = false => apply Qltb_false
    | |- Qeq_bool _ _ = true => apply Qeq_bool_iff
    | |- Qeq_bool _ _ = false => apply Qeq_bool_false
    end.

Ltac q_if :=
  repeat match goal with
    | |- context [if ?c then _ else _] => destruct c eqn:?
    | H : context [if ?c then _ else _] |- _ => destruct c eqn:?
    end.

(** Unfold the operations, split on the kind of every number in sight and
    leave linear arithmetic over the rationals. *)
Ltac num_crush :=
  unfold JS.gt, JS.ge, JS.min3, JS.sub, JS.of_Z in *;
  cbn [JS.min JS.max JS.le JS.lt JS.add JS.neg JS.floor JS.ceil JS.round
       JS.abs JS.seq JS.is_finite] in *;
  q_if;
  cbn [JS.min JS.max JS.le JS.lt JS.add JS.neg JS.floor JS.ceil JS.round
       JS.abs JS.seq JS.is_finite] in *;
  try discriminate; try reflexivity; try tauto;
  q_prop; change (inject_Z 0) with 0 in *;
  try lra.

Lemma gt_min_l x y : (JS.min x y >? 0)%num = true -> (x >? 0)%num = true.
Proof. destruct x, y; intro H; num_crush. Qed.

Lemma min_le_r x y : (JS.min x y >? 0)%num = true -> (JS.min x y <=? y)%num = true.
Proof. destruct x, y; intro H; num_crush. Qed.

Lemma gt_ceil x : (JS.ceil x >? 0)%num = true -> (x >? 0)%num = true.
Proof.
  destruct x as [q| | |]; auto.
  unfold JS.gt, JS.ceil, JS.of_Z. cbn [JS.lt]. rewrite !Qltb_spec.
  intro H. change 0 with (inject_Z 0) in H. rewrite <- Zlt_Qlt in H.
  pose proof (Qceiling_lt q) as Hc.
  apply Qle_lt_trans with (inject_Z (Qceiling q - 1)); [|exact Hc].
  change 0 with (inject_Z 0). rewrite <- Zle_Qle. lia.
Qed.

Lemma zero_div_not_pos p : (0 / p >? 0)%num = false.
Proof.
  destruct p as [b| | |]; try reflexivity.
  unfold JS.gt, JS.of_Z. cbn [JS.div].
  destruct (Qeq_bool b 0); [reflexivity|].
  cbn [JS.lt]. apply Qltb_false.
  assert (inject_Z 0 / b == 0) as -> by (unfold Qdiv; apply Qmult_0_l).
  apply Qle_refl.
Qed.

Lemma gt_max0_div d p : (JS.max 0 d / p >? 0)%num = true -> (d >? 0)%num = true.
Proof.
  destruct d as [q| | |]; try (intro H; num_crush; fail).
  - cbn [JS.max JS.le].
    destruct (Qle_bool q 0) eqn:E.
    + rewrite zero_div_not_pos. discriminate.
    + intros _. num_crush.
  - cbn [JS.max JS.le]. rewrite zero_div_not_pos. discriminate.
Qed.

Lemma gt_sub_not_le t x : (t - x >? 0)%num = true -> (t <=? x)%num = false.
Proof. destruct t, x; intro H; num_crush. Qed.


(* ------------------------------------------------------------------------- *)
(** ** The greedy protein fill *)

Lemma weeklyMacros_snoc l s :
  weeklyMacros (l ++ [s])
  = add_servings (weeklyMacros l) (macros (recipe s)) (servings s).
Proof. unfold weeklyMacros. now rewrite fold_left_app. Qed.

Lemma all_splits_nil {A : Type} (P : list A -> A -> Prop) : all_splits P [].
Proof. intros pre a post H. destruct pre; discriminate. Qed.

Lemma all_splits_snoc {A : Type} (P : list A -> A -> Prop) l s :
  all_splits P l -> P l s -> all_splits P (l ++ [s]).
Proof.
  intros Hl Hs pre a post H.
  destruct (exists_last (l := a :: post) ltac:(discriminate)) as (mid & z & Hz).
  rewrite Hz, app_assoc in H.
  apply app_inj_tail in H. destruct H as (Hl' & <-).
  destruct mid as [|b mid]; simpl in Hz; inversion Hz; subst.
  - rewrite app_nil_r in Hs. exact Hs.
  - now apply (Hl pre b mid).
Qed.

(** A positive number of servings is pushed only below the target. *)
Lemma servingsToAdd_pos_below_target dailyTargets cur r :
  (servingsToAdd dailyTargets cur r >? 0)%num = true ->
  (protein dailyTargets <=? protein cur / 7)%num = false.
Proof.
  unfold servingsToAdd, dailyProteinNeeded, JS.min3. intro H.
  apply gt_min_l, gt_min_l, gt_ceil, gt_max0_div in H.
  now apply gt_sub_not_le.
Qed.

Lemma servingsToAdd_le_3 dailyTargets cur r :
  (servingsToAdd dailyTargets cur r >? 0)%num = true ->
  (servingsToAdd dailyTargets cur r <=? 3)%num = true.
Proof. unfold servingsToAdd, JS.min3. apply min_le_r. Qed.

Lemma greedy_body_spec dailyTargets st r st' :
  greedy_inv st ->
  all_splits (pushed_after dailyTargets) (selectedRecipes st) ->
  greedy_body dailyTargets st r = Some st' ->
  greedy_inv st' /\ all_splits (pushed_after dailyTargets) (selectedRecipes st').
Proof.
  intros Hinv Hall. unfold greedy_body.
  destruct (dailyProteinNeeded dailyTargets (currentMacros st) <=? 0)%num;
    [discriminate|].
  cbv zeta.
  destruct (servingsToAdd dailyTargets (currentMacros st) r >? 0)%num eqn:E;
    intro H; inversion H; subst st'; clear H; [|now split].
  cbn [selectedRecipes currentMacros]. split.
  - unfold greedy_inv. cbn [selectedRecipes currentMacros].
    rewrite weeklyMacros_snoc. cbn [recipe servings]. now rewrite Hinv.
  - apply all_splits_snoc; [exact Hall|].
    unfold pushed_after. cbn [recipe servings].
    rewrite <- Hinv. split; [reflexivity | exact E].
Qed.

Lemma greedy_loop_spec dailyTargets rs :
  forall st,
    greedy_inv st ->
    all_splits (pushed_after dailyTargets) (selectedRecipes st) ->
    greedy_inv (greedy_loop dailyTargets rs st)
    /\ all_splits (pushed_after dailyTargets)
         (selectedRecipes (greedy_loop dailyTargets rs st)).
Proof.
  induction rs as [|r rs IH]; intros st Hinv Hall; simpl.
  - now split.
  - destruct (greedy_body dailyTargets st r) as [st'|] eqn:E; [|now split].
    destruct (greedy_body_spec r Hinv Hall E) as (Hinv' & Hall').
    now apply IH.
Qed.

(** Once the daily average has reached the target, the loop changes nothing. *)
Lemma greedy_loop_reached dailyTargets rs :
  forall st,
    (protein (currentMacros st) / 7 >=? protein dailyTargets)%num = true ->
    greedy_loop dailyTargets rs st = st.
Proof.
  induction rs as [|r rs IH]; intros st Hge; simpl; [reflexivity|].
  unfold greedy_body.
  destruct (dailyProteinNeeded dailyTargets (currentMacros st) <=? 0)%num;
    [reflexivity|].
  cbv zeta.
  destruct (servingsToAdd dailyTargets (currentMacros st) r >? 0)%num eqn:E.
  - apply servingsToAdd_pos_below_target in E. unfold JS.ge in Hge. congruence.
  - now apply IH.
Qed.

(** C1.  In the list the greedy protein fill returns, every assignment [a],
    with [pre] the assignments emitted before it, has
    servings = min(ceil(gap / protein per serving), availableServings, 3)
    for the gap max(0, target - weekly protein of [pre] / 7); its servings
    are positive and at most 3; and the weekly protein of [pre] divided by 7
    is not greater than or equal to the target.  The accumulator the stage
    returns is the weekly sum of the list, and from a state whose
    accumulated protein divided by 7 has reached the target the loop emits
    nothing more, whatever recipes remain. *)
Theorem greedy_protein_fill_bounded :
  forall (recipes : list RecipeWithMacros) (dailyTargets : MacroProfile),
    snd (greedyProteinFill recipes dailyTargets)
    = weeklyMacros (fst (greedyProteinFill recipes dailyTargets))
    /\ (forall pre a post,
          fst (greedyProteinFill recipes dailyTargets) = pre ++ a :: post ->
          servings a
          = JS.min3
              (JS.ceil (JS.max 0 (protein dailyTargets - protein (weeklyMacros pre) / 7)
                        / protein (macros (recipe a)))%num)
              (availableServings (recipe a)) 3
          /\ (servings a >? 0)%num = true
          /\ (servings a <=? 3)%num = true
          /\ (protein (weeklyMacros pre) / 7 >=? protein dailyTargets)%num = false)
    /\ (forall (rest : list RecipeWithMacros) (st : GreedyState),
          (protein (currentMacros st) / 7 >=? protein dailyTargets)%num = true ->
          selectedRecipes (greedy_loop dailyTargets rest st) = selectedRecipes st).
Proof.
  intros recipes dailyTargets.
  destruct (@greedy_loop_spec dailyTargets (sortByProteinDensity recipes) greedy_init)
    as (Hinv & Hall).
  { reflexivity. }
  { apply all_splits_nil. }
  unfold greedyProteinFill. cbn [fst snd].
  split; [exact Hinv | split].
  - intros pre a post Hsplit.
    destruct (Hall pre a post Hsplit) as (Hs & Hpos).
    split; [exact Hs|]. split; [exact Hpos|].
    rewrite Hs in Hpos |- *. split.
    + now apply servingsToAdd_le_3.
    + unfold JS.ge. now apply servingsToAdd_pos_below_target with (r := recipe a).
  - intros rest st Hge. now rewrite greedy_loop_reached.
Qed.

Lemma greedy_protein_fill_bounded_witness :
  fst (greedyProteinFill [ex_chicken_rice_macros] ex_targets)
  = [] ++ {| recipe := ex_chicken_rice_macros; servings := 3;
             day := 0; slot := "breakfast" |} :: []
  /\ (3 <=? 3)%num = true
  /\ (protein (weeklyMacros []) / 7 >=? protein ex_targets)%num = false.
Proof.
  assert (H : fst (greedyProteinFill [ex_chicken_rice_macros] ex_targets)
              = [] ++ {| recipe := ex_chicken_rice_macros; servings := 3;
                         day := 0; slot := "breakfast" |} :: []).
  { reflexivity. }
  split; [exact H|].
  destruct (greedy_protein_fill_bounded [ex_chicken_rice_macros] ex_targets)
    as (_ & Hsplit & _).
  destruct (Hsplit _ _ _ H) as (_ & _ & Hle & Hbelow).
  split; [exact Hle | exact Hbelow].
Defined.

(* ------------------------------------------------------------------------- *)
(** ** The Fine-Tuner *)

Lemma weekly_calories_finite l :
  Forall finite_assignment l ->
  forall acc, is_finite (calories acc) ->
    is_finite
      (calories
         (fold_left
            (fun acc selection =>
               add_servings acc (macros (recipe selection)) (servings selection))
            l acc)).
Proof.
  induction 1 as [|a l (Hs & Hc) Hl IH]; intros acc Hacc; simpl; [exact Hacc|].
  apply IH. cbn [add_servings calories].
  destruct (calories acc), (calories (macros (recipe a))), (servings a);
    cbn in *; tauto.
Qed.

Lemma relative_deviation_finite assignments dailyTargets :
  Forall finite_assignment assignments -> is_pos (calories dailyTargets) ->
  is_finite (relative_deviation assignments dailyTargets).
Proof.
  intros Hl Ht. unfold relative_deviation, dailyMacros. cbn [calories].
  pose proof (weekly_calories_finite Hl zero_macros I) as Hw.
  fold (weeklyMacros assignments) in Hw.
  destruct (calories (weeklyMacros assignments)) as [w| | |];
    cbn [is_finite] in Hw; try contradiction.
  destruct (calories dailyTargets) as [t| | |];
    cbn [is_pos] in Ht; try contradiction.
  cbn.
  destruct (Qeq_bool t 0) eqn:E; [|exact I].
  apply Qeq_bool_iff in E. rewrite E in Ht. destruct (Qlt_irrefl _ Ht).
Qed.

Lemma gt_negb_le x c : is_finite x -> (x >? Fin c)%num = negb (x <=? Fin c)%num.
Proof.
  destruct x as [q| | |]; cbn [is_finite]; [reflexivity | tauto ..].
Qed.

(** C7.  For assignments with finite servings and calories and a positive
    target, the Fine-Tuner returns the assignments unchanged when the
    relative deviation of the daily-average calories from the target is at
    most 15%; otherwise it replaces the servings of every assignment by
    max(1, round(servings * f)), with the one multiplier f = 0.8 when the
    deviation exceeds 50% and f = 0.9 when it does not. *)
Theorem fine_tuner_single_pass :
  forall (assignments : list Selection) (dailyTargets : MacroProfile),
    Forall finite_assignment assignments ->
    is_pos (calories dailyTargets) ->
    fineTuneMacros assignments dailyTargets = fine_tune_spec assignments dailyTargets.
Proof.
  intros assignments dailyTargets Hl Ht.
  pose proof (@relative_deviation_finite _ _ Hl Ht) as Hd.
  unfold fineTuneMacros, fine_tune_spec. cbv zeta.
  fold (relative_deviation assignments dailyTargets).
  rewrite (@gt_negb_le _ (15 # 100) Hd).
  destruct (relative_deviation assignments dailyTargets <=? Fin (15 # 100))%num;
    cbn [negb].
  - apply map_id.
  - apply map_ext. intro a. reflexivity.
Qed.

Lemma fine_tuner_single_pass_witness :
  Forall finite_assignment [ex_three_chicken_rice]
  /\ is_pos (calories ex_targets)
  /\ fineTuneMacros [ex_three_chicken_rice] ex_targets
     = fine_tune_spec [ex_three_chicken_rice] ex_targets
  /\ map servings (fineTuneMacros [ex_three_chicken_rice] ex_targets) = [2%num].
Proof.
  assert (H1 : Forall finite_assignment [ex_three_chicken_rice]).
  { repeat constructor. }
  assert (H2 : is_pos (calories ex_targets)) by reflexivity.
  split; [exact H1 | split; [exact H2 | split]].
  - exact (@fine_tuner_single_pass _ _ H1 H2).
  - reflexivity.
Defined.

(* ------------------------------------------------------------------------- *)
(** ** The accuracy summary *)

Lemma Qdiv_le_iff (d t c : Q) : 0 < t -> (d / t <= c <-> d <= c * t).
Proof.
  intro Ht. split; intro H.
  - assert (E : d == d / t * t) by (field; lra).
    rewrite E. apply Qmult_le_compat_r; lra.
  - apply Qle_shift_div_r; assumption.
Qed.

Lemma Qdiv_lt_iff (d t c : Q) : 0 < t -> (c < d / t <-> c * t < d).
Proof.
  intro Ht. split; intro H.
  - apply Qnot_le_lt. intro Hle. apply Qdiv_le_iff in Hle; [lra | assumption].
  - apply Qnot_le_lt. intro Hle. apply Qdiv_le_iff in Hle; [lra | assumption].
Qed.

Lemma Qfloor_eq_iff (y : Q) (n : Z) :
  Qfloor y = n <-> inject_Z n <= y /\ y < inject_Z (n + 1).
Proof.
  split.
  - intros <-. split; [apply Qfloor_le | apply Qlt_floor].
  - intros (Hlo & Hhi).
    pose proof (Qfloor_le y) as H1. pose proof (Qlt_floor y) as H2.
    assert (inject_Z n < inject_Z (Qfloor y + 1)) as H3 by lra.
    assert (inject_Z (Qfloor y) < inject_Z (n + 1)) as H4 by lra.
    rewrite <- Zlt_Qlt in H3, H4. lia.
Qed.

Lemma Qfloor_neg_iff (y : Q) : (Qfloor y < 0)%Z <-> y < 0.
Proof.
  split; intro H.
  - pose proof (Qlt_floor y) as H2.
    assert (inject_Z (Qfloor y + 1) <= inject_Z 0) by (rewrite <- Zle_Qle; lia).
    change (inject_Z 0) with 0 in *. lra.
  - pose proof (Qfloor_le y) as H1.
    assert (inject_Z (Qfloor y) < inject_Z 0)
      by (change (inject_Z 0) with 0; lra).
    now rewrite <- Zlt_Qlt in *.
Qed.

Lemma accuracy_finite (a t : Q) :
  0 < t ->
  accuracy (Fin a) (Fin t)
  = JS.of_Z (Qfloor ((1 - Qabs (a - t) / t) * 100 + (1 # 2))).
Proof.
  intro Ht. unfold accuracy. cbn.
  destruct (Qeq_bool t 0) eqn:E.
  - apply Qeq_bool_iff in E. lra.
  - reflexivity.
Qed.

Lemma Qdiv_ge_iff (d t c : Q) : 0 < t -> (c <= d / t <-> c * t <= d).
Proof.
  intro Ht. split; intro H.
  - assert (E : d == d / t * t) by (field; lra).
    rewrite E. apply Qmult_le_compat_r; lra.
  - apply Qle_shift_div_l; assumption.
Qed.

Lemma of_Z_inj (a b : Z) : JS.of_Z a = JS.of_Z b -> a = b.
Proof. unfold JS.of_Z, inject_Z. intro H. now injection H. Qed.

(** C9 (as amended).  For a final plan whose daily-average calories are the
    finite number [actual] and a positive target, macroAccuracy.calories is
    round((1 - |actual - target| / target) * 100), unclamped.  It is 100
    when actual equals the target, and more generally exactly when
    |actual - target| is at most 0.5% of the target; it is negative exactly
    when |actual - target| exceeds 100.5% of the target, so whenever actual
    exceeds 2.005 times the target; and from 3 times the target on it is
    -100 or less. *)
Theorem accuracy_calories_raw_percentage :
  forall (finalRecipes : list Selection) (dailyTargets : MacroProfile)
         (actual target : Q),
    calories (finalMacros finalRecipes) = Fin actual ->
    calories dailyTargets = Fin target ->
    0 < target ->
    let acc := acc_calories (macroAccuracy_of finalRecipes dailyTargets) in
    acc = JS.round ((1 - JS.abs (Fin actual - Fin target) / Fin target) * 100)%num
    /\ (actual == target -> acc = 100%num)
    /\ (acc = 100%num <-> 200 * Qabs (actual - target) <= target)
    /\ ((acc <? 0)%num = true <-> 201 * target < 200 * Qabs (actual - target))
    /\ ((2 + (1 # 200)) * target < actual -> (acc <? 0)%num = true)
    /\ (3 * target <= actual -> (acc <=? -100)%num = true).
Proof.
  intros finalRecipes dailyTargets actual target Ha Ht Hpos acc.
  assert (Hacc : acc = JS.of_Z (Qfloor ((1 - Qabs (actual - target) / target) * 100 + (1 # 2)))).
  { unfold acc, macroAccuracy_of. cbn [acc_calories]. rewrite Ha, Ht.
    now apply accuracy_finite. }
  set (D := Qabs (actual - target)) in *.
  assert (HD : 0 <= D) by apply Qabs_nonneg.
  set (q := D / target) in *.
  assert (Hq : forall c, q <= c <-> D <= c * target)
    by (intro c; now apply Qdiv_le_iff).
  assert (Hq' : forall c, c < q <-> c * target < D)
    by (intro c; now apply Qdiv_lt_iff).
  assert (Hge : forall c, c <= q <-> c * target <= D)
    by (intro c; now apply Qdiv_ge_iff).
  assert (H0 : 0 <= q) by (apply Hge; lra).
  assert (Hneg : (acc <? 0)%num = true <-> 201 * target < 200 * D).
  { rewrite Hacc. change (0%num) with (JS.of_Z 0). rewrite lt_of_Z, Z.ltb_lt.
    rewrite Qfloor_neg_iff. specialize (Hq' (201 # 200)).
    split; intro H.
    - assert (Hc : (201 # 200) < q) by lra. apply Hq' in Hc. lra.
    - assert (Hc : (201 # 200) * target < D) by lra. apply Hq' in Hc. lra. }
  assert (Hhundred : acc = 100%num <-> 200 * D <= target).
  { rewrite Hacc. change (100%num) with (JS.of_Z 100).
    split; intro H.
    - assert (Hz : Qfloor ((1 - q) * 100 + (1 # 2)) = 100%Z).
      { now apply of_Z_inj. }
      apply Qfloor_eq_iff in Hz. destruct Hz as (Hlo & _).
      change (inject_Z 100) with 100 in Hlo.
      assert (Hc : q <= 1 # 200) by lra. apply Hq in Hc. lra.
    - f_equal. apply Qfloor_eq_iff.
      change (inject_Z 100) with 100. change (inject_Z (100 + 1)) with 101.
      assert (Hc : q <= 1 # 200) by (apply Hq; lra). lra. }
  split; [|split; [|split; [|split; [|split]]]].
  - unfold acc, macroAccuracy_of, accuracy. cbn [acc_calories]. now rewrite Ha, Ht.
  - intro E. apply Hhundred.
    assert (E0 : actual - target == 0) by lra.
    unfold D. rewrite E0. cbn. lra.
  - exact Hhundred.
  - exact Hneg.
  - intro H. apply Hneg.
    assert (actual - target <= D) by apply Qle_Qabs. lra.
  - intro H. rewrite Hacc. change ((-100)%num) with (JS.of_Z (-100)).
    rewrite le_of_Z. apply Z.leb_le.
    assert (Hlt : (Qfloor ((1 - q) * 100 + (1 # 2)) < -100 + 1)%Z).
    { rewrite Zlt_Qlt.
      apply Qle_lt_trans with ((1 - q) * 100 + (1 # 2)); [apply Qfloor_le|].
      change (inject_Z (-100 + 1)) with (-99 # 1).
      assert (actual - target <= D) by apply Qle_Qabs.
      assert (Hc : 2 <= q) by (apply Hge; lra).
      lra. }
    lia.
Qed.

(** What a successful run of [generatePlan] returns, stage by stage. *)
Lemma generatePlan_inr db rng userId weekStart r :
  generatePlan db rng userId weekStart = inr r ->
  exists userProfile pantryItems recipes planId,
    users_single db = Some userProfile
    /\ pantry_items_select db = Data pantryItems
    /\ recipes_select db = Data (Some recipes)
    /\ meal_plans_insert db = inr planId
    /\ let pantry := pantry_or_empty pantryItems in
       let dailyTargets := dailyTargets_of userProfile in
       let recipesWithMacros := recipesWithMacros_of recipes pantry in
       let finalRecipes := finalRecipes_of rng recipesWithMacros dailyTargets in
       let currentMacros := snd (greedyProteinFill recipesWithMacros dailyTargets) in
       meals r = insert_meals (meals_insert db) planId 0 finalRecipes
       /\ missingIngredients r = calculateMissingIngredients finalRecipes pantry
       /\ macroAccuracy r = macroAccuracy_of finalRecipes dailyTargets
       /\ MealPlan.total_kcal (mealPlan r) = JS.round (calories currentMacros)
       /\ MealPlan.total_protein (mealPlan r) = JS.round (protein currentMacros)
       /\ MealPlan.total_carbs (mealPlan r) = JS.round (carbs currentMacros)
       /\ MealPlan.total_fat (mealPlan r) = JS.round (fat currentMacros).
Proof.
  unfold generatePlan, finalRecipes_of.
  destruct (users_single db) as [userProfile|]; [|discriminate].
  destruct (pantry_items_select db) as [|pantryItems]; [discriminate|].
  destruct (recipes_select db) as [|[recipes|]]; [discriminate| |discriminate].
  fold (pantry_or_empty pantryItems).
  destruct (greedyProteinFill
              (recipesWithMacros_of recipes (pantry_or_empty pantryItems))
              (dailyTargets_of userProfile)) as [proteinFilled cur] eqn:Eg.
  destruct (toISOString weekStart) as [thrown|iso]; [discriminate|].
  destruct (meal_plans_insert db) as [planError|planId]; [discriminate|].
  intro H. inversion H; subst r; clear H.
  exists userProfile, pantryItems, recipes, planId.
  cbv zeta. rewrite Eg. cbn [snd]. repeat split; reflexivity.
Qed.

Lemma accuracy_calories_raw_percentage_witness :
  calories (finalMacros [ex_three_chicken_rice]) = Fin (1200 # 7)
  /\ calories ex_targets = Fin 2000
  /\ 0 < 2000
  /\ ((acc_calories (macroAccuracy_of [ex_three_chicken_rice] ex_targets) <? 0)%num = true
      <-> 201 * 2000 < 200 * Qabs ((1200 # 7) - 2000)).
Proof.
  assert (H1 : calories (finalMacros [ex_three_chicken_rice]) = Fin (1200 # 7))
    by reflexivity.
  assert (H2 : calories ex_targets = Fin 2000) by reflexivity.
  assert (H3 : 0 < 2000) by reflexivity.
  split; [exact H1 | split; [exact H2 | split; [exact H3 |]]].
  destruct (@accuracy_calories_raw_percentage _ _ _ _ H1 H2 H3)
    as (_ & _ & _ & Hneg & _).
  exact Hneg.
Defined.

(** C9 as stated fails just above twice the target: the shake plan averages
    4001 kcal a day against a target of 2000, and generatePlan reports a
    calorie accuracy of 0, which is not negative. *)
Lemma accuracy_zero_just_above_double_target :
  match generatePlan ex_db_gainer ex_rng "u1" ex_week with
  | inr r =>
      macroAccuracy r = macroAccuracy_of ex_gainer_plan (dailyTargets_of ex_user)
      /\ calories (dailyTargets_of ex_user) = 2000%num
      /\ calories (finalMacros ex_gainer_plan) = Fin (28007 # 7)
      /\ (2 * 2000 <? Fin (28007 # 7))%num = true
      /\ acc_calories (macroAccuracy r) = 0%num
      /\ (acc_calories (macroAccuracy r) <? 0)%num = false
  | inl _ => False
  end.
Proof. vm_compute. repeat split. Qed.

(* ------------------------------------------------------------------------- *)
(** ** The weekly totals of the stored plan *)

(** C4.  The totals stored with the plan are the rounded accumulator of the
    greedy stage.  For the low-protein user the plan has three meals: one
    serving of chicken and rice from the greedy stage and two snacks of two
    servings from the Gap Filler, 734 kcal, 43 g of protein, 64 g of
    carbohydrate and 28 g of fat in all; the stored totals are 336, 37, 18
    and 6, those of the greedy assignment alone. *)
Theorem plan_totals_stop_at_greedy_stage :
  match generatePlan ex_db_low_protein ex_rng "u2" ex_week with
  | inr r =>
      map (fun m => (Meal.recipe_id m, Meal.servings m, Meal.meal_slot m)) (meals r)
      = [("r1", 1%num, "breakfast"); ("r2", 2%num, "snack"); ("r3", 2%num, "snack")]
      /\ meals r = insert_meals (fun _ => true) "plan-2" 0 ex_low_protein_plan
      /\ weeklyMacros ex_low_protein_plan
         = {| calories := 734; protein := 43; carbs := 64; fat := 28 |}
      /\ MealPlan.total_kcal (mealPlan r) = 336%num
      /\ MealPlan.total_protein (mealPlan r) = 37%num
      /\ MealPlan.total_carbs (mealPlan r) = 18%num
      /\ MealPlan.total_fat (mealPlan r) = 6%num
  | inl _ => False
  end.
Proof. vm_compute. repeat split. Qed.

(* ------------------------------------------------------------------------- *)
(** ** Errors of generatePlan *)

(** C6 (as amended).  generatePlan never inspects the energy target or the
    macro percentages, and no value of theirs makes it fail.  Whatever the
    profile holds, once the profile, the pantry and the recipes are fetched,
    the week start is a valid date and the plan row is stored, the call
    succeeds and returns the meals of the three planning stages; and a call
    that fails fails with the same error when the profile row is replaced
    by any other, the responses of the database being the same. *)
Theorem generatePlan_does_not_validate_targets :
  forall (db : Db) (rng : Rng) (userId : string) (weekStart : Date.t),
    (forall userProfile pantryItems recipes iso planId,
        users_single db = Some userProfile ->
        pantry_items_select db = Data pantryItems ->
        recipes_select db = Data (Some recipes) ->
        weekStart = Date.At iso ->
        meal_plans_insert db = inr planId ->
        exists r,
          generatePlan db rng userId weekStart = inr r
          /\ meals r
             = insert_meals (meals_insert db) planId 0
                 (finalRecipes_of rng
                    (recipesWithMacros_of recipes (pantry_or_empty pantryItems))
                    (dailyTargets_of userProfile)))
    /\ (forall userProfile userProfile' e,
          users_single db = Some userProfile ->
          generatePlan db rng userId weekStart = inl e ->
          generatePlan (with_profile db userProfile') rng userId weekStart = inl e).
Proof.
  intros db rng userId weekStart. split.
  - intros userProfile pantryItems recipes iso planId Hu Hp Hr Hw Hi.
    unfold generatePlan, finalRecipes_of. rewrite Hu, Hp, Hr, Hw.
    fold (pantry_or_empty pantryItems).
    destruct (greedyProteinFill _ _) as [proteinFilled cur].
    cbn [toISOString]. rewrite Hi. eexists. split; reflexivity.
  - intros userProfile userProfile' e Hu. unfold generatePlan.
    cbn [with_profile users_single pantry_items_select recipes_select
         meal_plans_insert meals_insert].
    rewrite Hu.
    destruct (pantry_items_select db) as [|pantryItems]; [exact (fun H => H)|].
    destruct (recipes_select db) as [|[recipes|]];
      [exact (fun H => H) | | exact (fun H => H)].
    destruct (greedyProteinFill _ (dailyTargets_of userProfile))
      as [proteinFilled cur].
    destruct (greedyProteinFill _ (dailyTargets_of userProfile'))
      as [proteinFilled' cur'].
    destruct (toISOString weekStart) as [thrown|iso]; [exact (fun H => H)|].
    destruct (meal_plans_insert db) as [planError|planId];
      [exact (fun H => H) | discriminate].
Qed.

Lemma generatePlan_does_not_validate_targets_witness :
  users_single (ex_db_of ex_user_bad_pct) = Some ex_user_bad_pct
  /\ pantry_items_select (ex_db_of ex_user_bad_pct) = Data (Some ex_pantry)
  /\ recipes_select (ex_db_of ex_user_bad_pct)
     = Data (Some [ex_chicken_rice; ex_rice_bowl; ex_oil_shot])
  /\ ex_week = Date.At "2024-01-01T00:00:00.000Z"
  /\ meal_plans_insert (ex_db_of ex_user_bad_pct) = inr "plan-3"
  /\ exists r,
       generatePlan (ex_db_of ex_user_bad_pct) ex_rng "u3" ex_week = inr r
       /\ meals r
          = insert_meals (meals_insert (ex_db_of ex_user_bad_pct)) "plan-3" 0
              (finalRecipes_of ex_rng
                 (recipesWithMacros_of [ex_chicken_rice; ex_rice_bowl; ex_oil_shot]
                    (pantry_or_empty (Some ex_pantry)))
                 (dailyTargets_of ex_user_bad_pct)).
Proof.
  repeat (split; [reflexivity|]).
  exact (proj1 (generatePlan_does_not_validate_targets
                  (ex_db_of ex_user_bad_pct) ex_rng "u3" ex_week)
           ex_user_bad_pct (Some ex_pantry)
           [ex_chicken_rice; ex_rice_bowl; ex_oil_shot]
           "2024-01-01T00:00:00.000Z" "plan-3"
           eq_refl eq_refl eq_refl eq_refl eq_refl).
Defined.

(** C6 as stated fails: with an energy target of -2000 and a protein
    percentage of -30, and with a protein percentage of 150, generatePlan
    raises no error and returns a plan of three meals. *)
Lemma invalid_targets_are_planned :
  User.kcal_target ex_user_bad_energy = (-2000)%num
  /\ User.protein_pct ex_user_bad_energy = (-30)%num
  /\ User.protein_pct ex_user_bad_pct = 150%num
  /\ match generatePlan (ex_db_of ex_user_bad_energy) ex_rng "u4" ex_week with
     | inr r => map Meal.servings (meals r) = [3%num; 3%num; 3%num]
     | inl _ => False
     end
  /\ match generatePlan (ex_db_of ex_user_bad_pct) ex_rng "u3" ex_week with
     | inr r => map Meal.servings (meals r) = [2%num; 2%num; 2%num]
     | inl _ => False
     end.
Proof. vm_compute. repeat split. Qed.

(* ------------------------------------------------------------------------- *)
(** ** Sorting *)

Lemma sort_insert_perm {A : Type} (cmp : A -> A -> num) x l :
  Permutation (sort_insert cmp x l) (x :: l).
Proof.
  induction l as [|y l IH]; cbn [sort_insert]; [reflexivity|].
  destruct (cmp x y >? 0)%num; [|reflexivity].
  rewrite IH. apply perm_swap.
Qed.

Lemma js_sort_perm {A : Type} (cmp : A -> A -> num) l :
  Permutation (js_sort cmp l) l.
Proof.
  induction l as [|x l IH]; cbn [js_sort fold_right]; [reflexivity|].
  rewrite sort_insert_perm. now constructor.
Qed.

Lemma js_sort_In {A : Type} (cmp : A -> A -> num) l x :
  In x (js_sort cmp l) <-> In x l.
Proof.
  split; apply Permutation_in; [|symmetry]; apply js_sort_perm.
Qed.

(* ------------------------------------------------------------------------- *)
(** ** The Gap Filler *)

Lemma random_day_in_week rng n :
  unit_interval_rng rng ->
  exists d : Z, random_day (rng n) = JS.of_Z d /\ (0 <= d <= 6)%Z.
Proof.
  intro Hrng. destruct (Hrng n) as (u & -> & H0 & H1).
  unfold random_day. cbn [JS.mul JS.of_Z JS.floor].
  exists (Qfloor (u * inject_Z daysInWeek)). split; [reflexivity|].
  change (inject_Z daysInWeek) with 7.
  split.
  - change 0%Z with (Qfloor 0). apply Qfloor_resp_le. lra.
  - assert (H : (Qfloor (u * 7) < 7)%Z).
    { rewrite Zlt_Qlt. apply Qle_lt_trans with (u * 7); [apply Qfloor_le|].
      change (inject_Z 7) with 7. lra. }
    lia.
Qed.

Lemma carbRich_head recipes selected r rest :
  carbRichRecipes (availableRecipes recipes selected) = r :: rest ->
  gap_candidate recipes selected r
  /\ (carbs (macros r) >? fat (macros r))%num = true.
Proof.
  intro H.
  assert (Hin : In r (carbRichRecipes (availableRecipes recipes selected)))
    by (rewrite H; now left).
  unfold carbRichRecipes in Hin. apply js_sort_In in Hin.
  apply filter_In in Hin. destruct Hin as (Hin & Hc).
  unfold availableRecipes in Hin. apply filter_In in Hin.
  destruct Hin as (Hin & Hav). apply andb_true_iff in Hav.
  destruct Hav as (Hused & Hav). apply negb_true_iff in Hused.
  repeat split; assumption.
Qed.

Lemma fatRich_head recipes selected r rest :
  fatRichRecipes (availableRecipes recipes selected) = r :: rest ->
  gap_candidate recipes selected r
  /\ (fat (macros r) >? carbs (macros r))%num = true.
Proof.
  intro H.
  assert (Hin : In r (fatRichRecipes (availableRecipes recipes selected)))
    by (rewrite H; now left).
  unfold fatRichRecipes in Hin. apply js_sort_In in Hin.
  apply filter_In in Hin. destruct Hin as (Hin & Hc).
  unfold availableRecipes in Hin. apply filter_In in Hin.
  destruct Hin as (Hin & Hav). apply andb_true_iff in Hav.
  destruct Hav as (Hused & Hav). apply negb_true_iff in Hused.
  repeat split; assumption.
Qed.

Lemma carb_step_spec rng recipes selected cur dailyTargets drawn :
  unit_interval_rng rng ->
  let pushed :=
    fst (carb_step dailyTargets cur
           (carbRichRecipes (availableRecipes recipes selected)) rng drawn) in
  (List.length pushed <= 1)%nat
  /\ forall a, In a pushed ->
       snack_in_week a
       /\ servings a
          = JS.min3 (JS.ceil (dailyCarbGap dailyTargets cur / carbs (macros (recipe a)))%num)
              (availableServings (recipe a)) 2
       /\ (servings a >? 0)%num = true
       /\ gap_candidate recipes selected (recipe a)
       /\ (carbs (macros (recipe a)) >? fat (macros (recipe a)))%num = true.
Proof.
  intros Hrng pushed. subst pushed. unfold carb_step.
  destruct (carbRichRecipes (availableRecipes recipes selected)) as [|r rest] eqn:E;
    [simpl; split; [lia | tauto]|].
  destruct (dailyCarbGap dailyTargets cur >? 0)%num;
    [|simpl; split; [lia | tauto]].
  cbv zeta.
  destruct (JS.min3 _ _ _ >? 0)%num eqn:Epos;
    [|simpl; split; [lia | tauto]].
  cbn [fst]. split; [simpl; lia|].
  intros a [<-|[]]. cbn [recipe servings slot day].
  destruct (carbRich_head _ _ E) as (Hcand & Hc).
  split; [split; [reflexivity | now apply random_day_in_week] |].
  split; [reflexivity|]. split; [exact Epos|]. split; assumption.
Qed.

Lemma fat_step_spec rng recipes selected cur dailyTargets drawn :
  unit_interval_rng rng ->
  let pushed :=
    fst (fat_step dailyTargets cur
           (fatRichRecipes (availableRecipes recipes selected)) rng drawn) in
  (List.length pushed <= 1)%nat
  /\ forall a, In a pushed ->
       snack_in_week a
       /\ servings a
          = JS.min3 (JS.ceil (dailyFatGap dailyTargets cur / fat (macros (recipe a)))%num)
              (availableServings (recipe a)) 2
       /\ (servings a >? 0)%num = true
       /\ gap_candidate recipes selected (recipe a)
       /\ (fat (macros (recipe a)) >? carbs (macros (recipe a)))%num = true.
Proof.
  intros Hrng pushed. subst pushed. unfold fat_step.
  destruct (fatRichRecipes (availableRecipes recipes selected)) as [|r rest] eqn:E;
    [simpl; split; [lia | tauto]|].
  destruct (dailyFatGap dailyTargets cur >? 0)%num;
    [|simpl; split; [lia | tauto]].
  cbv zeta.
  destruct (JS.min3 _ _ _ >? 0)%num eqn:Epos;
    [|simpl; split; [lia | tauto]].
  cbn [fst]. split; [simpl; lia|].
  intros a [<-|[]]. cbn [recipe servings slot day].
  destruct (fatRich_head _ _ E) as (Hcand & Hc).
  split; [split; [reflexivity | now apply random_day_in_week] |].
  split; [reflexivity|]. split; [exact Epos|]. split; assumption.
Qed.

Lemma fillRemainingMacros_eq rng recipes selected cur dailyTargets :
  fillRemainingMacros rng recipes selected cur dailyTargets
  = selected
    ++ fst (carb_step dailyTargets cur
              (carbRichRecipes (availableRecipes recipes selected)) rng 0)
    ++ fst (fat_step dailyTargets cur
              (fatRichRecipes (availableRecipes recipes selected)) rng
              (snd (carb_step dailyTargets cur
                      (carbRichRecipes (availableRecipes recipes selected)) rng 0))).
Proof.
  unfold fillRemainingMacros. cbv zeta.
  destruct (carb_step _ _ _ _ _) as [pc drawn].
  destruct (fat_step _ _ _ _ _) as [pf drawn'].
  cbn [fst snd]. now rewrite app_assoc.
Qed.

(** C8.  With random draws in [0, 1), the Gap Filler returns the selections
    it was given followed by at most one assignment for the carbohydrate
    gap and then at most one for the fat gap.  Each of them is a snack on a
    day from 0 to 6, for a positive number of servings equal to
    min(ceil(gap / grams of that macro per serving), availability, 2), of a
    recipe of the pool that was not selected before and has positive
    availability; the recipe of the carbohydrate assignment has more
    carbohydrate than fat per serving, and that of the fat assignment more
    fat than carbohydrate. *)
Theorem gap_filler_adds_at_most_one_per_macro :
  forall (rng : Rng) (recipes : list RecipeWithMacros)
         (selected : list Selection) (currentMacros dailyTargets : MacroProfile),
    unit_interval_rng rng ->
    exists forCarbs forFat : list Selection,
      fillRemainingMacros rng recipes selected currentMacros dailyTargets
      = selected ++ forCarbs ++ forFat
      /\ (List.length forCarbs <= 1)%nat
      /\ (List.length forFat <= 1)%nat
      /\ (forall a, In a forCarbs ->
            snack_in_week a
            /\ servings a
               = JS.min3
                   (JS.ceil (dailyCarbGap dailyTargets currentMacros
                             / carbs (macros (recipe a)))%num)
                   (availableServings (recipe a)) 2
            /\ (servings a >? 0)%num = true
            /\ gap_candidate recipes selected (recipe a)
            /\ (carbs (macros (recipe a)) >? fat (macros (recipe a)))%num = true)
      /\ (forall a, In a forFat ->
            snack_in_week a
            /\ servings a
               = JS.min3
                   (JS.ceil (dailyFatGap dailyTargets currentMacros
                             / fat (macros (recipe a)))%num)
                   (availableServings (recipe a)) 2
            /\ (servings a >? 0)%num = true
            /\ gap_candidate recipes selected (recipe a)
            /\ (fat (macros (recipe a)) >? carbs (macros (recipe a)))%num = true).
Proof.
  intros rng recipes selected cur dailyTargets Hrng.
  rewrite fillRemainingMacros_eq.
  eexists. eexists. split; [reflexivity|].
  destruct (@carb_step_spec rng recipes selected cur dailyTargets 0%nat Hrng)
    as (Hlc & Hc).
  destruct (@fat_step_spec rng recipes selected cur dailyTargets
              (snd (carb_step dailyTargets cur
                      (carbRichRecipes (availableRecipes recipes selected)) rng 0))
              Hrng) as (Hlf & Hf).
  repeat split; auto; try (apply Hc; assumption); try (apply Hf; assumption).
Qed.

Lemma ex_rng_unit_interval : unit_interval_rng ex_rng.
Proof.
  intro n. exists (1 # 2). split; [reflexivity|]. split; [discriminate | reflexivity].
Qed.

Lemma gap_filler_adds_at_most_one_per_macro_witness :
  unit_interval_rng ex_rng
  /\ exists forCarbs forFat : list Selection,
       fillRemainingMacros ex_rng ex_pool
         (fst (greedyProteinFill ex_pool ex_low_protein_targets))
         (snd (greedyProteinFill ex_pool ex_low_protein_targets))
         ex_low_protein_targets
       = fst (greedyProteinFill ex_pool ex_low_protein_targets) ++ forCarbs ++ forFat
       /\ (List.length forCarbs <= 1)%nat
       /\ (List.length forFat <= 1)%nat.
Proof.
  split; [exact ex_rng_unit_interval|].
  destruct (@gap_filler_adds_at_most_one_per_macro ex_rng ex_pool
              (fst (greedyProteinFill ex_pool ex_low_protein_targets))
              (snd (greedyProteinFill ex_pool ex_low_protein_targets))
              ex_low_protein_targets ex_rng_unit_interval)
    as (forCarbs & forFat & Heq & Hc & Hf & _).
  exists forCarbs, forFat. split; [exact Heq | split; [exact Hc | exact Hf]].
Defined.

(* ------------------------------------------------------------------------- *)
(** ** Each recipe at most once *)

Lemma has_id_false ids id : has_id ids id = false <-> ~ In id ids.
Proof.
  unfold has_id. split.
  - intros H Hin.
    assert (existsb (String.eqb id) ids = true).
    { apply existsb_exists. exists id. split; [exact Hin | apply String.eqb_refl]. }
    congruence.
  - intro H. destruct (existsb (String.eqb id) ids) eqn:E; [|reflexivity].
    apply existsb_exists in E. destruct E as (x & Hin & Hx).
    apply String.eqb_eq in Hx. subst x. contradiction.
Qed.

Lemma NoDup_map_filter {A B : Type} (f : A -> B) (p : A -> bool) l :
  NoDup (map f l) -> NoDup (map f (filter p l)).
Proof.
  induction l as [|x l IH]; simpl; intro H; [constructor|].
  inversion H as [|? ? Hnot Hl]; subst.
  destruct (p x); simpl; [constructor|]; auto.
  intro Hin. apply Hnot. apply in_map_iff in Hin.
  destruct Hin as (y & Hy & Hin). apply filter_In in Hin.
  apply in_map_iff. exists y. tauto.
Qed.

Lemma NoDup_map_eq {A B : Type} (f : A -> B) l x y :
  NoDup (map f l) -> In x l -> In y l -> f x = f y -> x = y.
Proof.
  induction l as [|z l IH]; simpl; intros H Hx Hy E; [contradiction|].
  inversion H as [|? ? Hnot Hl]; subst.
  destruct Hx as [->|Hx], Hy as [->|Hy]; auto.
  - exfalso. apply Hnot. rewrite E. now apply in_map.
  - exfalso. apply Hnot. rewrite <- E. now apply in_map.
Qed.

Lemma sorted_distinct recipes :
  distinct_recipes recipes -> distinct_recipes (sortByProteinDensity recipes).
Proof.
  unfold distinct_recipes, sortByProteinDensity. intro H.
  eapply Permutation_NoDup.
  - symmetry. apply Permutation_map. apply js_sort_perm.
  - now apply NoDup_map_filter.
Qed.

Lemma usedRecipeIds_snoc l s :
  usedRecipeIds (l ++ [s]) = usedRecipeIds l ++ [rid (recipe s)].
Proof. unfold usedRecipeIds. now rewrite map_app. Qed.

Lemma greedy_loop_distinct dailyTargets rs :
  forall st,
    NoDup (usedRecipeIds (selectedRecipes st) ++ map rid rs) ->
    NoDup (usedRecipeIds (selectedRecipes (greedy_loop dailyTargets rs st))).
Proof.
  induction rs as [|r rs IH]; intros st H; cbn [greedy_loop].
  - now rewrite app_nil_r in H.
  - unfold greedy_body.
    destruct (dailyProteinNeeded dailyTargets (currentMacros st) <=? 0)%num.
    + now apply NoDup_app_remove_r in H.
    + cbv zeta.
      destruct (servingsToAdd dailyTargets (currentMacros st) r >? 0)%num.
      * apply IH. cbn [selectedRecipes].
        rewrite usedRecipeIds_snoc. cbn [recipe].
        rewrite <- app_assoc. exact H.
      * apply IH. cbn [map] in H. now apply NoDup_remove_1 in H.
Qed.

Lemma gt_asym x y : (x >? y)%num = true -> (y >? x)%num = true -> False.
Proof. destruct x, y; intros H1 H2; num_crush. Qed.

Lemma fineTuneMacros_recipes selected dailyTargets :
  map recipe (fineTuneMacros selected dailyTargets) = map recipe selected.
Proof.
  unfold fineTuneMacros. rewrite map_map. apply map_ext. intro s.
  cbv zeta. destruct (_ >? Fin (15 # 100))%num; reflexivity.
Qed.

Lemma usedRecipeIds_recipes l :
  usedRecipeIds l = map rid (map recipe l).
Proof. unfold usedRecipeIds. now rewrite map_map. Qed.

Lemma insert_meals_ids ok planId l :
  forall i x,
    In x (map Meal.recipe_id (insert_meals ok planId i l)) ->
    In x (usedRecipeIds l).
Proof.
  induction l as [|s l IH]; intros i x; cbn [insert_meals]; [tauto|].
  destruct (ok i); cbn [map Meal.recipe_id usedRecipeIds].
  - intros [<-|H]; [now left | right; exact (IH _ _ H)].
  - intro H. right. exact (IH _ _ H).
Qed.

Lemma insert_meals_distinct ok planId l :
  forall i,
    NoDup (usedRecipeIds l) ->
    NoDup (map Meal.recipe_id (insert_meals ok planId i l)).
Proof.
  induction l as [|s l IH]; intros i H; cbn [insert_meals]; [constructor|].
  cbn [usedRecipeIds map] in H. inversion H as [|? ? Hnot Hl]; subst.
  destruct (ok i); cbn [map Meal.recipe_id]; [constructor|]; auto.
  intro Hin. apply Hnot. exact (insert_meals_ids _ _ _ _ _ Hin).
Qed.

Lemma carb_step_pick rng recipes selected cur dailyTargets drawn :
  let pushed :=
    fst (carb_step dailyTargets cur
           (carbRichRecipes (availableRecipes recipes selected)) rng drawn) in
  (List.length pushed <= 1)%nat
  /\ forall a, In a pushed ->
       gap_candidate recipes selected (recipe a)
       /\ (carbs (macros (recipe a)) >? fat (macros (recipe a)))%num = true.
Proof.
  intro pushed. subst pushed. unfold carb_step.
  destruct (carbRichRecipes (availableRecipes recipes selected)) as [|r rest] eqn:E;
    [simpl; split; [lia | tauto]|].
  destruct (dailyCarbGap dailyTargets cur >? 0)%num;
    [|simpl; split; [lia | tauto]].
  cbv zeta.
  destruct (JS.min3 _ _ _ >? 0)%num; [|simpl; split; [lia | tauto]].
  cbn [fst]. split; [simpl; lia|].
  intros a [<-|[]]. cbn [recipe]. exact (carbRich_head _ _ E).
Qed.

Lemma fat_step_pick rng recipes selected cur dailyTargets drawn :
  let pushed :=
    fst (fat_step dailyTargets cur
           (fatRichRecipes (availableRecipes recipes selected)) rng drawn) in
  (List.length pushed <= 1)%nat
  /\ forall a, In a pushed ->
       gap_candidate recipes selected (recipe a)
       /\ (fat (macros (recipe a)) >? carbs (macros (recipe a)))%num = true.
Proof.
  intro pushed. subst pushed. unfold fat_step.
  destruct (fatRichRecipes (availableRecipes recipes selected)) as [|r rest] eqn:E;
    [simpl; split; [lia | tauto]|].
  destruct (dailyFatGap dailyTargets cur >? 0)%num;
    [|simpl; split; [lia | tauto]].
  cbv zeta.
  destruct (JS.min3 _ _ _ >? 0)%num; [|simpl; split; [lia | tauto]].
  cbn [fst]. split; [simpl; lia|].
  intros a [<-|[]]. cbn [recipe]. exact (fatRich_head _ _ E).
Qed.

Lemma NoDup_at_most_one {A : Type} (l : list A) :
  (List.length l <= 1)%nat -> NoDup l.
Proof.
  destruct l as [|x [|y l]]; simpl; intro H.
  - constructor.
  - constructor; [tauto | constructor].
  - lia.
Qed.

Lemma greedy_distinct recipes dailyTargets :
  distinct_recipes recipes ->
  NoDup (usedRecipeIds (fst (greedyProteinFill recipes dailyTargets))).
Proof.
  intro H. unfold greedyProteinFill. cbn [fst].
  apply greedy_loop_distinct. cbn [greedy_init selectedRecipes usedRecipeIds map app].
  now apply sorted_distinct.
Qed.

Lemma gap_filler_distinct rng recipes selected cur dailyTargets :
  distinct_recipes recipes ->
  NoDup (usedRecipeIds selected) ->
  NoDup (usedRecipeIds (fillRemainingMacros rng recipes selected cur dailyTargets)).
Proof.
  intros Hrec Hsel. rewrite fillRemainingMacros_eq.
  destruct (carb_step_pick rng recipes selected cur dailyTargets 0) as (Hlc & Hc).
  destruct (fat_step_pick rng recipes selected cur dailyTargets
              (snd (carb_step dailyTargets cur
                      (carbRichRecipes (availableRecipes recipes selected)) rng 0)))
    as (Hlf & Hf).
  set (pc := fst (carb_step _ _ _ _ _)) in *.
  set (pf := fst (fat_step _ _ _ _ _)) in *.
  unfold usedRecipeIds in *. rewrite !map_app.
  apply NoDup_app; [exact Hsel | |].
  - apply NoDup_app.
    + apply NoDup_at_most_one. now rewrite length_map.
    + apply NoDup_at_most_one. now rewrite length_map.
    + intros id Hin1 Hin2.
      apply in_map_iff in Hin1. destruct Hin1 as (a & Ha & Hina).
      apply in_map_iff in Hin2. destruct Hin2 as (b & Hb & Hinb).
      destruct (Hc a Hina) as ((Hra & _) & Hca).
      destruct (Hf b Hinb) as ((Hrb & _) & Hfb).
      assert (E : recipe a = recipe b).
      { apply (NoDup_map_eq rid recipes); auto. congruence. }
      rewrite E in Hca. exact (gt_asym _ _ Hca Hfb).
  - intros id Hin1 Hin2. apply in_app_or in Hin2.
    destruct Hin2 as [Hin2|Hin2];
      apply in_map_iff in Hin2; destruct Hin2 as (a & Ha & Hina).
    + destruct (Hc a Hina) as ((_ & Hused & _) & _).
      apply has_id_false in Hused. apply Hused. unfold usedRecipeIds. now rewrite Ha.
    + destruct (Hf a Hina) as ((_ & Hused & _) & _).
      apply has_id_false in Hused. apply Hused. unfold usedRecipeIds. now rewrite Ha.
Qed.

Lemma finalRecipes_distinct rng recipes dailyTargets :
  distinct_recipes recipes ->
  NoDup (usedRecipeIds (finalRecipes_of rng recipes dailyTargets)).
Proof.
  intro H. unfold finalRecipes_of.
  pose proof (greedy_distinct dailyTargets H) as Hg.
  destruct (greedyProteinFill recipes dailyTargets) as [sel cur]. cbn [fst] in Hg.
  rewrite usedRecipeIds_recipes, fineTuneMacros_recipes, <- usedRecipeIds_recipes.
  now apply gap_filler_distinct.
Qed.

Lemma recipesWithMacros_of_ids rows pantry :
  map rid (recipesWithMacros_of rows pantry) = map Recipe.id rows.
Proof.
  unfold recipesWithMacros_of. rewrite map_map. apply map_ext. reflexivity.
Qed.

(** C10.  When the rows of the recipe table have distinct identifiers, every
    stage keeps the recipes of the plan distinct: the greedy protein fill
    selects each recipe at most once; the Gap Filler, given distinct
    selections, returns distinct selections, its candidates being recipes
    not selected yet and no recipe being both carb-leaning and fat-leaning;
    the Fine-Tuner returns the same recipes in the same order; so the
    final selections, and the meals of every plan generatePlan returns,
    each name a recipe at most once. *)
Theorem each_recipe_in_at_most_one_assignment :
  forall (rng : Rng) (rows : list Recipe.t) (pantry : list PantryItem.t)
         (dailyTargets : MacroProfile),
    NoDup (map Recipe.id rows) ->
    let recipes := recipesWithMacros_of rows pantry in
    NoDup (usedRecipeIds (fst (greedyProteinFill recipes dailyTargets)))
    /\ (forall selected currentMacros,
          NoDup (usedRecipeIds selected) ->
          NoDup (usedRecipeIds
                   (fillRemainingMacros rng recipes selected currentMacros dailyTargets)))
    /\ (forall r : RecipeWithMacros,
          ~ ((carbs (macros r) >? fat (macros r))%num = true
             /\ (fat (macros r) >? carbs (macros r))%num = true))
    /\ (forall selected,
          map recipe (fineTuneMacros selected dailyTargets) = map recipe selected)
    /\ NoDup (usedRecipeIds (finalRecipes_of rng recipes dailyTargets))
    /\ (forall db userId weekStart userProfile pantryItems r,
          users_single db = Some userProfile ->
          pantry_items_select db = Data pantryItems ->
          recipes_select db = Data (Some rows) ->
          pantry_or_empty pantryItems = pantry ->
          dailyTargets_of userProfile = dailyTargets ->
          generatePlan db rng userId weekStart = inr r ->
          NoDup (map Meal.recipe_id (meals r))).
Proof.
  intros rng rows pantry dailyTargets Hrows recipes.
  assert (Hrec : distinct_recipes recipes).
  { unfold distinct_recipes, recipes. now rewrite recipesWithMacros_of_ids. }
  split; [now apply greedy_distinct|].
  split; [intros; now apply gap_filler_distinct|].
  split; [intros r (H1 & H2); exact (gt_asym _ _ H1 H2)|].
  split; [intro; apply fineTuneMacros_recipes|].
  split; [now apply finalRecipes_distinct|].
  intros db userId weekStart userProfile pantryItems r Hu Hp Hr Hpantry Ht Hgen.
  apply generatePlan_inr in Hgen.
  destruct Hgen as (u' & p' & rows' & planId & Hu' & Hp' & Hr' & _ & Hmeals & _).
  rewrite Hu in Hu'. rewrite Hp in Hp'. rewrite Hr in Hr'.
  inversion Hu'; inversion Hp'; inversion Hr'; subst u' p' rows'.
  rewrite Hmeals. apply insert_meals_distinct.
  rewrite Hpantry, Ht. now apply finalRecipes_distinct.
Qed.

Lemma each_recipe_in_at_most_one_assignment_witness :
  NoDup (map Recipe.id [ex_chicken_rice; ex_rice_bowl; ex_oil_shot])
  /\ NoDup (usedRecipeIds
              (finalRecipes_of ex_rng
                 (recipesWithMacros_of [ex_chicken_rice; ex_rice_bowl; ex_oil_shot] ex_pantry)
                 ex_low_protein_targets)).
Proof.
  assert (H : NoDup (map Recipe.id [ex_chicken_rice; ex_rice_bowl; ex_oil_shot])).
  { repeat constructor; simpl; intuition discriminate. }
  split; [exact H|].
  exact (proj1 (proj2 (proj2 (proj2 (proj2
           (@each_recipe_in_at_most_one_assignment ex_rng _ ex_pantry
              ex_low_protein_targets H)))))).
Defined.

(* ------------------------------------------------------------------------- *)
(** ** The Shortfall Reporter *)

Lemma needs_has_get m key : needs_has m key = true <-> needs_get m key <> None.
Proof.
  unfold needs_has, needs_get.
  induction m as [|[k v] m IH]; cbn [existsb find fst].
  - cbn. split; [discriminate | congruence].
  - destruct (String.eqb k key); cbn; [split; [discriminate | reflexivity]|].
    exact IH.
Qed.

Lemma needs_has_false m key : needs_has m key = false <-> needs_get m key = None.
Proof.
  pose proof (needs_has_get m key) as H.
  destruct (needs_has m key), (needs_get m key); split; intro H'; try reflexivity;
    try discriminate.
  - exfalso. apply (proj1 H); auto.
  - assert (true = true) by reflexivity. exfalso.
    assert (Some t <> None) by discriminate. apply H in H1. discriminate.
Qed.

Lemma needs_get_In_keys m key :
  needs_get m key <> None <-> In key (map fst m).
Proof.
  unfold needs_get. induction m as [|[k v] m IH]; cbn [find map fst].
  - cbn. split; [congruence | tauto].
  - destruct (String.eqb_spec k key) as [->|Hne]; cbn [option_map snd].
    + split; [intros _; now left | discriminate].
    + rewrite IH. cbn. split; [tauto | intros [E|H]; [contradiction | exact H]].
Qed.

Lemma needs_get_In m key need :
  NoDup (map fst m) -> (needs_get m key = Some need <-> In (key, need) m).
Proof.
  unfold needs_get. induction m as [|[k v] m IH]; cbn [find map fst]; intro Hnd.
  - cbn. split; [discriminate | tauto].
  - inversion Hnd as [|? ? Hnot Hm]; subst.
    destruct (String.eqb_spec k key) as [->|Hne]; cbn [option_map snd].
    + split.
      * intro H. inversion H. now left.
      * intros [H|H]; [now inversion H|].
        exfalso. apply Hnot. now apply (in_map fst) in H.
    + rewrite (IH Hm). cbn. split; [tauto|].
      intros [H|H]; [inversion H; contradiction | exact H].
Qed.

Lemma needs_bump_keys m key x : map fst (needs_bump m key x) = map fst m.
Proof.
  induction m as [|[k v] m IH]; cbn [needs_bump map fst]; [reflexivity|].
  destruct (String.eqb k key); cbn [map fst]; [reflexivity | now rewrite IH].
Qed.

Lemma needs_get_bump_same m key x :
  needs_get (needs_bump m key x) key
  = option_map
      (fun current =>
         {| Need.needed := (Need.needed current + x)%num;
            Need.unit := Need.unit current;
            Need.name := Need.name current;
            Need.available := Need.available current |})
      (needs_get m key).
Proof.
  unfold needs_get. induction m as [|[k v] m IH]; cbn [needs_bump find fst];
    [reflexivity|].
  destruct (String.eqb k key) eqn:E; cbn [find fst]; rewrite E; [reflexivity|].
  exact IH.
Qed.

Lemma needs_get_bump_other m key key' x :
  key' <> key -> needs_get (needs_bump m key x) key' = needs_get m key'.
Proof.
  intro Hne. unfold needs_get.
  induction m as [|[k v] m IH]; cbn [needs_bump find fst]; [reflexivity|].
  destruct (String.eqb_spec k key) as [->|Hk]; cbn [find fst].
  - destruct (String.eqb_spec key key'); [congruence | reflexivity].
  - destruct (String.eqb k key'); [reflexivity | exact IH].
Qed.

Lemma needs_get_set_same m key v :
  needs_get m key = None -> needs_get (needs_set m key v) key = Some v.
Proof.
  unfold needs_get, needs_set.
  induction m as [|[k w] m IH]; cbn [app find fst].
  - intros _. now rewrite String.eqb_refl.
  - destruct (String.eqb k key); [discriminate | exact IH].
Qed.

Lemma needs_get_set_other m key key' v :
  key' <> key -> needs_get (needs_set m key v) key' = needs_get m key'.
Proof.
  intro Hne. unfold needs_get, needs_set.
  induction m as [|[k w] m IH]; cbn [app find fst].
  - destruct (String.eqb_spec key key'); [congruence | reflexivity].
  - destruct (String.eqb k key'); [reflexivity | exact IH].
Qed.

Lemma sum_nums_snoc l x :
  l <> [] -> sum_nums (l ++ [x]) = (sum_nums l + x)%num.
Proof.
  destruct l as [|y l]; [congruence|]. intros _.
  cbn [sum_nums app]. now rewrite fold_left_app.
Qed.

Section NeedsInvariant.

Variable pantryItems : list PantryItem.t.

Lemma needs_step_keys selection m ri :
  NoDup (map fst m) -> NoDup (map fst (needs_step pantryItems selection m ri)).
Proof.
  intro H. unfold needs_step. cbv zeta.
  destruct (needs_has m (RecipeIngredient.ingredient_id ri)) eqn:E.
  - now rewrite needs_bump_keys.
  - unfold needs_set. rewrite map_app. cbn [map fst].
    apply NoDup_app; [exact H | repeat constructor; tauto |].
    intros k Hk [<-|[]].
    apply needs_has_false in E. apply needs_get_In_keys in Hk. contradiction.
Qed.

Lemma needs_step_matches selection m ri key l :
  need_matches pantryItems key m l ->
  need_matches pantryItems key (needs_step pantryItems selection m ri)
    (l ++ amounts_of selection [ri] key).
Proof.
  intro H. unfold amounts_of. cbn [filter].
  destruct (String.eqb_spec (RecipeIngredient.ingredient_id ri) key) as [E|Hne];
    cbn [map].
  - unfold needs_step. cbv zeta. rewrite E.
    destruct l as [|x l]; cbn [need_matches] in H.
    + assert (Hhas : needs_has m key = false) by now apply needs_has_false.
      rewrite Hhas. cbn [app need_matches].
      eexists. split; [now apply needs_get_set_same|]. split; reflexivity.
    + destruct H as (need & Hget & Hneeded & Havail).
      assert (Hhas : needs_has m key = true)
        by (apply needs_has_get; congruence).
      rewrite Hhas. cbn [app need_matches].
      eexists. split; [rewrite needs_get_bump_same, Hget; reflexivity|].
      cbn [Need.needed Need.available]. split; [|exact Havail].
      rewrite Hneeded. change (x :: l ++ [?y]) with ((x :: l) ++ [y]).
      rewrite sum_nums_snoc by discriminate. reflexivity.
  - rewrite app_nil_r.
    assert (Hget : needs_get (needs_step pantryItems selection m ri) key
                   = needs_get m key).
    { unfold needs_step. cbv zeta.
      destruct (needs_has m (RecipeIngredient.ingredient_id ri)).
      - apply needs_get_bump_other. congruence.
      - apply needs_get_set_other. congruence. }
    unfold need_matches in *. destruct l; now rewrite Hget.
Qed.

Lemma amounts_of_cons selection ri ris key :
  amounts_of selection (ri :: ris) key
  = amounts_of selection [ri] key ++ amounts_of selection ris key.
Proof.
  unfold amounts_of. cbn [filter].
  destruct (String.eqb (RecipeIngredient.ingredient_id ri) key); reflexivity.
Qed.

Lemma needs_inner_matches selection ris key :
  forall m l,
    need_matches pantryItems key m l ->
    need_matches pantryItems key
      (fold_left (needs_step pantryItems selection) ris m)
      (l ++ amounts_of selection ris key).
Proof.
  induction ris as [|ri ris IH]; intros m l H; cbn [fold_left].
  - unfold amounts_of. cbn. now rewrite app_nil_r.
  - rewrite amounts_of_cons, app_assoc. apply IH. now apply needs_step_matches.
Qed.

Lemma needs_inner_keys selection ris :
  forall m, NoDup (map fst m) ->
    NoDup (map fst (fold_left (needs_step pantryItems selection) ris m)).
Proof.
  induction ris as [|ri ris IH]; intros m H; cbn [fold_left]; [exact H|].
  apply IH. now apply needs_step_keys.
Qed.

Lemma needs_outer_matches assignments key :
  forall m l,
    need_matches pantryItems key m l ->
    need_matches pantryItems key
      (fold_left
         (fun m selection =>
            fold_left (needs_step pantryItems selection)
              (Recipe.recipe_ingredients (base (recipe selection))) m)
         assignments m)
      (l ++ requirement_amounts assignments key).
Proof.
  induction assignments as [|a assignments IH]; intros m l H; cbn [fold_left].
  - unfold requirement_amounts. cbn. now rewrite app_nil_r.
  - unfold requirement_amounts. cbn [flat_map]. rewrite app_assoc.
    apply IH. now apply needs_inner_matches.
Qed.

Lemma needs_outer_keys assignments :
  forall m, NoDup (map fst m) ->
    NoDup (map fst
             (fold_left
                (fun m selection =>
                   fold_left (needs_step pantryItems selection)
                     (Recipe.recipe_ingredients (base (recipe selection))) m)
                assignments m)).
Proof.
  induction assignments as [|a assignments IH]; intros m H; cbn [fold_left];
    [exact H|].
  apply IH. now apply needs_inner_keys.
Qed.

Lemma ingredientNeeds_matches assignments key :
  need_matches pantryItems key (ingredientNeeds assignments pantryItems)
    (requirement_amounts assignments key).
Proof.
  unfold ingredientNeeds.
  apply (needs_outer_matches assignments key [] []). reflexivity.
Qed.

Lemma ingredientNeeds_keys assignments :
  NoDup (map fst (ingredientNeeds assignments pantryItems)).
Proof. unfold ingredientNeeds. apply needs_outer_keys. constructor. Qed.

End NeedsInvariant.

Lemma missing_fold m :
  forall acc,
    fold_left
      (fun missingIngredients kv =>
         let '(ingredientId, need) := kv in
         if (Need.needed need >? Need.available need)%num then
           missingIngredients ++
           [ {| Shortfall.ingredientId := ingredientId;
                Shortfall.ingredientName := Need.name need;
                Shortfall.neededQuantity := (Need.needed need - Need.available need)%num;
                Shortfall.unit := Need.unit need;
                Shortfall.availableQuantity := Need.available need |} ]
         else missingIngredients)
      m acc
    = acc ++ map shortfall_of (filter is_short m).
Proof.
  induction m as [|[k need] m IH]; intro acc; cbn [fold_left filter].
  - cbn. now rewrite app_nil_r.
  - rewrite IH. unfold is_short at 2. cbn [snd].
    destruct (Need.needed need >? Need.available need)%num; [|reflexivity].
    cbn [map]. now rewrite <- app_assoc.
Qed.

Lemma calculateMissingIngredients_eq assignments pantryItems :
  calculateMissingIngredients assignments pantryItems
  = map shortfall_of (filter is_short (ingredientNeeds assignments pantryItems)).
Proof. unfold calculateMissingIngredients. now rewrite missing_fold. Qed.

Lemma missing_entry assignments pantryItems e :
  In e (calculateMissingIngredients assignments pantryItems) <->
  exists need,
    needs_get (ingredientNeeds assignments pantryItems) (Shortfall.ingredientId e)
    = Some need
    /\ (Need.needed need >? Need.available need)%num = true
    /\ e = shortfall_of (Shortfall.ingredientId e, need).
Proof.
  rewrite calculateMissingIngredients_eq.
  pose proof (ingredientNeeds_keys pantryItems assignments) as Hnd.
  split.
  - intro H. apply in_map_iff in H. destruct H as ([k need] & <- & Hin).
    apply filter_In in Hin. destruct Hin as (Hin & Hshort).
    exists need. cbn [shortfall_of Shortfall.ingredientId fst snd].
    split; [now apply needs_get_In | split; [exact Hshort | reflexivity]].
  - intros (need & Hget & Hshort & He).
    apply needs_get_In in Hget; [|exact Hnd].
    apply in_map_iff. exists (Shortfall.ingredientId e, need).
    split; [now symmetry|]. apply filter_In. split; [exact Hget | exact Hshort].
Qed.



(** Every stage picks recipes with positive availability only. *)
Lemma greedy_loop_selected dailyTargets rs :
  forall st a,
    In a (selectedRecipes (greedy_loop dailyTargets rs st)) ->
    In a (selectedRecipes st) \/ In (recipe a) rs.
Proof.
  induction rs as [|r rs IH]; intros st a H; cbn [greedy_loop] in H; [now left|].
  unfold greedy_body in H.
  destruct (dailyProteinNeeded dailyTargets (currentMacros st) <=? 0)%num;
    [now left|].
  cbv zeta in H.
  destruct (servingsToAdd dailyTargets (currentMacros st) r >? 0)%num.
  - apply IH in H. cbn [selectedRecipes] in H.
    destruct H as [H|H]; [|right; now right].
    apply in_app_or in H. destruct H as [H|[<-|[]]]; [now left|].
    right. now left.
  - apply IH in H. destruct H as [H|H]; [now left | right; now right].
Qed.

Lemma greedy_selects_available recipes dailyTargets a :
  In a (fst (greedyProteinFill recipes dailyTargets)) ->
  (availableServings (recipe a) >? 0)%num = true.
Proof.
  unfold greedyProteinFill. cbn [fst]. intro H.
  apply greedy_loop_selected in H. destruct H as [[]|H].
  unfold sortByProteinDensity in H. apply js_sort_In in H.
  apply filter_In in H. tauto.
Qed.

Lemma final_selects_available rng recipes dailyTargets a :
  In a (finalRecipes_of rng recipes dailyTargets) ->
  (availableServings (recipe a) >? 0)%num = true.
Proof.
  unfold finalRecipes_of.
  pose proof (@greedy_selects_available recipes dailyTargets) as Hg.
  destruct (greedyProteinFill recipes dailyTargets) as [sel cur]. cbn [fst] in Hg.
  intro H.
  assert (Hr : In (recipe a)
                 (map recipe (fillRemainingMacros rng recipes sel cur dailyTargets))).
  { rewrite <- fineTuneMacros_recipes with (dailyTargets := dailyTargets).
    now apply in_map. }
  apply in_map_iff in Hr. destruct Hr as (b & Hb & Hin). rewrite <- Hb.
  rewrite fillRemainingMacros_eq in Hin.
  apply in_app_or in Hin. destruct Hin as [Hin|Hin]; [now apply Hg|].
  apply in_app_or in Hin. destruct Hin as [Hin|Hin].
  - destruct (carb_step_pick rng recipes sel cur dailyTargets 0) as (_ & Hc).
    destruct (Hc b Hin) as ((_ & _ & Hav) & _). exact Hav.
  - destruct (fat_step_pick rng recipes sel cur dailyTargets
                (snd (carb_step dailyTargets cur
                        (carbRichRecipes (availableRecipes recipes sel)) rng 0)))
      as (_ & Hf).
    destruct (Hf b Hin) as ((_ & _ & Hav) & _). exact Hav.
Qed.










(* ------------------------------------------------------------------------- *)
(** ** Recipes without requirements *)

Lemma final_in_pool rng recipes dailyTargets a :
  In a (finalRecipes_of rng recipes dailyTargets) -> In (recipe a) recipes.
Proof.
  unfold finalRecipes_of.
  destruct (greedyProteinFill recipes dailyTargets) as [sel cur] eqn:Eg.
  intro H.
  assert (Hr : In (recipe a)
                 (map recipe (fillRemainingMacros rng recipes sel cur dailyTargets))).
  { rewrite <- fineTuneMacros_recipes with (dailyTargets := dailyTargets).
    now apply in_map. }
  apply in_map_iff in Hr. destruct Hr as (b & Hb & Hin). rewrite <- Hb.
  rewrite fillRemainingMacros_eq in Hin.
  apply in_app_or in Hin. destruct Hin as [Hin|Hin].
  - assert (Hsel : sel = fst (greedyProteinFill recipes dailyTargets))
      by now rewrite Eg.
    rewrite Hsel in Hin. unfold greedyProteinFill in Hin. cbn [fst] in Hin.
    apply greedy_loop_selected in Hin. destruct Hin as [[]|Hin].
    unfold sortByProteinDensity in Hin. apply js_sort_In in Hin.
    apply filter_In in Hin. tauto.
  - apply in_app_or in Hin. destruct Hin as [Hin|Hin].
    + destruct (carb_step_pick rng recipes sel cur dailyTargets 0) as (_ & Hc).
      destruct (Hc b Hin) as ((Hpool & _) & _). exact Hpool.
    + destruct (fat_step_pick rng recipes sel cur dailyTargets
                  (snd (carb_step dailyTargets cur
                          (carbRichRecipes (availableRecipes recipes sel)) rng 0)))
        as (_ & Hf).
      destruct (Hf b Hin) as ((Hpool & _) & _). exact Hpool.
Qed.

Lemma pool_availability rows pantryItems r :
  In r (recipesWithMacros_of rows pantryItems) ->
  availableServings r = calculateAvailableServings (base r) pantryItems.
Proof.
  unfold recipesWithMacros_of. intro H. apply in_map_iff in H.
  destruct H as (row & <- & _). reflexivity.
Qed.

(** C5 (as amended).  Whatever the pantry holds, a recipe without any
    ingredient requirement is reported with zero available servings: the
    loop leaves [maxServings] at [Infinity], and the final test turns that
    into 0.  So no plan computed from that pantry ever contains a recipe
    without requirements. *)
Theorem no_requirement_gives_zero_servings :
  forall (recipe0 : Recipe.t) (pantryItems : list PantryItem.t),
    Recipe.recipe_ingredients recipe0 = [] ->
    calculateAvailableServings recipe0 pantryItems = 0%num
    /\ (forall (rng : Rng) (rows : list Recipe.t) (dailyTargets : MacroProfile)
               (a : Selection),
           In a (finalRecipes_of rng (recipesWithMacros_of rows pantryItems)
                   dailyTargets) ->
           base (recipe a) <> recipe0).
Proof.
  intros recipe0 pantryItems Hnil.
  assert (H0 : calculateAvailableServings recipe0 pantryItems = 0%num).
  { unfold calculateAvailableServings. rewrite Hnil. reflexivity. }
  split; [exact H0|].
  intros rng rows dailyTargets a Hin Hbase.
  pose proof (final_selects_available _ _ _ _ Hin) as Hpos.
  rewrite (pool_availability _ _ _ (final_in_pool _ _ _ _ Hin)) in Hpos.
  rewrite Hbase, H0 in Hpos. discriminate.
Qed.

Lemma no_requirement_gives_zero_servings_witness :
  Recipe.recipe_ingredients ex_tap_water = []
  /\ calculateAvailableServings ex_tap_water ex_pantry = 0%num
  /\ forall a,
       In a (finalRecipes_of ex_rng
               (recipesWithMacros_of [ex_tap_water; ex_rice_bowl] ex_pantry)
               ex_targets) ->
       base (recipe a) <> ex_tap_water.
Proof.
  assert (H : Recipe.recipe_ingredients ex_tap_water = []) by reflexivity.
  split; [exact H|].
  destruct (@no_requirement_gives_zero_servings ex_tap_water ex_pantry H)
    as (H0 & Hnever).
  split; [exact H0|].
  intro a. apply Hnever.
Defined.

(* ------------------------------------------------------------------------- *)
(** ** Further properties: the range of the Availability Calculator *)

Lemma min_cases x y : JS.min x y = x \/ JS.min x y = y \/ JS.min x y = NaN.
Proof.
  destruct x, y; cbn [JS.min]; auto; destruct (JS.le _ _); auto.
Qed.

Lemma floor_range x :
  whole (JS.floor x) \/ JS.floor x = PInf \/ JS.floor x = NInf \/ JS.floor x = NaN.
Proof. destruct x; cbn [JS.floor]; auto. left. eexists. reflexivity. Qed.

Lemma availability_step_range pantryItems acc ri :
  whole acc \/ acc = PInf \/ acc = NInf \/ acc = NaN ->
  let acc' := availability_step pantryItems acc ri in
  whole acc' \/ acc' = PInf \/ acc' = NInf \/ acc' = NaN.
Proof.
  intros Hacc acc'. subst acc'. unfold availability_step.
  destruct (find_pantry _ _) as [p|]; [|left; exists 0%Z; reflexivity].
  cbv zeta.
  destruct (min_cases acc
              (JS.floor (PantryItem.quantity p / RecipeIngredient.quantity ri)%num))
    as [-> | [-> | ->]]; auto using floor_range.
Qed.

Lemma availability_fold_range pantryItems l :
  forall acc,
    whole acc \/ acc = PInf \/ acc = NInf \/ acc = NaN ->
    let r := fold_left (availability_step pantryItems) l acc in
    whole r \/ r = PInf \/ r = NInf \/ r = NaN.
Proof.
  induction l as [|ri l IH]; intros acc Hacc; cbn [fold_left]; [exact Hacc|].
  apply IH. now apply availability_step_range.
Qed.

Lemma calculateAvailableServings_range recipe pantryItems :
  whole (calculateAvailableServings recipe pantryItems)
  \/ calculateAvailableServings recipe pantryItems = NInf
  \/ calculateAvailableServings recipe pantryItems = NaN.
Proof.
  unfold calculateAvailableServings.
  destruct (@availability_fold_range pantryItems (Recipe.recipe_ingredients recipe)
              PInf (or_intror (or_introl eq_refl)))
    as [(z & ->) | [-> | [-> | ->]]]; auto.
  - left. now exists z.
  - left. exists 0%Z. reflexivity.
Qed.

Lemma availability_step_whole pantryItems acc ri :
  well_stocked pantryItems ri ->
  whole acc \/ acc = PInf ->
  whole (availability_step pantryItems acc ri).
Proof.
  intros (Hq & Hp) Hacc. unfold availability_step.
  destruct (find_pantry _ _) as [p|]; [|exists 0%Z; reflexivity].
  cbv zeta.
  destruct (PantryItem.quantity p) as [a| | |]; cbn [is_finite] in Hp;
    try contradiction.
  destruct (RecipeIngredient.quantity ri) as [b| | |]; try contradiction.
  cbn [JS.div]. destruct (Qeq_bool b 0) eqn:E;
    [apply Qeq_bool_iff in E; contradiction|].
  cbn [JS.floor].
  destruct Hacc as [(z & ->) | ->].
  - rewrite min_of_Z. eexists. reflexivity.
  - rewrite min_PInf_l. eexists. reflexivity.
Qed.

Lemma availability_fold_whole pantryItems l :
  Forall (well_stocked pantryItems) l ->
  forall acc, whole acc \/ acc = PInf ->
    let r := fold_left (availability_step pantryItems) l acc in
    whole r \/ r = PInf.
Proof.
  induction 1 as [|ri l Hri Hl IH]; intros acc Hacc; cbn [fold_left]; [exact Hacc|].
  apply IH. left. now apply availability_step_whole.
Qed.

(** X1.  The Availability Calculator never returns Infinity and never a
    fraction: its result is an integer, -Infinity or NaN.  When every
    requirement has a quantity other than zero and the pantry quantities of
    the required ingredients are finite, the result is an integer. *)
Theorem available_servings_is_whole_or_not_a_quantity :
  forall (recipe : Recipe.t) (pantryItems : list PantryItem.t),
    (whole (calculateAvailableServings recipe pantryItems)
     \/ calculateAvailableServings recipe pantryItems = NInf
     \/ calculateAvailableServings recipe pantryItems = NaN)
    /\ calculateAvailableServings recipe pantryItems <> PInf
    /\ (Forall (well_stocked pantryItems) (Recipe.recipe_ingredients recipe) ->
        whole (calculateAvailableServings recipe pantryItems)).
Proof.
  intros recipe pantryItems.
  pose proof (calculateAvailableServings_range recipe pantryItems) as Hr.
  split; [exact Hr|]. split.
  - destruct Hr as [(z & ->) | [-> | ->]]; discriminate.
  - intro Hl. unfold calculateAvailableServings.
    destruct (@availability_fold_whole pantryItems _ Hl PInf (or_intror eq_refl))
      as [(z & ->) | ->].
    + now exists z.
    + exists 0%Z. reflexivity.
Qed.

Lemma available_servings_is_whole_or_not_a_quantity_witness :
  Forall (well_stocked ex_pantry) (Recipe.recipe_ingredients ex_chicken_rice)
  /\ whole (calculateAvailableServings ex_chicken_rice ex_pantry).
Proof.
  assert (H : Forall (well_stocked ex_pantry)
                (Recipe.recipe_ingredients ex_chicken_rice)).
  { repeat constructor; discriminate. }
  split; [exact H|].
  exact (proj2 (proj2 (available_servings_is_whole_or_not_a_quantity
                         ex_chicken_rice ex_pantry)) H).
Defined.

(* ------------------------------------------------------------------------- *)
(** ** Further properties: the Nutrition Resolver *)

Lemma calculateRecipeMacros_fold recipe :
  calculateRecipeMacros recipe
  = let acc := fold_left macros_step (Recipe.recipe_ingredients recipe) zero_macros in
    {| calories := JS.round (calories acc);
       protein := JS.round (protein acc);
       carbs := JS.round (carbs acc);
       fat := JS.round (fat acc) |}.
Proof. reflexivity. Qed.

Lemma add_scaled_finite acc n q :
  is_finite acc -> is_finite n -> is_finite q ->
  is_finite (acc + n * q / 100)%num.
Proof.
  destruct acc, n, q; cbn [is_finite]; tauto.
Qed.

Lemma add_scaled_nonneg acc n q :
  is_nonneg acc -> is_nonneg n -> is_nonneg q ->
  is_nonneg (acc + n * q / 100)%num.
Proof.
  destruct acc as [a| | |], n as [b| | |], q as [c| | |];
    cbn [is_nonneg]; try tauto.
  intros Ha Hb Hc. cbn.
  assert (0 <= b * c) by (apply Qmult_le_0_compat; assumption).
  assert (E : b * c / inject_Z 100 == b * c * (1 # 100)) by reflexivity.
  rewrite E. lra.
Qed.

Lemma macros_fold_finite l :
  Forall finite_requirement l ->
  forall acc, all_fields is_finite acc ->
    all_fields is_finite (fold_left macros_step l acc).
Proof.
  induction 1 as [|ri l (Hq & Hk & Hp & Hc & Hf) Hl IH];
    intros acc (Ha1 & Ha2 & Ha3 & Ha4); cbn [fold_left].
  - repeat split; assumption.
  - apply IH. unfold macros_step, all_fields. cbn [calories protein carbs fat].
    repeat split; apply add_scaled_finite; assumption.
Qed.

Lemma macros_fold_nonneg l :
  Forall nonneg_requirement l ->
  forall acc, all_fields is_nonneg acc ->
    all_fields is_nonneg (fold_left macros_step l acc).
Proof.
  induction 1 as [|ri l (Hq & Hk & Hp & Hc & Hf) Hl IH];
    intros acc (Ha1 & Ha2 & Ha3 & Ha4); cbn [fold_left].
  - repeat split; assumption.
  - apply IH. unfold macros_step, all_fields. cbn [calories protein carbs fat].
    repeat split; apply add_scaled_nonneg; assumption.
Qed.

Lemma round_finite_whole x : is_finite x -> whole (JS.round x).
Proof.
  destruct x; cbn [is_finite]; try tauto. intros _. eexists. reflexivity.
Qed.

Lemma round_nonneg_whole x :
  is_nonneg x -> exists z : Z, JS.round x = JS.of_Z z /\ (0 <= z)%Z.
Proof.
  destruct x as [q| | |]; cbn [is_nonneg]; try tauto. intro Hq.
  eexists. split; [reflexivity|].
  change 0%Z with (Qfloor 0). apply Qfloor_resp_le. lra.
Qed.

Lemma calculateRecipeMacros_whole recipe :
  Forall finite_requirement (Recipe.recipe_ingredients recipe) ->
  all_fields whole (calculateRecipeMacros recipe).
Proof.
  intro Hl. rewrite calculateRecipeMacros_fold. cbv zeta.
  destruct (@macros_fold_finite _ Hl zero_macros (conj I (conj I (conj I I))))
    as (H1 & H2 & H3 & H4).
  unfold all_fields. cbn [calories protein carbs fat].
  repeat split; now apply round_finite_whole.
Qed.

(** X2.  For a recipe whose requirements have finite quantities of
    ingredients with finite nutrition facts, the four macros
    calculateRecipeMacros returns are integers; when none of those
    quantities and facts is negative, none of the four macros is. *)
Theorem recipe_macros_are_whole_numbers :
  forall recipe : Recipe.t,
    (Forall finite_requirement (Recipe.recipe_ingredients recipe) ->
     all_fields whole (calculateRecipeMacros recipe))
    /\ (Forall nonneg_requirement (Recipe.recipe_ingredients recipe) ->
        all_fields (fun x => exists z : Z, x = JS.of_Z z /\ (0 <= z)%Z)
          (calculateRecipeMacros recipe)).
Proof.
  intro recipe. split; [apply calculateRecipeMacros_whole|].
  intro Hl. rewrite calculateRecipeMacros_fold. cbv zeta.
  assert (H0 : all_fields is_nonneg zero_macros)
    by (repeat split; discriminate).
  destruct (@macros_fold_nonneg _ Hl zero_macros H0) as (H1 & H2 & H3 & H4).
  unfold all_fields. cbn [calories protein carbs fat].
  repeat split; now apply round_nonneg_whole.
Qed.

Lemma recipe_macros_are_whole_numbers_witness :
  Forall nonneg_requirement (Recipe.recipe_ingredients ex_chicken_rice)
  /\ all_fields (fun x => exists z : Z, x = JS.of_Z z /\ (0 <= z)%Z)
       (calculateRecipeMacros ex_chicken_rice).
Proof.
  assert (H : Forall nonneg_requirement (Recipe.recipe_ingredients ex_chicken_rice)).
  { repeat constructor; discriminate. }
  split; [exact H|].
  exact (proj2 (recipe_macros_are_whole_numbers ex_chicken_rice) H).
Defined.

(* ------------------------------------------------------------------------- *)
(** ** Further properties: the daily targets *)

Lemma div_fin (a b : Q) : ~ b == 0 -> (Fin a / Fin b)%num = Fin (a / b).
Proof.
  intro Hb. cbn [JS.div].
  destruct (Qeq_bool b 0) eqn:E; [|reflexivity].
  apply Qeq_bool_iff in E. contradiction.
Qed.

Lemma round_fin_bounds (x : Q) :
  exists z : Z,
    JS.round (Fin x) = JS.of_Z z
    /\ x - (1 # 2) < inject_Z z /\ inject_Z z <= x + (1 # 2).
Proof.
  exists (Qfloor (x + (1 # 2))). split; [reflexivity|].
  pose proof (Qfloor_le (x + (1 # 2))) as H1.
  pose proof (Qlt_floor (x + (1 # 2))) as H2.
  rewrite inject_Z_plus in H2. change (inject_Z 1) with 1 in H2.
  split; lra.
Qed.

(** X3.  When the three percentages of a profile sum to 100, the gram
    targets generatePlan derives are integers whose energy, at 4 kcal per
    gram of protein and of carbohydrate and 9 kcal per gram of fat, differs
    from the energy target by at most 8.5 kcal. *)
Theorem daily_targets_reproduce_energy_target :
  forall (userProfile : User.t) (k pp cp fp : Q),
    User.kcal_target userProfile = Fin k ->
    User.protein_pct userProfile = Fin pp ->
    User.carb_pct userProfile = Fin cp ->
    User.fat_pct userProfile = Fin fp ->
    pp + cp + fp == 100 ->
    exists P C F : Z,
      protein (dailyTargets_of userProfile) = JS.of_Z P
      /\ carbs (dailyTargets_of userProfile) = JS.of_Z C
      /\ fat (dailyTargets_of userProfile) = JS.of_Z F
      /\ Qabs (4 * inject_Z P + 4 * inject_Z C + 9 * inject_Z F - k) <= 17 # 2.
Proof.
  intros u k pp cp fp Hk Hp Hc Hf Hsum.
  unfold dailyTargets_of. cbn [protein carbs fat]. rewrite Hk, Hp, Hc, Hf.
  cbn [JS.mul].
  change (100%num) with (Fin 100). change (4%num) with (Fin 4).
  change (9%num) with (Fin 9).
  rewrite !div_fin by discriminate.
  destruct (round_fin_bounds (k * pp / 100 / 4)) as (P & -> & HP1 & HP2).
  destruct (round_fin_bounds (k * cp / 100 / 4)) as (C & -> & HC1 & HC2).
  destruct (round_fin_bounds (k * fp / 100 / 9)) as (F & -> & HF1 & HF2).
  exists P, C, F. repeat split.
  set (x := k * pp / 100 / 4) in *.
  set (y := k * cp / 100 / 4) in *.
  set (z := k * fp / 100 / 9) in *.
  assert (E : 4 * x + 4 * y + 9 * z == k).
  { unfold x, y, z.
    assert (E1 : 4 * (k * pp / 100 / 4) + 4 * (k * cp / 100 / 4)
                 + 9 * (k * fp / 100 / 9)
                 == k * (pp + cp + fp) / 100) by field.
    rewrite E1, Hsum. field. }
  apply Qabs_Qle_condition. split; lra.
Qed.

Lemma daily_targets_reproduce_energy_target_witness :
  User.kcal_target ex_user = Fin 2000
  /\ User.protein_pct ex_user = Fin 30
  /\ User.carb_pct ex_user = Fin 40
  /\ User.fat_pct ex_user = Fin 30
  /\ 30 + 40 + 30 == 100
  /\ exists P C F : Z,
       protein (dailyTargets_of ex_user) = JS.of_Z P
       /\ carbs (dailyTargets_of ex_user) = JS.of_Z C
       /\ fat (dailyTargets_of ex_user) = JS.of_Z F
       /\ Qabs (4 * inject_Z P + 4 * inject_Z C + 9 * inject_Z F - 2000) <= 17 # 2.
Proof.
  repeat (split; [reflexivity|]).
  exact (@daily_targets_reproduce_energy_target ex_user 2000 30 40 30
           eq_refl eq_refl eq_refl eq_refl eq_refl).
Defined.

(* ------------------------------------------------------------------------- *)
(** ** Further properties: the accuracy formula *)

Lemma accuracy_zero_target (actual target : Q) :
  target == 0 ->
  accuracy (Fin actual) (Fin target)
  = match (Qabs (actual - target) ?= 0)%Q with
    | Eq => NaN
    | _ => NInf
    end.
Proof.
  intro Ht. unfold accuracy. cbn [JS.sub JS.neg JS.add JS.abs JS.div].
  assert (E : Qeq_bool target 0 = true) by now apply Qeq_bool_iff.
  rewrite E.
  change (Qabs (actual + - target)) with (Qabs (actual - target)).
  pose proof (Qabs_nonneg (actual - target)) as Hn.
  destruct (Qabs (actual - target) ?= 0)%Q eqn:C; try reflexivity.
  apply Qlt_alt in C. lra.
Qed.

(** X4.  The accuracy formula of generatePlan, applied to a finite actual
    value: against a positive target it yields an integer that is at most
    100; against a target of zero it yields no number at all, but NaN or an
    infinity. *)
Theorem accuracy_is_capped_and_undefined_at_zero_target :
  forall actual target : Q,
    (0 < target ->
     exists z : Z, accuracy (Fin actual) (Fin target) = JS.of_Z z /\ (z <= 100)%Z)
    /\ (target == 0 -> ~ is_finite (accuracy (Fin actual) (Fin target))).
Proof.
  intros actual target. split.
  - intro Ht. rewrite accuracy_finite by assumption.
    eexists. split; [reflexivity|].
    set (D := Qabs (actual - target)).
    assert (HD : 0 <= D) by apply Qabs_nonneg.
    assert (Hq : 0 <= D / target) by (apply Qdiv_ge_iff; [assumption | lra]).
    assert (H : (Qfloor ((1 - D / target) * 100 + (1 # 2)) < 100 + 1)%Z).
    { rewrite Zlt_Qlt.
      apply Qle_lt_trans with ((1 - D / target) * 100 + (1 # 2));
        [apply Qfloor_le|].
      change (inject_Z (100 + 1)) with 101. lra. }
    lia.
  - intro Ht. rewrite accuracy_zero_target by assumption.
    destruct (Qabs (actual - target) ?= 0)%Q; exact (fun H => H).
Qed.

Lemma accuracy_is_capped_and_undefined_at_zero_target_witness :
  0 < 2000
  /\ (exists z : Z, accuracy (Fin 4001) (Fin 2000) = JS.of_Z z /\ (z <= 100)%Z)
  /\ ~ is_finite (accuracy (Fin 12) (Fin 0)).
Proof.
  assert (H : 0 < 2000) by reflexivity.
  split; [exact H|]. split.
  - exact (proj1 (accuracy_is_capped_and_undefined_at_zero_target 4001 2000) H).
  - apply (proj2 (accuracy_is_capped_and_undefined_at_zero_target 12 0)).
    reflexivity.
Defined.

(* ------------------------------------------------------------------------- *)
(** ** Further properties: sorting by density *)

Lemma sort_insert_Forall {A : Type} (cmp : A -> A -> num) (P : A -> Prop) x l :
  P x -> Forall P l -> Forall P (sort_insert cmp x l).
Proof.
  intros Hx Hl.
  assert (H : Forall P (x :: l)) by now constructor.
  rewrite Forall_forall in *. intros y Hy. apply H.
  eapply Permutation_in; [apply sort_insert_perm | exact Hy].
Qed.

Lemma js_sort_Forall {A : Type} (cmp : A -> A -> num) (P : A -> Prop) l :
  Forall P l -> Forall P (js_sort cmp l).
Proof.
  intro Hl. rewrite Forall_forall in *. intros y Hy. apply Hl.
  now apply js_sort_In in Hy.
Qed.

Lemma key_cmp_not_after x y :
  is_finite x -> is_finite y ->
  (y - x >? 0)%num = false -> (x >=? y)%num = true.
Proof. destruct x, y; cbn [is_finite]; try tauto; intros _ _ H; num_crush. Qed.

Lemma key_cmp_after x y :
  is_finite x -> is_finite y ->
  (y - x >? 0)%num = true -> (y >=? x)%num = true.
Proof. destruct x, y; cbn [is_finite]; try tauto; intros _ _ H; num_crush. Qed.

Lemma key_desc_keeps x y : (x >=? y)%num = true -> (y - x >? 0)%num = false.
Proof. destruct x, y; intro H; num_crush. Qed.

Lemma ge_trans x y z :
  (x >=? y)%num = true -> (y >=? z)%num = true -> (x >=? z)%num = true.
Proof. destruct x, y, z; intros H1 H2; num_crush. Qed.

Section SortByKey.

Variable A : Type.
Variable key : A -> num.

Lemma sort_insert_descending x l :
  is_finite (key x) -> Forall (fun y => is_finite (key y)) l ->
  descending key l -> descending key (sort_insert (key_cmp key) x l).
Proof.
  intros Hx. induction l as [|y l IH]; intros Hfin Hl; cbn [sort_insert].
  - cbn. auto.
  - inversion Hfin as [|? ? Hy Hfl]; subst.
    destruct Hl as (Hyl & Hl).
    unfold key_cmp at 1.
    destruct (key y - key x >? 0)%num eqn:E.
    + cbn [descending]. split; [|now apply IH].
      apply sort_insert_Forall; [|exact Hyl].
      unfold key_desc. now apply key_cmp_after.
    + cbn [descending]. split; [|split; assumption].
      assert (Hxy : key_desc key x y)
        by (unfold key_desc; now apply key_cmp_not_after).
      constructor; [exact Hxy|].
      rewrite Forall_forall in *. intros z Hz.
      unfold key_desc in *. eapply ge_trans; [exact Hxy | now apply Hyl].
Qed.

Lemma js_sort_descending l :
  Forall (fun y => is_finite (key y)) l ->
  descending key (js_sort (key_cmp key) l).
Proof.
  induction 1 as [|x l Hx Hl IH]; cbn [js_sort fold_right]; [exact I|].
  apply sort_insert_descending; [exact Hx | | exact IH].
  now apply js_sort_Forall.
Qed.

Lemma js_sort_descending_id l :
  descending key l -> js_sort (key_cmp key) l = l.
Proof.
  induction l as [|x l IH]; intro Hl; cbn [js_sort fold_right]; [reflexivity|].
  destruct Hl as (Hxl & Hl). fold (js_sort (key_cmp key) l). rewrite IH by assumption.
  destruct l as [|y l]; [reflexivity|]. cbn [sort_insert].
  inversion Hxl as [|? ? Hxy _]; subst.
  unfold key_cmp at 1. unfold key_desc in Hxy.
  now rewrite key_desc_keeps.
Qed.

End SortByKey.

Lemma filter_all {A : Type} (p : A -> bool) l :
  Forall (fun x => p x = true) l -> filter p l = l.
Proof.
  induction 1 as [|x l Hx Hl IH]; cbn [filter]; [reflexivity|].
  now rewrite Hx, IH.
Qed.

Lemma sortByProteinDensity_available recipes :
  Forall (fun r => (availableServings r >? 0)%num = true)
    (sortByProteinDensity recipes).
Proof.
  unfold sortByProteinDensity. apply js_sort_Forall.
  rewrite Forall_forall. intros r Hr. apply filter_In in Hr. tauto.
Qed.

Lemma Forall_filter {A : Type} (P : A -> Prop) (p : A -> bool) l :
  Forall P l -> Forall P (filter p l).
Proof.
  intro H. rewrite Forall_forall in *. intros x Hx.
  apply filter_In in Hx. apply H. tauto.
Qed.

(** X5.  sortByProteinDensity returns exactly the recipes with positive
    availability, each as often as the input has it.  When the protein
    densities are finite the result is in descending order of density; a
    list that is already in descending order, all of positive availability,
    is returned unchanged (the sort is stable), so sorting twice is sorting
    once. *)
Theorem sort_by_protein_density_orders_the_available_recipes :
  forall recipes : list RecipeWithMacros,
    Permutation (sortByProteinDensity recipes)
      (filter (fun r => (availableServings r >? 0)%num) recipes)
    /\ (Forall (fun r => is_finite (proteinDensity r)) recipes ->
        descending proteinDensity (sortByProteinDensity recipes)
        /\ sortByProteinDensity (sortByProteinDensity recipes)
           = sortByProteinDensity recipes)
    /\ (descending proteinDensity recipes ->
        Forall (fun r => (availableServings r >? 0)%num = true) recipes ->
        sortByProteinDensity recipes = recipes).
Proof.
  intro recipes.
  assert (Hid : forall l,
             descending proteinDensity l ->
             Forall (fun r => (availableServings r >? 0)%num = true) l ->
             sortByProteinDensity l = l).
  { intros l Hd Ha. unfold sortByProteinDensity.
    rewrite filter_all by exact Ha.
    exact (js_sort_descending_id proteinDensity l Hd). }
  split; [apply js_sort_perm|]. split; [|apply Hid].
  intro Hfin.
  assert (Hd : descending proteinDensity (sortByProteinDensity recipes)).
  { unfold sortByProteinDensity.
    apply (js_sort_descending proteinDensity). now apply Forall_filter. }
  split; [exact Hd|].
  apply Hid; [exact Hd | apply sortByProteinDensity_available].
Qed.

Lemma sort_by_protein_density_orders_the_available_recipes_witness :
  Forall (fun r => is_finite (proteinDensity r)) ex_pool
  /\ descending proteinDensity (sortByProteinDensity ex_pool)
  /\ map rid (sortByProteinDensity ex_pool) = ["r1"; "r2"; "r3"].
Proof.
  assert (H : Forall (fun r => is_finite (proteinDensity r)) ex_pool).
  { repeat constructor. }
  split; [exact H|]. split; [|reflexivity].
  exact (proj1 (proj1 (proj2
           (sort_by_protein_density_orders_the_available_recipes ex_pool)) H)).
Defined.

(* ------------------------------------------------------------------------- *)
(** ** Further properties: the choice of the Gap Filler *)

Lemma carb_step_head dailyTargets cur l rng drawn a :
  In a (fst (carb_step dailyTargets cur l rng drawn)) ->
  exists rest, l = recipe a :: rest.
Proof.
  unfold carb_step. destruct l as [|r rest]; [intros []|].
  destruct (dailyCarbGap dailyTargets cur >? 0)%num; [|intros []].
  cbv zeta. destruct (JS.min3 _ _ _ >? 0)%num; [|intros []].
  intros [<-|[]]. now exists rest.
Qed.

Lemma fat_step_head dailyTargets cur l rng drawn a :
  In a (fst (fat_step dailyTargets cur l rng drawn)) ->
  exists rest, l = recipe a :: rest.
Proof.
  unfold fat_step. destruct l as [|r rest]; [intros []|].
  destruct (dailyFatGap dailyTargets cur >? 0)%num; [|intros []].
  cbv zeta. destruct (JS.min3 _ _ _ >? 0)%num; [|intros []].
  intros [<-|[]]. now exists rest.
Qed.

Lemma ge_refl_finite x : is_finite x -> (x >=? x)%num = true.
Proof.
  destruct x; cbn [is_finite]; try tauto. intros _.
  unfold JS.ge. cbn [JS.le]. apply Qle_bool_iff. apply Qle_refl.
Qed.

Lemma descending_head {A : Type} (key : A -> num) x l y :
  is_finite (key x) -> descending key (x :: l) -> In y (x :: l) ->
  (key x >=? key y)%num = true.
Proof.
  intros Hx (Hxl & _) [<-|Hy]; [now apply ge_refl_finite|].
  rewrite Forall_forall in Hxl. now apply Hxl.
Qed.

(** X6.  When the carbohydrate and fat densities (grams per kcal) of the
    recipes of the pool are finite, what the Gap Filler adds is at most one
    assignment for carbohydrate followed by at most one for fat; the recipe
    of the carbohydrate assignment is one of the candidates for it, the
    unselected recipes of positive availability with more carbohydrate than
    fat, and has the highest carbohydrate density among them; and the
    recipe of the fat assignment is one of the candidates with more fat than
    carbohydrate and has the highest fat density among them. *)
Theorem gap_filler_picks_the_densest_candidate :
  forall (rng : Rng) (recipes : list RecipeWithMacros)
         (selected : list Selection) (currentMacros dailyTargets : MacroProfile),
    Forall (fun r => is_finite (carb_density r) /\ is_finite (fat_density r))
      recipes ->
    exists forCarbs forFat : list Selection,
      fillRemainingMacros rng recipes selected currentMacros dailyTargets
      = selected ++ forCarbs ++ forFat
      /\ (List.length forCarbs <= 1)%nat
      /\ (List.length forFat <= 1)%nat
      /\ (forall a,
            In a forCarbs ->
            gap_candidate recipes selected (recipe a)
            /\ (carbs (macros (recipe a)) >? fat (macros (recipe a)))%num = true)
      /\ (forall a,
            In a forFat ->
            gap_candidate recipes selected (recipe a)
            /\ (fat (macros (recipe a)) >? carbs (macros (recipe a)))%num = true)
      /\ (forall a c,
            In a forCarbs ->
            gap_candidate recipes selected c ->
            (carbs (macros c) >? fat (macros c))%num = true ->
            (carb_density (recipe a) >=? carb_density c)%num = true)
      /\ (forall a c,
            In a forFat ->
            gap_candidate recipes selected c ->
            (fat (macros c) >? carbs (macros c))%num = true ->
            (fat_density (recipe a) >=? fat_density c)%num = true).
Proof.
  intros rng recipes selected cur dailyTargets Hfin.
  rewrite fillRemainingMacros_eq.
  eexists. eexists. split; [reflexivity|].
  assert (Hav : forall c, gap_candidate recipes selected c ->
                          In c (availableRecipes recipes selected)).
  { intros c (Hc & Hused & Hpos). unfold availableRecipes.
    apply filter_In. split; [exact Hc|]. now rewrite Hused, Hpos. }
  assert (Hfin' : forall c, In c recipes ->
                            is_finite (carb_density c) /\ is_finite (fat_density c)).
  { rewrite Forall_forall in Hfin. exact Hfin. }
  destruct (carb_step_pick rng recipes selected cur dailyTargets 0)
    as (Hclen & Hcpick).
  destruct (fat_step_pick rng recipes selected cur dailyTargets
              (snd (carb_step dailyTargets cur
                      (carbRichRecipes (availableRecipes recipes selected)) rng 0)))
    as (Hflen & Hfpick).
  split; [exact Hclen|]. split; [exact Hflen|].
  split; [exact Hcpick|]. split; [exact Hfpick|].
  split.
  - intros a c Ha Hc Hlean.
    apply carb_step_head in Ha. destruct Ha as (rest & Hl).
    assert (Hd : descending carb_density
                   (carbRichRecipes (availableRecipes recipes selected))).
    { unfold carbRichRecipes. apply (js_sort_descending carb_density).
      rewrite Forall_forall. intros r Hr. apply filter_In in Hr.
      destruct Hr as (Hr & _). unfold availableRecipes in Hr.
      apply filter_In in Hr. exact (proj1 (Hfin' r (proj1 Hr))). }
    assert (Hin : In c (carbRichRecipes (availableRecipes recipes selected))).
    { unfold carbRichRecipes. apply js_sort_In. apply filter_In.
      split; [now apply Hav | exact Hlean]. }
    assert (Hhead : In (recipe a)
                      (carbRichRecipes (availableRecipes recipes selected)))
      by (rewrite Hl; now left).
    rewrite Hl in Hd, Hin.
    apply (@descending_head _ carb_density (recipe a) rest c); auto.
    unfold carbRichRecipes in Hhead. apply js_sort_In in Hhead.
    apply filter_In in Hhead. destruct Hhead as (Hhead & _).
    unfold availableRecipes in Hhead. apply filter_In in Hhead.
    exact (proj1 (Hfin' _ (proj1 Hhead))).
  - intros a c Ha Hc Hlean.
    apply fat_step_head in Ha. destruct Ha as (rest & Hl).
    assert (Hd : descending fat_density
                   (fatRichRecipes (availableRecipes recipes selected))).
    { unfold fatRichRecipes. apply (js_sort_descending fat_density).
      rewrite Forall_forall. intros r Hr. apply filter_In in Hr.
      destruct Hr as (Hr & _). unfold availableRecipes in Hr.
      apply filter_In in Hr. exact (proj2 (Hfin' r (proj1 Hr))). }
    assert (Hin : In c (fatRichRecipes (availableRecipes recipes selected))).
    { unfold fatRichRecipes. apply js_sort_In. apply filter_In.
      split; [now apply Hav | exact Hlean]. }
    assert (Hhead : In (recipe a)
                      (fatRichRecipes (availableRecipes recipes selected)))
      by (rewrite Hl; now left).
    rewrite Hl in Hd, Hin.
    apply (@descending_head _ fat_density (recipe a) rest c); auto.
    unfold fatRichRecipes in Hhead. apply js_sort_In in Hhead.
    apply filter_In in Hhead. destruct Hhead as (Hhead & _).
    unfold availableRecipes in Hhead. apply filter_In in Hhead.
    exact (proj2 (Hfin' _ (proj1 Hhead))).
Qed.

Lemma gap_filler_picks_the_densest_candidate_witness :
  Forall (fun r => is_finite (carb_density r) /\ is_finite (fat_density r)) ex_pool
  /\ exists forCarbs forFat : list Selection,
       fillRemainingMacros ex_rng ex_pool
         (fst (greedyProteinFill ex_pool ex_low_protein_targets))
         (snd (greedyProteinFill ex_pool ex_low_protein_targets))
         ex_low_protein_targets
       = fst (greedyProteinFill ex_pool ex_low_protein_targets) ++ forCarbs ++ forFat
       /\ (forall a c,
             In a forCarbs ->
             gap_candidate ex_pool
               (fst (greedyProteinFill ex_pool ex_low_protein_targets)) c ->
             (carbs (macros c) >? fat (macros c))%num = true ->
             (carb_density (recipe a) >=? carb_density c)%num = true).
Proof.
  assert (H : Forall (fun r => is_finite (carb_density r) /\ is_finite (fat_density r))
                ex_pool).
  { repeat constructor. }
  split; [exact H|].
  destruct (@gap_filler_picks_the_densest_candidate ex_rng ex_pool
              (fst (greedyProteinFill ex_pool ex_low_protein_targets))
              (snd (greedyProteinFill ex_pool ex_low_protein_targets))
              ex_low_protein_targets H)
    as (forCarbs & forFat & Heq & _ & _ & _ & _ & Hc & _).
  exists forCarbs, forFat. split; [exact Heq | exact Hc].
Defined.

(* ------------------------------------------------------------------------- *)
(** ** Further properties: when the Gap Filler adds nothing *)

Lemma gap_closed t x : (t <=? x)%num = true -> (JS.max 0 (t - x) >? 0)%num = false.
Proof. destruct t, x; intro H; num_crush. Qed.

Lemma has_id_true ids id : has_id ids id = true <-> In id ids.
Proof.
  destruct (has_id ids id) eqn:E.
  - split; [intros _|reflexivity].
    unfold has_id in E. apply existsb_exists in E.
    destruct E as (x & Hin & Hx). apply String.eqb_eq in Hx. now subst.
  - apply has_id_false in E. split; [discriminate | contradiction].
Qed.

Lemma filter_none {A : Type} (p : A -> bool) l :
  (forall x, In x l -> p x = false) -> filter p l = [].
Proof.
  induction l as [|x l IH]; intro H; cbn [filter]; [reflexivity|].
  rewrite (H x) by now left. apply IH. intros y Hy. apply H. now right.
Qed.

(** X7.  fillRemainingMacros returns the selections it was given, and adds
    nothing, when the accumulated daily averages of carbohydrate and of fat
    have both reached their targets, and also when every recipe of the pool
    with positive availability has been selected already. *)
Theorem gap_filler_adds_nothing_without_gap_or_candidate :
  forall (rng : Rng) (recipes : list RecipeWithMacros)
         (selected : list Selection) (currentMacros dailyTargets : MacroProfile),
    ((carbs dailyTargets <=? carbs currentMacros / 7)%num = true ->
     (fat dailyTargets <=? fat currentMacros / 7)%num = true ->
     fillRemainingMacros rng recipes selected currentMacros dailyTargets = selected)
    /\ ((forall r,
            In r recipes -> (availableServings r >? 0)%num = true ->
            In (rid r) (usedRecipeIds selected)) ->
        fillRemainingMacros rng recipes selected currentMacros dailyTargets
        = selected).
Proof.
  intros rng recipes selected cur dailyTargets. split.
  - intros Hc Hf. rewrite fillRemainingMacros_eq.
    unfold carb_step, fat_step, dailyCarbGap, dailyFatGap.
    change (JS.of_Z daysInWeek) with (7%num).
    rewrite (gap_closed _ _ Hc), (gap_closed _ _ Hf).
    destruct (carbRichRecipes _), (fatRichRecipes _); cbn [fst snd];
      now rewrite !app_nil_r.
  - intro Hall.
    assert (Hnone : availableRecipes recipes selected = []).
    { unfold availableRecipes. apply filter_none. intros r Hr.
      destruct (availableServings r >? 0)%num eqn:E;
        [|now rewrite andb_false_r].
      assert (Hused : has_id (usedRecipeIds selected) (rid r) = true)
        by (apply has_id_true; now apply Hall).
      now rewrite Hused. }
    rewrite fillRemainingMacros_eq, Hnone.
    cbn. now rewrite app_nil_r.
Qed.

Lemma gap_filler_adds_nothing_without_gap_or_candidate_witness :
  (forall r,
      In r ex_pool -> (availableServings r >? 0)%num = true ->
      In (rid r) (usedRecipeIds (fst (greedyProteinFill ex_pool ex_targets))))
  /\ fillRemainingMacros ex_rng ex_pool (fst (greedyProteinFill ex_pool ex_targets))
       (snd (greedyProteinFill ex_pool ex_targets)) ex_targets
     = fst (greedyProteinFill ex_pool ex_targets).
Proof.
  assert (H : forall r,
             In r ex_pool -> (availableServings r >? 0)%num = true ->
             In (rid r) (usedRecipeIds (fst (greedyProteinFill ex_pool ex_targets)))).
  { intros r [<-|[<-|[<-|[]]]] _; vm_compute; tauto. }
  split; [exact H|].
  exact (proj2 (gap_filler_adds_nothing_without_gap_or_candidate ex_rng ex_pool
                  (fst (greedyProteinFill ex_pool ex_targets))
                  (snd (greedyProteinFill ex_pool ex_targets)) ex_targets) H).
Defined.

(* ------------------------------------------------------------------------- *)
(** ** Further properties: the cursor of the greedy loop *)

Lemma cursor_step (s : Z) :
  (0 <= s)%Z ->
  (if ((s + 1) mod 3 =? 0)%Z then s / 3 + 1 else s / 3)%Z = ((s + 1) / 3)%Z.
Proof.
  intro Hs. destruct (Z.eqb_spec ((s + 1) mod 3) 0) as [E|E];
    Z.div_mod_to_equations; lia.
Qed.

Lemma to_nat_mod_3 (n : nat) : Z.to_nat (Z.of_nat n mod 3) = (n mod 3)%nat.
Proof.
  rewrite <- (Nat2Z.id (n mod 3)). f_equal.
  rewrite Nat2Z.inj_mod. reflexivity.
Qed.

Lemma greedy_body_cursor dailyTargets st r st' :
  cursor_inv st ->
  all_splits placed_after (selectedRecipes st) ->
  greedy_body dailyTargets st r = Some st' ->
  cursor_inv st' /\ all_splits placed_after (selectedRecipes st').
Proof.
  intros (Hslot & Hday) Hall. unfold greedy_body.
  destruct (dailyProteinNeeded dailyTargets (currentMacros st) <=? 0)%num;
    [discriminate|].
  cbv zeta.
  destruct (servingsToAdd dailyTargets (currentMacros st) r >? 0)%num;
    intro H; inversion H; subst st'; clear H; [|now split].
  cbn [selectedRecipes currentSlot currentDay]. split.
  - unfold cursor_inv. cbn [selectedRecipes currentSlot currentDay].
    rewrite length_app. cbn [List.length]. split; [lia|].
    change (Z.of_nat (List.length mealSlots)) with 3%Z.
    rewrite Hday. apply cursor_step. lia.
  - apply all_splits_snoc; [exact Hall|].
    unfold placed_after. cbn [day slot]. split.
    + rewrite Hday, Hslot. reflexivity.
    + rewrite Hslot. cbn [List.length mealSlots]. change (Z.of_nat 3) with 3%Z.
      now rewrite to_nat_mod_3.
Qed.

Lemma greedy_loop_cursor dailyTargets rs :
  forall st,
    cursor_inv st ->
    all_splits placed_after (selectedRecipes st) ->
    all_splits placed_after (selectedRecipes (greedy_loop dailyTargets rs st)).
Proof.
  induction rs as [|r rs IH]; intros st Hinv Hall; cbn [greedy_loop];
    [exact Hall|].
  destruct (greedy_body dailyTargets st r) as [st'|] eqn:E; [|exact Hall].
  destruct (@greedy_body_cursor dailyTargets st r st' Hinv Hall E) as (Hinv' & Hall').
  now apply IH.
Qed.

Lemma greedy_placed recipes dailyTargets :
  all_splits placed_after (fst (greedyProteinFill recipes dailyTargets)).
Proof.
  unfold greedyProteinFill. cbn [fst]. apply greedy_loop_cursor.
  - split; reflexivity.
  - apply all_splits_nil.
Qed.

Lemma mealSlots_nth_inj (i j : nat) :
  (i < 3)%nat -> (j < 3)%nat ->
  nth i mealSlots "" = nth j mealSlots "" -> i = j.
Proof.
  intros Hi Hj.
  destruct i as [|[|[|i]]]; destruct j as [|[|[|j]]]; try lia;
    cbn; intro H; try reflexivity; discriminate.
Qed.

(** X8.  In the list the greedy protein fill returns, the assignment at
    position i (from 0) is on day (i / 3) mod 7, in slot breakfast, lunch or
    dinner according to i mod 3, and never in the snack slot.  So among the
    first 21 assignments no two share a day and a slot. *)
Theorem greedy_fill_walks_the_week_three_slots_a_day :
  forall (recipes : list RecipeWithMacros) (dailyTargets : MacroProfile),
    (forall pre a post,
        fst (greedyProteinFill recipes dailyTargets) = pre ++ a :: post ->
        day a = JS.of_Z ((Z.of_nat (List.length pre) / 3) mod 7)
        /\ slot a = nth (List.length pre mod 3)%nat mealSlots ""
        /\ slot a <> "snack")
    /\ (forall pre a post pre' a' post',
          fst (greedyProteinFill recipes dailyTargets) = pre ++ a :: post ->
          fst (greedyProteinFill recipes dailyTargets) = pre' ++ a' :: post' ->
          (List.length pre < 21)%nat -> (List.length pre' < 21)%nat ->
          day a = day a' -> slot a = slot a' ->
          List.length pre = List.length pre').
Proof.
  intros recipes dailyTargets.
  pose proof (greedy_placed recipes dailyTargets) as Hall.
  split.
  - intros pre a post Hsplit. destruct (Hall pre a post Hsplit) as (Hd & Hs).
    split; [exact Hd|]. split; [exact Hs|].
    rewrite Hs.
    assert (Hlt : (List.length pre mod 3 < 3)%nat)
      by (apply Nat.mod_upper_bound; lia).
    destruct (List.length pre mod 3)%nat as [|[|[|k]]]; try lia; discriminate.
  - intros pre a post pre' a' post' H1 H2 Hl1 Hl2 Hday Hslot.
    destruct (Hall pre a post H1) as (Hd & Hs).
    destruct (Hall pre' a' post' H2) as (Hd' & Hs').
    rewrite Hd, Hd' in Hday. apply of_Z_inj in Hday.
    rewrite Hs, Hs' in Hslot.
    apply mealSlots_nth_inj in Hslot;
      try (apply Nat.mod_upper_bound; lia).
    assert (Hm : (Z.of_nat (List.length pre) mod 3
                  = Z.of_nat (List.length pre') mod 3)%Z).
    { change 3%Z with (Z.of_nat 3). rewrite <- !Nat2Z.inj_mod. now rewrite Hslot. }
    assert (H : Z.of_nat (List.length pre) = Z.of_nat (List.length pre')).
    { revert Hday Hm.
      generalize (Z.of_nat (List.length pre)) (Z.of_nat (List.length pre')) 
        (Nat2Z.is_nonneg (List.length pre)) (Nat2Z.is_nonneg (List.length pre'))
        (proj1 (Nat2Z.inj_lt _ _) Hl1) (proj1 (Nat2Z.inj_lt _ _) Hl2).
      cbn. intros x y Hx Hy Hx' Hy' Hday Hm.
      Z.div_mod_to_equations. lia. }
    now apply Nat2Z.inj.
Qed.

Lemma greedy_fill_walks_the_week_three_slots_a_day_witness :
  fst (greedyProteinFill ex_pool ex_targets)
  = [ {| recipe := nth 0 ex_pool ex_chicken_rice_macros; servings := 3;
         day := 0; slot := "breakfast" |};
      {| recipe := nth 1 ex_pool ex_chicken_rice_macros; servings := 3;
         day := 0; slot := "lunch" |} ]
    ++ {| recipe := nth 2 ex_pool ex_chicken_rice_macros; servings := 3;
          day := 0; slot := "dinner" |} :: []
  /\ slot {| recipe := nth 2 ex_pool ex_chicken_rice_macros; servings := 3;
             day := 0; slot := "dinner" |} <> "snack".
Proof.
  assert (H : fst (greedyProteinFill ex_pool ex_targets)
              = [ {| recipe := nth 0 ex_pool ex_chicken_rice_macros; servings := 3;
                     day := 0; slot := "breakfast" |};
                  {| recipe := nth 1 ex_pool ex_chicken_rice_macros; servings := 3;
                     day := 0; slot := "lunch" |} ]
                ++ {| recipe := nth 2 ex_pool ex_chicken_rice_macros; servings := 3;
                      day := 0; slot := "dinner" |} :: []).
  { reflexivity. }
  split; [exact H|].
  exact (proj2 (proj2 (proj1 (greedy_fill_walks_the_week_three_slots_a_day
                                ex_pool ex_targets) _ _ _ H))).
Defined.

(* ------------------------------------------------------------------------- *)
(** ** Further properties: what the greedy loop leaves out *)

Lemma min_pos x y :
  (x >? 0)%num = true -> (y >? 0)%num = true -> (JS.min x y >? 0)%num = true.
Proof. destruct x, y; intros H1 H2; num_crush. Qed.

Lemma ceil_pos x : (x >? 0)%num = true -> (JS.ceil x >? 0)%num = true.
Proof.
  destruct x as [q| | |]; auto.
  unfold JS.gt, JS.ceil, JS.of_Z. cbn [JS.lt]. rewrite !Qltb_spec. intro H.
  apply Qlt_le_trans with q; [exact H | apply Qle_ceiling].
Qed.

Lemma div_pos_fin (g p : Q) :
  0 < g -> 0 < p -> (Fin g / Fin p >? 0)%num = true.
Proof.
  intros Hg Hp. rewrite div_fin by lra.
  unfold JS.gt. cbn [JS.lt]. apply Qltb_spec.
  apply Qlt_shift_div_l; lra.
Qed.

Lemma gap_fin (t c : Q) :
  exists g : Q,
    dailyProteinNeeded {| calories := 0; protein := Fin t; carbs := 0; fat := 0 |}
      {| calories := 0; protein := Fin c; carbs := 0; fat := 0 |} = Fin g
    /\ 0 <= g
    /\ (g <= 0 -> t <= c / 7).
Proof.
  unfold dailyProteinNeeded. cbn [protein].
  change (JS.of_Z daysInWeek) with (Fin 7). rewrite div_fin by discriminate.
  cbn [JS.sub JS.neg JS.add JS.max JS.le].
  destruct (Qle_bool (t + - (c / 7)) 0) eqn:E.
  - exists 0. apply Qle_bool_iff in E. repeat split; lra.
  - exists (t + - (c / 7)). apply Qle_bool_false in E. repeat split; lra.
Qed.

Lemma dailyProteinNeeded_protein dailyTargets cur :
  dailyProteinNeeded dailyTargets cur
  = dailyProteinNeeded
      {| calories := 0; protein := protein dailyTargets; carbs := 0; fat := 0 |}
      {| calories := 0; protein := protein cur; carbs := 0; fat := 0 |}.
Proof. reflexivity. Qed.

Lemma pushed_servings_finite dailyTargets cur r :
  (servingsToAdd dailyTargets cur r >? 0)%num = true ->
  is_finite (servingsToAdd dailyTargets cur r).
Proof.
  intro H. pose proof (servingsToAdd_le_3 _ _ _ H) as H3.
  destruct (servingsToAdd dailyTargets cur r); cbn [is_finite]; auto;
    discriminate.
Qed.

Lemma greedy_body_protein_finite dailyTargets st r st' :
  is_finite (protein (currentMacros st)) ->
  is_finite (protein (macros r)) ->
  greedy_body dailyTargets st r = Some st' ->
  is_finite (protein (currentMacros st')).
Proof.
  intros Hc Hr. unfold greedy_body.
  destruct (dailyProteinNeeded dailyTargets (currentMacros st) <=? 0)%num;
    [discriminate|].
  cbv zeta.
  destruct (servingsToAdd dailyTargets (currentMacros st) r >? 0)%num eqn:E;
    intro H; inversion H; subst st'; clear H; [|exact Hc].
  cbn [currentMacros add_servings protein].
  apply pushed_servings_finite in E.
  destruct (protein (currentMacros st)), (protein (macros r)),
    (servingsToAdd dailyTargets (currentMacros st) r);
    cbn [is_finite] in *; tauto.
Qed.

Lemma greedy_body_keeps dailyTargets st r st' a :
  greedy_body dailyTargets st r = Some st' ->
  In a (selectedRecipes st) -> In a (selectedRecipes st').
Proof.
  unfold greedy_body.
  destruct (dailyProteinNeeded dailyTargets (currentMacros st) <=? 0)%num;
    [discriminate|].
  cbv zeta.
  destruct (servingsToAdd dailyTargets (currentMacros st) r >? 0)%num;
    intro H; inversion H; subst st'; clear H; [|auto].
  cbn [selectedRecipes]. intro Hin. apply in_or_app. now left.
Qed.

Lemma greedy_loop_keeps dailyTargets rs :
  forall st a,
    In a (selectedRecipes st) ->
    In a (selectedRecipes (greedy_loop dailyTargets rs st)).
Proof.
  induction rs as [|r rs IH]; intros st a Hin; cbn [greedy_loop]; [exact Hin|].
  destruct (greedy_body dailyTargets st r) as [st'|] eqn:E; [|exact Hin].
  apply IH. exact (@greedy_body_keeps dailyTargets st r st' a E Hin).
Qed.

Lemma servingsToAdd_positive dailyTargets cur r :
  is_finite (protein dailyTargets) -> is_finite (protein cur) ->
  (dailyProteinNeeded dailyTargets cur <=? 0)%num = false ->
  is_pos (protein (macros r)) ->
  (availableServings r >? 0)%num = true ->
  (servingsToAdd dailyTargets cur r >? 0)%num = true.
Proof.
  intros Ht Hc Hgap Hp Hav. unfold servingsToAdd, JS.min3.
  rewrite dailyProteinNeeded_protein in *.
  destruct (protein dailyTargets) as [t| | |]; cbn [is_finite] in Ht;
    try contradiction.
  destruct (protein cur) as [c| | |]; cbn [is_finite] in Hc; try contradiction.
  destruct (gap_fin t c) as (g & Hg & Hg0 & _). rewrite Hg in *.
  destruct (protein (macros r)) as [p| | |]; cbn [is_pos] in Hp;
    try contradiction.
  assert (Hgpos : 0 < g).
  { cbn [JS.le] in Hgap. apply Qle_bool_false in Hgap. exact Hgap. }
  apply min_pos; [apply min_pos; [|exact Hav] | reflexivity].
  apply ceil_pos. now apply div_pos_fin.
Qed.

Lemma gap_closed_reached dailyTargets cur :
  is_finite (protein dailyTargets) -> is_finite (protein cur) ->
  (dailyProteinNeeded dailyTargets cur <=? 0)%num = true ->
  (protein cur / 7 >=? protein dailyTargets)%num = true.
Proof.
  intros Ht Hc Hgap. rewrite dailyProteinNeeded_protein in Hgap.
  destruct (protein dailyTargets) as [t| | |]; cbn [is_finite] in Ht;
    try contradiction.
  destruct (protein cur) as [c| | |]; cbn [is_finite] in Hc; try contradiction.
  destruct (gap_fin t c) as (g & Hg & _ & Hle). rewrite Hg in Hgap.
  cbn [JS.le] in Hgap. apply Qle_bool_iff in Hgap.
  change (7%num) with (Fin 7). rewrite div_fin by discriminate.
  unfold JS.ge. cbn [JS.le]. apply Qle_bool_iff. now apply Hle.
Qed.

Lemma greedy_loop_complete dailyTargets rs :
  is_finite (protein dailyTargets) ->
  Forall (fun r => is_finite (protein (macros r))) rs ->
  forall st,
    is_finite (protein (currentMacros st)) ->
    (protein (currentMacros (greedy_loop dailyTargets rs st)) / 7
     >=? protein dailyTargets)%num = true
    \/ (forall r,
          In r rs -> is_pos (protein (macros r)) ->
          (availableServings r >? 0)%num = true ->
          In r (map recipe (selectedRecipes (greedy_loop dailyTargets rs st)))).
Proof.
  intros Ht. induction 1 as [|r rs Hr Hrs IH]; intros st Hc; cbn [greedy_loop].
  - right. intros r [].
  - destruct (greedy_body dailyTargets st r) as [st'|] eqn:E.
    + pose proof (@greedy_body_protein_finite dailyTargets st r st' Hc Hr E) as Hc'.
      destruct (IH st' Hc') as [Hreached | Hall]; [now left|].
      right. intros r' [<-|Hin] Hp Hav; [|now apply Hall].
      apply in_map_iff.
      unfold greedy_body in E.
      destruct (dailyProteinNeeded dailyTargets (currentMacros st) <=? 0)%num eqn:Eg;
        [discriminate|].
      cbv zeta in E.
      rewrite (servingsToAdd_positive dailyTargets (currentMacros st) r
                 Ht Hc Eg Hp Hav) in E.
      inversion E as [Hst']. 
      eexists. split; [|apply greedy_loop_keeps; rewrite <- Hst';
                         cbn [selectedRecipes]; apply in_or_app; right; now left].
      reflexivity.
    + left. unfold greedy_body in E.
      destruct (dailyProteinNeeded dailyTargets (currentMacros st) <=? 0)%num eqn:Eg.
      * now apply gap_closed_reached.
      * cbv zeta in E.
        destruct (servingsToAdd dailyTargets (currentMacros st) r >? 0)%num;
          discriminate.
Qed.

(** X9.  For a finite protein target and recipes with finite protein per
    serving, the greedy protein fill ends in one of two ways: the
    accumulated weekly protein divided by 7 has reached the target, or
    every recipe of the pool with positive availability and positive
    protein per serving has been selected. *)
Theorem greedy_fill_reaches_target_or_uses_every_recipe :
  forall (recipes : list RecipeWithMacros) (dailyTargets : MacroProfile),
    is_finite (protein dailyTargets) ->
    Forall (fun r => is_finite (protein (macros r))) recipes ->
    (protein (snd (greedyProteinFill recipes dailyTargets)) / 7
     >=? protein dailyTargets)%num = true
    \/ (forall r,
          In r recipes ->
          (availableServings r >? 0)%num = true ->
          is_pos (protein (macros r)) ->
          exists a,
            In a (fst (greedyProteinFill recipes dailyTargets)) /\ recipe a = r).
Proof.
  intros recipes dailyTargets Ht Hfin.
  unfold greedyProteinFill. cbn [fst snd].
  assert (Hs : Forall (fun r => is_finite (protein (macros r)))
                 (sortByProteinDensity recipes)).
  { unfold sortByProteinDensity. apply js_sort_Forall. now apply Forall_filter. }
  destruct (@greedy_loop_complete dailyTargets (sortByProteinDensity recipes)
              Ht Hs greedy_init I) as [H|H]; [now left|].
  right. intros r Hin Hav Hp.
  assert (Hsorted : In r (sortByProteinDensity recipes)).
  { unfold sortByProteinDensity. apply js_sort_In. apply filter_In. now split. }
  specialize (H r Hsorted Hp Hav). apply in_map_iff in H.
  destruct H as (a & Ha & Hina). now exists a.
Qed.

Lemma greedy_fill_reaches_target_or_uses_every_recipe_witness :
  is_finite (protein ex_targets)
  /\ Forall (fun r => is_finite (protein (macros r))) ex_pool
  /\ ((protein (snd (greedyProteinFill ex_pool ex_targets)) / 7
       >=? protein ex_targets)%num = true
      \/ (forall r,
            In r ex_pool ->
            (availableServings r >? 0)%num = true ->
            is_pos (protein (macros r)) ->
            exists a,
              In a (fst (greedyProteinFill ex_pool ex_targets)) /\ recipe a = r)).
Proof.
  assert (H1 : is_finite (protein ex_targets)) by exact I.
  assert (H2 : Forall (fun r => is_finite (protein (macros r))) ex_pool).
  { repeat constructor. }
  split; [exact H1 | split; [exact H2|]].
  exact (@greedy_fill_reaches_target_or_uses_every_recipe ex_pool ex_targets H1 H2).
Defined.

(* ------------------------------------------------------------------------- *)
(** ** Further properties: plans without assignments *)

Lemma no_gap_for_nonpositive_target dailyTargets :
  (protein dailyTargets <=? 0)%num = true ->
  (dailyProteinNeeded dailyTargets zero_macros <=? 0)%num = true.
Proof.
  unfold dailyProteinNeeded. cbn [zero_macros protein].
  change (JS.of_Z daysInWeek) with (Fin 7). change (0%num) with (Fin 0).
  rewrite div_fin by discriminate.
  destruct (protein dailyTargets) as [t| | |]; try discriminate; [|reflexivity].
  cbn [JS.le JS.sub JS.neg JS.add JS.max]. intro H. apply Qle_bool_iff in H.
  assert (E : 0 / 7 == 0) by reflexivity.
  destruct (Qle_bool (t + - (0 / 7)) 0) eqn:E'; cbn [JS.le].
  - reflexivity.
  - apply Qle_bool_false in E'. lra.
Qed.

Lemma greedy_loop_break dailyTargets rs st :
  (dailyProteinNeeded dailyTargets (currentMacros st) <=? 0)%num = true ->
  greedy_loop dailyTargets rs st = st.
Proof.
  intro H. destruct rs as [|r rs]; [reflexivity|].
  cbn [greedy_loop]. unfold greedy_body. now rewrite H.
Qed.

(** X10.  The greedy protein fill returns no assignment and an accumulator
    of zeros when the protein target is 0 or less, and also when no recipe
    of the pool has positive availability. *)
Theorem greedy_fill_selects_nothing_without_target_or_stock :
  forall (recipes : list RecipeWithMacros) (dailyTargets : MacroProfile),
    ((protein dailyTargets <=? 0)%num = true ->
     greedyProteinFill recipes dailyTargets = ([], zero_macros))
    /\ ((forall r, In r recipes -> (availableServings r >? 0)%num = false) ->
        greedyProteinFill recipes dailyTargets = ([], zero_macros)).
Proof.
  intros recipes dailyTargets. split.
  - intro Ht. unfold greedyProteinFill.
    rewrite greedy_loop_break; [reflexivity|].
    now apply no_gap_for_nonpositive_target.
  - intro Hnone. unfold greedyProteinFill, sortByProteinDensity.
    rewrite (filter_none _ recipes Hnone). reflexivity.
Qed.

Lemma greedy_fill_selects_nothing_without_target_or_stock_witness :
  (protein {| calories := 2000; protein := 0; carbs := 200; fat := 67 |} <=? 0)%num
  = true
  /\ greedyProteinFill ex_pool
       {| calories := 2000; protein := 0; carbs := 200; fat := 67 |}
     = ([], zero_macros).
Proof.
  split; [reflexivity|].
  exact (proj1 (greedy_fill_selects_nothing_without_target_or_stock ex_pool
                  {| calories := 2000; protein := 0; carbs := 200; fat := 67 |})
           eq_refl).
Defined.

Lemma availability_of_empty_pantry recipe :
  calculateAvailableServings recipe [] = 0%num.
Proof.
  unfold calculateAvailableServings.
  assert (H : forall l acc,
             fold_left (availability_step []) l acc
             = match l with [] => acc | _ => 0%num end).
  { induction l as [|ri l IH]; intro acc; [reflexivity|].
    cbn [fold_left]. rewrite IH. destruct l; reflexivity. }
  rewrite H. destruct (Recipe.recipe_ingredients recipe); reflexivity.
Qed.

Lemma finalRecipes_of_nothing rng recipes dailyTargets :
  (forall r, In r recipes -> (availableServings r >? 0)%num = false) ->
  finalRecipes_of rng recipes dailyTargets = []
  /\ greedyProteinFill recipes dailyTargets = ([], zero_macros).
Proof.
  intro Hnone.
  assert (Hg : greedyProteinFill recipes dailyTargets = ([], zero_macros)).
  { unfold greedyProteinFill, sortByProteinDensity.
    rewrite (filter_none _ recipes Hnone). reflexivity. }
  split; [|exact Hg].
  unfold finalRecipes_of. rewrite Hg.
  rewrite fillRemainingMacros_eq.
  assert (Hav : availableRecipes recipes [] = []).
  { unfold availableRecipes. apply filter_none. intros r Hr.
    rewrite (Hnone r Hr). apply andb_false_r. }
  rewrite Hav. reflexivity.
Qed.

Lemma accuracy_of_nothing (k : Q) :
  0 < k -> accuracy (0 / 7)%num (Fin k) = 0%num.
Proof.
  intro Hk. change ((0 / 7)%num) with (Fin (0 / 7)).
  rewrite accuracy_finite by assumption.
  change (0%num) with (JS.of_Z 0). f_equal. apply Qfloor_eq_iff.
  assert (E : 0 / 7 == 0) by reflexivity.
  assert (E1 : Qabs (0 / 7 - k) == k).
  { rewrite E. assert (E2 : 0 - k == - k) by ring. rewrite E2.
    rewrite Qabs_opp. apply Qabs_pos. lra. }
  rewrite E1.
  assert (E3 : k / k == 1) by (field; lra).
  rewrite E3. split; [discriminate | reflexivity].
Qed.

(** X11.  With an empty pantry every recipe has zero available servings, so
    a plan generatePlan returns has no meal and no missing ingredient, its
    stored totals are 0, and against a positive energy target its calorie
    accuracy is 0. *)
Theorem empty_pantry_gives_an_empty_plan :
  forall (db : Db) (rng : Rng) (userId : string) (weekStart : Date.t)
         (userProfile : User.t) (pantryItems : option (list PantryItem.t))
         (r : OptimizationResult),
    users_single db = Some userProfile ->
    pantry_items_select db = Data pantryItems ->
    pantry_or_empty pantryItems = [] ->
    generatePlan db rng userId weekStart = inr r ->
    (forall recipe,
        calculateAvailableServings recipe (pantry_or_empty pantryItems) = 0%num)
    /\ meals r = []
    /\ missingIngredients r = []
    /\ MealPlan.total_kcal (mealPlan r) = 0%num
    /\ MealPlan.total_protein (mealPlan r) = 0%num
    /\ MealPlan.total_carbs (mealPlan r) = 0%num
    /\ MealPlan.total_fat (mealPlan r) = 0%num
    /\ (forall k,
          User.kcal_target userProfile = Fin k -> 0 < k ->
          acc_calories (macroAccuracy r) = 0%num).
Proof.
  intros db rng userId weekStart userProfile pantryItems r Hu Hp Hempty Hgen.
  apply generatePlan_inr in Hgen.
  destruct Hgen as (u' & p' & rows & planId & Hu' & Hp' & Hr & _ & Hres).
  rewrite Hu in Hu'. rewrite Hp in Hp'. inversion Hu'; inversion Hp'; subst u' p'.
  cbv zeta in Hres. rewrite Hempty in Hres.
  destruct Hres as (Hmeals & Hmiss & Hacc & Hk & Hpr & Hc & Hf).
  assert (Hnone : forall x,
             In x (recipesWithMacros_of rows []) ->
             (availableServings x >? 0)%num = false).
  { intros x Hx. rewrite (pool_availability rows [] x Hx).
    now rewrite availability_of_empty_pantry. }
  destruct (finalRecipes_of_nothing rng (recipesWithMacros_of rows [])
              (dailyTargets_of userProfile) Hnone) as (Hfinal & Hgreedy).
  rewrite Hfinal in Hmeals, Hmiss, Hacc. rewrite Hgreedy in Hk, Hpr, Hc, Hf.
  split; [intro recipe; rewrite Hempty; apply availability_of_empty_pantry|].
  repeat (split; [assumption|]).
  intros k Hkcal Hpos. rewrite Hacc.
  unfold macroAccuracy_of. cbn [acc_calories finalMacros calories reduce_macro
                                 fold_left dailyTargets_of].
  rewrite Hkcal. now apply accuracy_of_nothing.
Qed.

Lemma empty_pantry_gives_an_empty_plan_witness :
  users_single ex_db_empty_pantry = Some ex_user
  /\ pantry_items_select ex_db_empty_pantry = Data None
  /\ pantry_or_empty None = []
  /\ exists r,
       generatePlan ex_db_empty_pantry ex_rng "u1" ex_week = inr r
       /\ meals r = []
       /\ missingIngredients r = [].
Proof.
  repeat (split; [reflexivity|]).
  destruct (generatePlan ex_db_empty_pantry ex_rng "u1" ex_week)
    as [e|r] eqn:E; [vm_compute in E; discriminate|].
  exists r. split; [reflexivity|].
  destruct (@empty_pantry_gives_an_empty_plan ex_db_empty_pantry ex_rng "u1"
              ex_week ex_user None r eq_refl eq_refl eq_refl E)
    as (_ & Hmeals & Hmiss & _).
  split; [exact Hmeals | exact Hmiss].
Defined.

(* ------------------------------------------------------------------------- *)
(** ** Further properties: the Fine-Tuner on whole servings *)

Lemma max_of_Z (a b : Z) : JS.max (JS.of_Z a) (JS.of_Z b) = JS.of_Z (Z.max a b).
Proof.
  unfold JS.max. unfold JS.of_Z at 1 2. cbv beta iota.
  change (Fin (inject_Z a)) with (JS.of_Z a).
  change (Fin (inject_Z b)) with (JS.of_Z b).
  rewrite le_of_Z.
  destruct (Z.leb_spec b a); [rewrite Z.max_l | rewrite Z.max_r]; auto; lia.
Qed.

Lemma scaled_servings_bounds (k : Z) (f : Q) :
  (1 <= k)%Z -> 0 <= f -> f <= 1 ->
  exists k' : Z,
    JS.max 1 (JS.round (JS.of_Z k * Fin f)%num) = JS.of_Z k'
    /\ (1 <= k' <= k)%Z.
Proof.
  intros Hk Hf0 Hf1. unfold JS.of_Z at 1. cbn [JS.mul JS.round].
  change (1%num) with (JS.of_Z 1). rewrite max_of_Z.
  eexists. split; [reflexivity|].
  assert (Hq : 1 <= inject_Z k).
  { change 1 with (inject_Z 1). now rewrite <- Zle_Qle. }
  assert (H : (Qfloor (inject_Z k * f + (1 # 2)) < k + 1)%Z).
  { rewrite Zlt_Qlt.
    apply Qle_lt_trans with (inject_Z k * f + (1 # 2)); [apply Qfloor_le|].
    rewrite inject_Z_plus. change (inject_Z 1) with 1.
    assert (inject_Z k * f <= inject_Z k * 1)
      by (apply Qmult_le_l; lra).
    lra. }
  lia.
Qed.

Lemma fineTuneMacros_pointwise selected dailyTargets :
  Forall2 tuned_down selected (fineTuneMacros selected dailyTargets).
Proof.
  unfold fineTuneMacros. cbv zeta.
  set (dev := (JS.abs (calories (dailyMacros selected) - calories dailyTargets)
               / calories dailyTargets)%num).
  generalize dev. clear dev. intro dev.
  induction selected as [|a l IH]; cbn [map]; constructor; [|exact IH].
  destruct (dev >? Fin (15 # 100))%num.
  - unfold tuned_down. cbn [recipe day slot servings].
    repeat (split; [reflexivity|]).
    intros k -> Hk.
    destruct (dev >? Fin (5 # 10))%num;
      apply scaled_servings_bounds; auto; discriminate.
  - unfold tuned_down. repeat (split; [reflexivity|]).
    intros k Hs Hk. exists k. split; [exact Hs | lia].
Qed.

(** X12.  The Fine-Tuner returns as many assignments as it was given, in
    the same order, each with the recipe, day and slot it had; and an
    assignment with a whole number of servings, at least 1, comes back with
    a whole number of servings between 1 and that number: servings are
    never raised. *)
Theorem fine_tuner_only_scales_down :
  forall (selected : list Selection) (dailyTargets : MacroProfile),
    Forall2 tuned_down selected (fineTuneMacros selected dailyTargets)
    /\ List.length (fineTuneMacros selected dailyTargets) = List.length selected
    /\ map recipe (fineTuneMacros selected dailyTargets) = map recipe selected
    /\ map day (fineTuneMacros selected dailyTargets) = map day selected
    /\ map slot (fineTuneMacros selected dailyTargets) = map slot selected.
Proof.
  intros selected dailyTargets.
  split; [apply fineTuneMacros_pointwise|].
  split; [unfold fineTuneMacros; apply length_map|].
  split; [apply fineTuneMacros_recipes|].
  split; unfold fineTuneMacros; rewrite map_map; apply map_ext; intro s;
    cbv zeta; destruct (_ >? Fin (15 # 100))%num; reflexivity.
Qed.

Lemma three_to_two_scaled (a : Selection) (scaled : num -> num) :
  whole_between 1 3 (servings a) ->
  scaled 1%num = 1%num -> scaled 2%num = 2%num -> scaled 3%num = 2%num ->
  {| recipe := recipe a; servings := scaled (servings a);
     day := day a; slot := slot a |} = three_to_two a.
Proof.
  intros (k & Hs & Hk) H1 H2 H3. unfold three_to_two.
  destruct a as [r s d sl]. cbn [recipe servings day slot] in *. subst s.
  assert (Hcases : k = 1%Z \/ k = 2%Z \/ k = 3%Z) by lia.
  destruct Hcases as [-> | [-> | ->]].
  - change (JS.of_Z 1) with (1%num). now rewrite H1.
  - change (JS.of_Z 2) with (2%num). now rewrite H2.
  - change (JS.of_Z 3) with (3%num). now rewrite H3.
Qed.

Lemma unchanged_scaled (a : Selection) (scaled : num -> num) :
  whole_between 1 3 (servings a) ->
  scaled 1%num = 1%num -> scaled 2%num = 2%num -> scaled 3%num = 3%num ->
  {| recipe := recipe a; servings := scaled (servings a);
     day := day a; slot := slot a |} = a.
Proof.
  intros (k & Hs & Hk) H1 H2 H3.
  destruct a as [r s d sl]. cbn [recipe servings day slot] in *. subst s.
  assert (Hcases : k = 1%Z \/ k = 2%Z \/ k = 3%Z) by lia.
  destruct Hcases as [-> | [-> | ->]].
  - change (JS.of_Z 1) with (1%num). now rewrite H1.
  - change (JS.of_Z 2) with (2%num). now rewrite H2.
  - change (JS.of_Z 3) with (3%num). now rewrite H3.
Qed.

(** X13.  On assignments of 1, 2 or 3 servings, which is all the earlier
    stages produce, the Fine-Tuner changes nothing unless the relative
    deviation of the daily-average calories from the target exceeds 50%:
    the multiplier 0.9 rounds back to the same servings.  When the
    deviation exceeds 50%, assignments of 3 servings come back with 2 and
    the others unchanged. *)
Theorem fine_tuner_only_turns_three_servings_into_two :
  forall (selected : list Selection) (dailyTargets : MacroProfile),
    Forall (fun a => whole_between 1 3 (servings a)) selected ->
    ((relative_deviation selected dailyTargets >? Fin (5 # 10))%num = false ->
     fineTuneMacros selected dailyTargets = selected)
    /\ ((relative_deviation selected dailyTargets >? Fin (5 # 10))%num = true ->
        fineTuneMacros selected dailyTargets = map three_to_two selected).
Proof.
  intros selected dailyTargets Hall.
  unfold fineTuneMacros. cbv zeta.
  fold (relative_deviation selected dailyTargets).
  generalize (relative_deviation selected dailyTargets). intro dev.
  split; intro Hdev; rewrite Hdev.
  - rewrite <- (map_id selected) at 2. apply map_ext_in. intros a Ha.
    rewrite Forall_forall in Hall.
    destruct (dev >? Fin (15 # 100))%num; [|reflexivity].
    apply (unchanged_scaled a
             (fun s => JS.max 1 (JS.round (s * Fin (9 # 10))%num)));
      [now apply Hall | reflexivity ..].
  - apply map_ext_in. intros a Ha. rewrite Forall_forall in Hall.
    assert (H15 : (dev >? Fin (15 # 100))%num = true).
    { destruct dev as [q| | |]; try discriminate; [|reflexivity].
      unfold JS.gt in *. cbn [JS.lt] in *. q_prop. lra. }
    rewrite H15.
    apply (three_to_two_scaled a
             (fun s => JS.max 1 (JS.round (s * Fin (8 # 10))%num)));
      [now apply Hall | reflexivity ..].
Qed.

Lemma fine_tuner_only_turns_three_servings_into_two_witness :
  Forall (fun a => whole_between 1 3 (servings a)) [ex_three_chicken_rice]
  /\ (relative_deviation [ex_three_chicken_rice] ex_targets >? Fin (5 # 10))%num = true
  /\ fineTuneMacros [ex_three_chicken_rice] ex_targets
     = map three_to_two [ex_three_chicken_rice].
Proof.
  assert (H : Forall (fun a => whole_between 1 3 (servings a)) [ex_three_chicken_rice]).
  { repeat constructor. exists 3%Z. split; [reflexivity | lia]. }
  assert (Hd : (relative_deviation [ex_three_chicken_rice] ex_targets
                >? Fin (5 # 10))%num = true) by reflexivity.
  split; [exact H | split; [exact Hd|]].
  exact (proj2 (@fine_tuner_only_turns_three_servings_into_two
                  [ex_three_chicken_rice] ex_targets H) Hd).
Defined.

(* ------------------------------------------------------------------------- *)
(** ** Further properties: the rows of the [meals] table *)

Lemma ceil_range x : whole_or_not_finite (JS.ceil x).
Proof.
  destruct x; cbn [JS.ceil]; unfold whole_or_not_finite; auto.
  left. eexists. reflexivity.
Qed.

Lemma min_range x y :
  whole_or_not_finite x -> whole_or_not_finite y ->
  whole_or_not_finite (JS.min x y).
Proof.
  intros Hx Hy.
  destruct (min_cases x y) as [-> | [-> | ->]]; auto.
  right. right. now right.
Qed.

Lemma capped_servings_whole (needed available : num) (cap : Z) :
  whole_or_not_finite available ->
  (JS.min3 (JS.ceil needed) available (JS.of_Z cap) >? 0)%num = true ->
  whole_between 1 cap (JS.min3 (JS.ceil needed) available (JS.of_Z cap)).
Proof.
  intros Hav Hpos.
  assert (Hr : whole_or_not_finite (JS.min3 (JS.ceil needed) available (JS.of_Z cap))).
  { unfold JS.min3. apply min_range; [apply min_range; auto using ceil_range|].
    left. now exists cap. }
  pose proof Hpos as Hle. unfold JS.min3 in Hle. apply min_le_r in Hle.
  fold (JS.min3 (JS.ceil needed) available (JS.of_Z cap)) in Hle.
  destruct Hr as [(z & Hz) | [Hz | [Hz | Hz]]]; rewrite Hz in *;
    try discriminate.
  exists z. split; [reflexivity|].
  rewrite le_of_Z in Hle. unfold JS.gt in Hpos.
  change (0%num) with (JS.of_Z 0) in Hpos. rewrite lt_of_Z in Hpos.
  lia.
Qed.

Lemma greedy_valid recipes dailyTargets :
  Forall (fun r => whole_or_not_finite (availableServings r)) recipes ->
  Forall valid_assignment (fst (greedyProteinFill recipes dailyTargets)).
Proof.
  intro Hpool. apply Forall_forall. intros a Ha.
  assert (Hin : In (recipe a) recipes).
  { unfold greedyProteinFill in Ha. cbn [fst] in Ha.
    apply greedy_loop_selected in Ha. destruct Ha as [[]|Ha].
    unfold sortByProteinDensity in Ha. apply js_sort_In in Ha.
    apply filter_In in Ha. tauto. }
  destruct (in_split _ _ Ha) as (pre & post & Hsplit).
  pose proof (@greedy_placed recipes dailyTargets pre a post Hsplit)
    as (Hday & Hslot).
  assert (Hpushed : pushed_after dailyTargets pre a).
  { unfold greedyProteinFill in Hsplit. cbn [fst] in Hsplit.
    destruct (@greedy_loop_spec dailyTargets (sortByProteinDensity recipes)
                greedy_init eq_refl (all_splits_nil _)) as (_ & Hall).
    exact (Hall pre a post Hsplit). }
  destruct Hpushed as (Hs & Hpos).
  rewrite Forall_forall in Hpool.
  split; [|split].
  - rewrite Hs in Hpos |- *. unfold servingsToAdd in *.
    change (3%num) with (JS.of_Z 3) in *.
    apply capped_servings_whole; auto.
  - rewrite Hday. eexists. split; [reflexivity|].
    pose proof (Z.mod_pos_bound (Z.of_nat (List.length pre) / 3) 7). lia.
  - rewrite Hslot.
    assert (Hlt : (List.length pre mod 3 < 3)%nat)
      by (apply Nat.mod_upper_bound; discriminate).
    destruct (List.length pre mod 3)%nat as [|[|[|n]]]; cbn; auto; lia.
Qed.

Lemma gap_filler_valid rng recipes selected cur dailyTargets :
  unit_interval_rng rng ->
  Forall (fun r => whole_or_not_finite (availableServings r)) recipes ->
  Forall valid_assignment selected ->
  Forall valid_assignment
    (fillRemainingMacros rng recipes selected cur dailyTargets).
Proof.
  intros Hrng Hpool Hsel. rewrite fillRemainingMacros_eq.
  rewrite Forall_forall in Hpool.
  apply Forall_app. split; [exact Hsel|]. apply Forall_app. split.
  - apply Forall_forall. intros a Ha.
    destruct (@carb_step_spec rng recipes selected cur dailyTargets 0 Hrng)
      as (_ & Hc).
    destruct (Hc a Ha) as ((Hslot & Hday) & Hs & Hpos & (Hin & _) & _).
    split; [|split].
    + rewrite Hs in Hpos |- *. change (2%num) with (JS.of_Z 2) in *.
      destruct (@capped_servings_whole _ _ 2 (Hpool _ Hin) Hpos) as (z & Hz & Hb).
      exists z. split; [exact Hz | lia].
    + exact Hday.
    + rewrite Hslot. cbn. auto.
  - apply Forall_forall. intros a Ha.
    destruct (@fat_step_spec rng recipes selected cur dailyTargets
                (snd (carb_step dailyTargets cur
                        (carbRichRecipes (availableRecipes recipes selected)) rng 0))
                Hrng) as (_ & Hf).
    destruct (Hf a Ha) as ((Hslot & Hday) & Hs & Hpos & (Hin & _) & _).
    split; [|split].
    + rewrite Hs in Hpos |- *. change (2%num) with (JS.of_Z 2) in *.
      destruct (@capped_servings_whole _ _ 2 (Hpool _ Hin) Hpos) as (z & Hz & Hb).
      exists z. split; [exact Hz | lia].
    + exact Hday.
    + rewrite Hslot. cbn. auto.
Qed.

Lemma Forall2_Forall {A : Type} (R : A -> A -> Prop) (P : A -> Prop) l l' :
  (forall a b, R a b -> P a -> P b) ->
  Forall2 R l l' -> Forall P l -> Forall P l'.
Proof.
  intros HR H2. induction H2 as [|a b l l' Hab _ IH]; intro Hl; [constructor|].
  inversion Hl; subst. constructor; eauto.
Qed.

Lemma fine_tuner_valid selected dailyTargets :
  Forall valid_assignment selected ->
  Forall valid_assignment (fineTuneMacros selected dailyTargets).
Proof.
  apply Forall2_Forall with (R := tuned_down);
    [|apply fineTuneMacros_pointwise].
  intros a b (Hr & Hd & Hsl & Hs) ((k & Hk & Hb) & Hday & Hslot).
  split; [|split].
  - destruct (Hs k Hk ltac:(lia)) as (k' & Hk' & Hb').
    exists k'. split; [exact Hk' | lia].
  - now rewrite Hd.
  - now rewrite Hsl.
Qed.

Lemma pool_availability_range rows pantryItems :
  Forall (fun r => whole_or_not_finite (availableServings r))
    (recipesWithMacros_of rows pantryItems).
Proof.
  apply Forall_forall. intros r Hr.
  rewrite (pool_availability rows pantryItems r Hr).
  unfold whole_or_not_finite.
  destruct (calculateAvailableServings_range (base r) pantryItems)
    as [H | [H | H]]; auto.
Qed.

Lemma finalRecipes_valid rng rows pantryItems dailyTargets :
  unit_interval_rng rng ->
  Forall valid_assignment
    (finalRecipes_of rng (recipesWithMacros_of rows pantryItems) dailyTargets).
Proof.
  intro Hrng. unfold finalRecipes_of.
  pose proof (@greedy_valid (recipesWithMacros_of rows pantryItems) dailyTargets
                (pool_availability_range rows pantryItems)) as Hg.
  destruct (greedyProteinFill _ _) as [sel cur]. cbn [fst] in Hg.
  apply fine_tuner_valid. apply gap_filler_valid; auto.
  apply pool_availability_range.
Qed.

Lemma insert_meals_valid ok planId l :
  Forall valid_assignment l ->
  forall i, Forall valid_meal (insert_meals ok planId i l).
Proof.
  induction 1 as [|a l Ha _ IH]; intro i; cbn [insert_meals]; [constructor|].
  destruct (ok i); [constructor|]; auto.
Qed.

(** X14.  With random draws in [0, 1), every meal row of a plan that
    [generatePlan] returns satisfies the constraints of the [meals] table,
    whatever the user, pantry and recipes are: its servings are an integer
    (from 1 to 3), its day of the week is an integer from 0 to 6, and its
    slot is one of breakfast, lunch, dinner and snack. *)
Theorem meal_rows_satisfy_table_constraints :
  forall (db : Db) (rng : Rng) (userId : string) (weekStart : Date.t)
         (r : OptimizationResult),
    unit_interval_rng rng ->
    generatePlan db rng userId weekStart = inr r ->
    Forall valid_meal (meals r).
Proof.
  intros db rng userId weekStart r Hrng Hgen.
  apply generatePlan_inr in Hgen.
  destruct Hgen as (u & p & rows & planId & _ & _ & _ & _ & Hres).
  cbv zeta in Hres. destruct Hres as (Hmeals & _).
  rewrite Hmeals. apply insert_meals_valid. now apply finalRecipes_valid.
Qed.

Lemma meal_rows_satisfy_table_constraints_witness :
  unit_interval_rng ex_rng
  /\ exists r,
       generatePlan ex_db_low_protein ex_rng "u1" ex_week = inr r
       /\ meals r <> []
       /\ Forall valid_meal (meals r).
Proof.
  split; [exact ex_rng_unit_interval|].
  destruct (generatePlan ex_db_low_protein ex_rng "u1" ex_week)
    as [e|r] eqn:E; [vm_compute in E; discriminate|].
  exists r. split; [reflexivity|]. split.
  - vm_compute in E. inversion E. discriminate.
  - exact (@meal_rows_satisfy_table_constraints ex_db_low_protein ex_rng "u1"
             ex_week r ex_rng_unit_interval E).
Defined.

(* ------------------------------------------------------------------------- *)
(** ** Further properties: availability against the shortfall report *)

Lemma NoDup_app_disjoint {A : Type} (l1 l2 : list A) x :
  NoDup (l1 ++ l2) -> In x l1 -> In x l2 -> False.
Proof.
  induction l1 as [|a l1 IH]; intros Hnd H1 H2; [destruct H1|].
  cbn [app] in Hnd. inversion Hnd as [|? ? Hnotin Hnd']; subst.
  destruct H1 as [->|H1]; [|now apply IH].
  apply Hnotin. apply in_or_app. now right.
Qed.

Lemma filter_key_unique (ris : list RecipeIngredient.t) key :
  NoDup (map RecipeIngredient.ingredient_id ris) ->
  filter (fun ri => String.eqb (RecipeIngredient.ingredient_id ri) key) ris = []
  \/ exists ri,
       In ri ris /\ RecipeIngredient.ingredient_id ri = key
       /\ filter (fun ri => String.eqb (RecipeIngredient.ingredient_id ri) key) ris
          = [ri].
Proof.
  induction ris as [|r ris IH]; intro Hnd; [now left|].
  cbn [map] in Hnd. inversion Hnd as [|? ? Hnotin Hnd']; subst.
  cbn [filter].
  destruct (String.eqb (RecipeIngredient.ingredient_id r) key) eqn:E.
  - apply String.eqb_eq in E. right. exists r.
    split; [now left | split; [exact E|]].
    destruct (IH Hnd') as [-> | (ri & Hin & Hid & _)]; [reflexivity|].
    exfalso. apply Hnotin. rewrite E, <- Hid. now apply in_map.
  - destruct (IH Hnd') as [H | (ri & Hin & Hid & H)]; [now left|].
    right. exists ri. split; [now right | split; assumption].
Qed.

Lemma requirement_amounts_unique assignments key :
  NoDup (plan_ingredient_ids assignments) ->
  requirement_amounts assignments key = []
  \/ exists a ri,
       In a assignments
       /\ In ri (Recipe.recipe_ingredients (base (recipe a)))
       /\ RecipeIngredient.ingredient_id ri = key
       /\ requirement_amounts assignments key
          = [(RecipeIngredient.quantity ri * servings a)%num].
Proof.
  induction assignments as [|a l IH]; intro Hnd; [now left|].
  unfold plan_ingredient_ids in Hnd. cbn [flat_map] in Hnd.
  fold (plan_ingredient_ids l) in Hnd.
  assert (Heq : requirement_amounts (a :: l) key
                = map (fun ri => (RecipeIngredient.quantity ri * servings a)%num)
                    (filter
                       (fun ri => String.eqb (RecipeIngredient.ingredient_id ri) key)
                       (Recipe.recipe_ingredients (base (recipe a))))
                  ++ requirement_amounts l key) by reflexivity.
  rewrite Heq. clear Heq.
  destruct (filter_key_unique (Recipe.recipe_ingredients (base (recipe a))) key
              (NoDup_app_remove_r _ _ Hnd)) as [-> | (ri & Hin & Hid & ->)];
    destruct (IH (NoDup_app_remove_l _ _ Hnd))
      as [-> | (a' & ri' & Ha' & Hin' & Hid' & ->)]; cbn [map app].
  - now left.
  - right. exists a', ri'.
    split; [now right | split; [exact Hin' | split; [exact Hid' | reflexivity]]].
  - right. exists a, ri.
    split; [now left | split; [exact Hin | split; [exact Hid | reflexivity]]].
  - exfalso. apply (NoDup_app_disjoint _ _ key Hnd).
    + rewrite <- Hid. now apply in_map.
    + unfold plan_ingredient_ids. apply in_flat_map. exists a'.
      split; [exact Ha'|]. rewrite <- Hid'. now apply in_map.
Qed.

Lemma whole_pos_is_pos x : whole_pos x -> is_pos x.
Proof.
  intros (z & -> & Hz). unfold JS.of_Z, is_pos.
  change 0 with (inject_Z 0). now rewrite <- Zlt_Qlt.
Qed.

Lemma whole_nonneg_is_nonneg x : whole_nonneg x -> is_nonneg x.
Proof.
  intros (z & -> & Hz). unfold JS.of_Z, is_nonneg.
  change 0 with (inject_Z 0). now rewrite <- Zle_Qle.
Qed.

Lemma whole_requirements_positive l :
  whole_requirements l -> positive_requirements l.
Proof. apply Forall_impl. intro ri. apply whole_pos_is_pos. Qed.

Lemma whole_pantry_nonneg pantryItems :
  whole_pantry pantryItems -> nonneg_pantry pantryItems.
Proof. apply Forall_impl. intro p. apply whole_nonneg_is_nonneg. Qed.

Lemma requirement_within_stock pantryItems a ri :
  whole_pantry pantryItems ->
  within_stock pantryItems a ->
  In ri (Recipe.recipe_ingredients (base (recipe a))) ->
  (RecipeIngredient.quantity ri * servings a
   >? pantry_quantity pantryItems (RecipeIngredient.ingredient_id ri))%num = false.
Proof.
  intros Hwp (Hwr & Hws & Hle) Hin.
  pose proof (whole_pantry_nonneg Hwp) as Hp.
  pose proof (whole_requirements_positive Hwr) as Hpos.
  pose proof (whole_nonneg_is_nonneg Hws) as Hnn.
  rewrite calculateAvailableServings_ext in Hle by assumption.
  assert (Hri : is_pos (RecipeIngredient.quantity ri)).
  { unfold positive_requirements in Hpos. rewrite Forall_forall in Hpos. auto. }
  destruct (fold_left (step_ext pantryItems)
              (Recipe.recipe_ingredients (base (recipe a))) None) as [n|] eqn:EF.
  - unfold pantry_quantity.
    destruct (find_pantry pantryItems (RecipeIngredient.ingredient_id ri))
      as [p|] eqn:Efind.
    + pose proof (@fold_ext_le_each pantryItems Hp _ Hpos None n ri p I EF Hin Efind)
        as Hn.
      pose proof (nonneg_pantry_find _ Hp Efind) as Hq.
      unfold possibleZ in Hn.
      destruct (PantryItem.quantity p) as [pq| | |]; cbn [is_nonneg] in Hq;
        try contradiction.
      destruct (RecipeIngredient.quantity ri) as [b| | |]; cbn [is_pos] in Hri;
        try contradiction.
      destruct (servings a) as [s| | |]; cbn [is_nonneg] in Hnn;
        try contradiction.
      cbn [num_q] in Hn. unfold JS.of_Z in Hle. cbn [JS.le] in Hle.
      apply Qle_bool_iff in Hle.
      assert (Hs : s * b <= pq).
      { apply Qdiv_ge_iff; [exact Hri|].
        apply Qle_trans with (inject_Z n); [exact Hle|].
        apply Qle_trans with (inject_Z (Qfloor (pq / b)));
          [now rewrite <- Zle_Qle | apply Qfloor_le]. }
      assert (Hbs : b * s <= pq) by (rewrite Qmult_comm; exact Hs).
      unfold JS.or_else, JS.gt. cbn [JS.truthy JS.mul].
      destruct (Qeq_bool pq 0) eqn:E0; cbn [negb JS.lt JS.of_Z].
      * apply Qeq_bool_iff in E0. apply Qltb_false.
        change (inject_Z 0) with 0. lra.
      * apply Qltb_false. exact Hbs.
    + assert (H0 : fold_left (step_ext pantryItems)
                     (Recipe.recipe_ingredients (base (recipe a))) None
                   = Some 0%Z).
      { apply fold_ext_absent; [assumption | assumption | exact I|].
        exists ri. split; [exact Hin | exact Efind]. }
      rewrite H0 in EF. inversion EF; subst n.
      destruct (RecipeIngredient.quantity ri) as [b| | |]; cbn [is_pos] in Hri;
        try contradiction.
      destruct (servings a) as [s| | |]; cbn [is_nonneg] in Hnn;
        try contradiction.
      unfold JS.of_Z in Hle. cbn [JS.le] in Hle. apply Qle_bool_iff in Hle.
      change (inject_Z 0) with 0 in Hle.
      assert (Hs : s == 0) by lra.
      unfold JS.gt. cbn [JS.mul JS.lt JS.of_Z]. apply Qltb_false.
      change (inject_Z 0) with 0. rewrite Hs. lra.
  - destruct (Recipe.recipe_ingredients (base (recipe a))) as [|r l];
      [destruct Hin|].
    destruct (@fold_ext_cons_some pantryItems r l None) as (n & Hn).
    unfold ext in *. congruence.
Qed.

Lemma within_stock_no_shortfall assignments pantryItems :
  whole_pantry pantryItems ->
  Forall (within_stock pantryItems) assignments ->
  NoDup (plan_ingredient_ids assignments) ->
  calculateMissingIngredients assignments pantryItems = [].
Proof.
  intros Hp Hall Hnd.
  destruct (calculateMissingIngredients assignments pantryItems) as [|e l] eqn:E;
    [reflexivity|]. exfalso.
  assert (He : In e (calculateMissingIngredients assignments pantryItems))
    by (rewrite E; now left).
  apply missing_entry in He. destruct He as (need & Hget & Hshort & _).
  pose proof (ingredientNeeds_matches pantryItems assignments
                (Shortfall.ingredientId e)) as Hm.
  destruct (requirement_amounts_unique assignments (Shortfall.ingredientId e) Hnd)
    as [Hnone | (a & ri & Ha & Hri & Hid & Hone)].
  - rewrite Hnone in Hm. cbn [need_matches] in Hm. congruence.
  - rewrite Hone in Hm. cbn [need_matches] in Hm.
    destruct Hm as (need' & Hget' & Hneeded & Havail).
    rewrite Hget in Hget'. inversion Hget'; subst need'.
    rewrite Hneeded, Havail in Hshort. cbn [sum_nums fold_left] in Hshort.
    rewrite Forall_forall in Hall.
    pose proof (@requirement_within_stock pantryItems a ri Hp (Hall a Ha) Hri)
      as Hok.
    rewrite Hid in Hok. congruence.
Qed.

(** X15.  With whole numbers for the requirement quantities (positive), the
    pantry quantities (not negative) and the servings, a plan in which every
    assignment has no more servings than the Availability Calculator reports
    for its recipe, and in which no ingredient is required twice, has no
    missing ingredient.  Neither condition can be dropped.  Availability is
    computed for each recipe against the whole pantry, so the plan computed
    for the sample user from 300 g of rice keeps every assignment within the
    availability of its recipe and is still short of rice.  And on decimal
    quantities the quotient is rounded: from 7.8 g of rice the program finds
    3 servings of a recipe that takes 2.6 g, and reports 3 servings of it as
    short of rice. *)
Theorem plan_within_stock_is_short_only_of_shared_ingredients :
  (forall (assignments : list Selection) (pantryItems : list PantryItem.t),
      whole_pantry pantryItems ->
      Forall (within_stock pantryItems) assignments ->
      NoDup (plan_ingredient_ids assignments) ->
      calculateMissingIngredients assignments pantryItems = [])
  /\ (whole_pantry ex_shared_rice_pantry
      /\ Forall (within_stock ex_shared_rice_pantry) ex_shared_rice_plan
      /\ map Shortfall.ingredientId
           (calculateMissingIngredients ex_shared_rice_plan ex_shared_rice_pantry)
         = ["rice"])
  /\ (F64.calculateAvailableServings ex_rice_spoon (ex_rice_only (78 # 10))
      = F64.of_Z 3
      /\ map F64.Shortfall.ingredientId
           (F64.calculateMissingIngredients [ex_servings_of ex_rice_spoon 3]
              (ex_rice_only (78 # 10)))
         = ["rice"]).
Proof.
  split; [|split].
  - intros assignments pantryItems. apply within_stock_no_shortfall.
  - split; [|split].
    + repeat (apply Forall_cons || apply Forall_nil);
        (eexists; split; [reflexivity | lia]).
    + unfold ex_shared_rice_plan.
      set (plan := finalRecipes_of _ _ _). vm_compute in plan. subst plan.
      repeat (apply Forall_cons || apply Forall_nil);
        (split; [|split];
         [ repeat (apply Forall_cons || apply Forall_nil);
           (eexists; split; [reflexivity | lia])
         | eexists; split; [reflexivity | lia]
         | vm_compute; reflexivity ]).
    + vm_compute. reflexivity.
  - split; reflexivity.
Qed.

Lemma plan_within_stock_is_short_only_of_shared_ingredients_witness :
  whole_pantry ex_pantry
  /\ Forall (within_stock ex_pantry) [ex_chicken_rice_selection]
  /\ NoDup (plan_ingredient_ids [ex_chicken_rice_selection])
  /\ calculateMissingIngredients [ex_chicken_rice_selection] ex_pantry = [].
Proof.
  assert (Hp : whole_pantry ex_pantry).
  { repeat (apply Forall_cons || apply Forall_nil);
      (eexists; split; [reflexivity | lia]). }
  assert (Hw : Forall (within_stock ex_pantry) [ex_chicken_rice_selection]).
  { repeat (apply Forall_cons || apply Forall_nil).
    split; [|split].
    - repeat (apply Forall_cons || apply Forall_nil);
        (eexists; split; [reflexivity | lia]).
    - eexists; split; [reflexivity | lia].
    - vm_compute. reflexivity. }
  assert (Hnd : NoDup (plan_ingredient_ids [ex_chicken_rice_selection])).
  { cbn. repeat constructor; cbn; intuition discriminate. }
  split; [exact Hp | split; [exact Hw | split; [exact Hnd|]]].
  exact (proj1 plan_within_stock_is_short_only_of_shared_ingredients
           [ex_chicken_rice_selection] ex_pantry Hp Hw Hnd).
Defined.

(* ------------------------------------------------------------------------- *)
(** ** Further properties: the protein density of the pool *)

Lemma pool_density_finite rows pantryItems :
  Forall (fun row => Forall finite_requirement (Recipe.recipe_ingredients row)) rows ->
  Forall (fun r => is_finite (proteinDensity r)
                   /\ ((calories (macros r) >? 0)%num = false ->
                       proteinDensity r = 0%num))
    (recipesWithMacros_of rows pantryItems).
Proof.
  intro Hrows. unfold recipesWithMacros_of. apply Forall_map.
  apply Forall_impl with (2 := Hrows). intros row Hrow. cbv zeta.
  cbn [proteinDensity macros].
  destruct (@calculateRecipeMacros_whole row Hrow)
    as ((c & Hc) & (p & Hp) & _).
  rewrite Hc, Hp.
  destruct (JS.of_Z c >? 0)%num eqn:E.
  - split; [|discriminate].
    unfold JS.gt in E. change (0%num) with (JS.of_Z 0) in E.
    rewrite lt_of_Z in E. apply Z.ltb_lt in E.
    unfold JS.of_Z. rewrite div_fin.
    + exact I.
    + intro H0. unfold Qeq, inject_Z in H0. cbn [Qnum Qden] in H0. lia.
  - split; [exact I | reflexivity].
Qed.

(** X16.  For recipes whose requirements have finite quantities and finite
    nutrition facts, the protein density generatePlan attaches to every
    recipe is a finite number, and it is 0 for a recipe without calories
    (the division is guarded).  So the greedy protein fill walks the
    recipes of positive availability in descending order of protein
    density. *)
Theorem pool_is_ranked_by_a_finite_protein_density :
  forall (rows : list Recipe.t) (pantryItems : list PantryItem.t),
    Forall (fun row => Forall finite_requirement (Recipe.recipe_ingredients row))
      rows ->
    Forall (fun r => is_finite (proteinDensity r)
                     /\ ((calories (macros r) >? 0)%num = false ->
                         proteinDensity r = 0%num))
      (recipesWithMacros_of rows pantryItems)
    /\ descending proteinDensity
         (sortByProteinDensity (recipesWithMacros_of rows pantryItems)).
Proof.
  intros rows pantryItems Hrows.
  pose proof (@pool_density_finite rows pantryItems Hrows) as Hfin.
  split; [exact Hfin|].
  unfold sortByProteinDensity. apply (js_sort_descending proteinDensity).
  apply Forall_filter. apply Forall_impl with (2 := Hfin). tauto.
Qed.

Lemma pool_is_ranked_by_a_finite_protein_density_witness :
  Forall (fun row => Forall finite_requirement (Recipe.recipe_ingredients row))
    [ex_chicken_rice; ex_rice_bowl; ex_oil_shot; ex_tap_water]
  /\ descending proteinDensity
       (sortByProteinDensity
          (recipesWithMacros_of
             [ex_chicken_rice; ex_rice_bowl; ex_oil_shot; ex_tap_water] ex_pantry)).
Proof.
  assert (H : Forall (fun row => Forall finite_requirement
                                   (Recipe.recipe_ingredients row))
                [ex_chicken_rice; ex_rice_bowl; ex_oil_shot; ex_tap_water]).
  { repeat constructor. }
  split; [exact H|].
  exact (proj2 (@pool_is_ranked_by_a_finite_protein_density
                  [ex_chicken_rice; ex_rice_bowl; ex_oil_shot; ex_tap_water]
                  ex_pantry H)).
Defined.

(* ------------------------------------------------------------------------- *)
(** ** Further properties: the averages behind the accuracy *)

Lemma reduce_macro_fold (f : MacroProfile -> num) :
  (forall acc m s, f (add_servings acc m s) = (f acc + f m * s)%num) ->
  forall l acc,
    fold_left (fun sum s => (sum + f (macros (recipe s)) * servings s)%num) l (f acc)
    = f (fold_left
           (fun acc selection =>
              add_servings acc (macros (recipe selection)) (servings selection))
           l acc).
Proof.
  intros Hf. induction l as [|a l IH]; intro acc; cbn [fold_left]; [reflexivity|].
  rewrite <- Hf. apply IH.
Qed.

Lemma finalMacros_dailyMacros l : finalMacros l = dailyMacros l.
Proof.
  unfold finalMacros, dailyMacros, reduce_macro, weeklyMacros. cbv zeta.
  change (0%num) with (calories zero_macros) at 1.
  change (0%num) with (protein zero_macros) at 1.
  change (0%num) with (carbs zero_macros) at 1.
  change (0%num) with (fat zero_macros) at 1.
  rewrite !reduce_macro_fold by reflexivity. reflexivity.
Qed.

(** X17.  The daily averages generatePlan computes for the accuracy report
    are the daily averages the Fine-Tuner computes for the same list, so
    the reported calorie accuracy is round((1 - d) * 100) for the relative
    deviation d from the calorie target that the Fine-Tuner would measure
    on the final plan. *)
Theorem accuracy_measures_the_fine_tuner_deviation :
  forall (finalRecipes : list Selection) (dailyTargets : MacroProfile),
    finalMacros finalRecipes = dailyMacros finalRecipes
    /\ acc_calories (macroAccuracy_of finalRecipes dailyTargets)
       = JS.round ((1 - relative_deviation finalRecipes dailyTargets) * 100)%num.
Proof.
  intros finalRecipes dailyTargets.
  split; [apply finalMacros_dailyMacros|].
  unfold macroAccuracy_of, accuracy, relative_deviation. cbv zeta.
  cbn [acc_calories]. now rewrite finalMacros_dailyMacros.
Qed.

(* ------------------------------------------------------------------------- *)
(** ** Further properties: the plan against the availability of its recipes *)

Lemma min_le_l x y : (JS.min x y >? 0)%num = true -> (JS.min x y <=? x)%num = true.
Proof. destruct x, y; intro H; num_crush. Qed.

Lemma le_trans_num x y z :
  (x <=? y)%num = true -> (y <=? z)%num = true -> (x <=? z)%num = true.
Proof. destruct x, y, z; intros H1 H2; num_crush. Qed.

Lemma capped_le_available (needed available cap : num) :
  (JS.min3 needed available cap >? 0)%num = true ->
  (JS.min3 needed available cap <=? available)%num = true.
Proof.
  unfold JS.min3. intro H.
  apply le_trans_num with (JS.min needed available).
  - now apply min_le_l.
  - apply min_le_r. now apply gt_min_l in H.
Qed.

Lemma greedy_within recipes dailyTargets :
  Forall (fun a => (servings a <=? availableServings (recipe a))%num = true)
    (fst (greedyProteinFill recipes dailyTargets)).
Proof.
  apply Forall_forall. intros a Ha.
  destruct (in_split _ _ Ha) as (pre & post & Hsplit).
  unfold greedyProteinFill in Hsplit. cbn [fst] in Hsplit.
  destruct (@greedy_loop_spec dailyTargets (sortByProteinDensity recipes)
              greedy_init eq_refl (all_splits_nil _)) as (_ & Hall).
  destruct (Hall pre a post Hsplit) as (Hs & Hpos).
  rewrite Hs in Hpos |- *. unfold servingsToAdd in *.
  now apply capped_le_available.
Qed.

Lemma gap_filler_within rng recipes selected cur dailyTargets :
  unit_interval_rng rng ->
  Forall (fun a => (servings a <=? availableServings (recipe a))%num = true)
    selected ->
  Forall (fun a => (servings a <=? availableServings (recipe a))%num = true)
    (fillRemainingMacros rng recipes selected cur dailyTargets).
Proof.
  intros Hrng Hsel. rewrite fillRemainingMacros_eq.
  apply Forall_app. split; [exact Hsel|]. apply Forall_app. split.
  - apply Forall_forall. intros a Ha.
    destruct (@carb_step_spec rng recipes selected cur dailyTargets 0 Hrng)
      as (_ & Hc).
    destruct (Hc a Ha) as (_ & Hs & Hpos & _).
    rewrite Hs in Hpos |- *. now apply capped_le_available.
  - apply Forall_forall. intros a Ha.
    destruct (@fat_step_spec rng recipes selected cur dailyTargets
                (snd (carb_step dailyTargets cur
                        (carbRichRecipes (availableRecipes recipes selected)) rng 0))
                Hrng) as (_ & Hf).
    destruct (Hf a Ha) as (_ & Hs & Hpos & _).
    rewrite Hs in Hpos |- *. now apply capped_le_available.
Qed.

Lemma le_of_Z_below (k' k : Z) x :
  (k' <= k)%Z -> (JS.of_Z k <=? x)%num = true -> (JS.of_Z k' <=? x)%num = true.
Proof.
  intros Hk. apply le_trans_num. rewrite le_of_Z. now apply Z.leb_le.
Qed.

Lemma final_within rng rows pantryItems dailyTargets :
  unit_interval_rng rng ->
  Forall (within_availability rows pantryItems)
    (finalRecipes_of rng (recipesWithMacros_of rows pantryItems) dailyTargets).
Proof.
  intro Hrng. apply Forall_forall. intros b Hb.
  assert (Hpool : In (recipe b) (recipesWithMacros_of rows pantryItems))
    by (eapply final_in_pool; exact Hb).
  split.
  - unfold recipesWithMacros_of in Hpool. apply in_map_iff in Hpool.
    destruct Hpool as (row & <- & Hrow). exact Hrow.
  - rewrite <- (pool_availability rows pantryItems (recipe b) Hpool).
    revert b Hb Hpool. unfold finalRecipes_of.
    pose proof (@greedy_valid (recipesWithMacros_of rows pantryItems) dailyTargets
                  (pool_availability_range rows pantryItems)) as Hv.
    pose proof (@greedy_within (recipesWithMacros_of rows pantryItems) dailyTargets)
      as Hw.
    destruct (greedyProteinFill _ _) as [sel cur]. cbn [fst] in Hv, Hw.
    assert (Hfilled :
              Forall (fun a => valid_assignment a
                               /\ (servings a <=? availableServings (recipe a))%num
                                  = true)
                (fillRemainingMacros rng (recipesWithMacros_of rows pantryItems)
                   sel cur dailyTargets)).
    { apply Forall_and.
      - apply gap_filler_valid; auto. apply pool_availability_range.
      - now apply gap_filler_within. }
    assert (Hfinal :
              Forall (fun a => valid_assignment a
                               /\ (servings a <=? availableServings (recipe a))%num
                                  = true)
                (fineTuneMacros
                   (fillRemainingMacros rng (recipesWithMacros_of rows pantryItems)
                      sel cur dailyTargets) dailyTargets)).
    { apply Forall2_Forall with (R := tuned_down) (3 := Hfilled);
        [|apply fineTuneMacros_pointwise].
      intros a b (Hr & Hd & Hsl & Hs) (((k & Hk & Hb) & Hday & Hslot) & Hle).
      destruct (Hs k Hk ltac:(lia)) as (k' & Hk' & Hb').
      split.
      - split; [exists k'; split; [exact Hk' | lia] | split].
        + now rewrite Hd.
        + now rewrite Hsl.
      - rewrite Hr, Hk'. rewrite Hk in Hle.
        apply le_of_Z_below with (k := k); [lia | exact Hle]. }
    intros b Hb _. rewrite Forall_forall in Hfinal. exact (proj2 (Hfinal b Hb)).
Qed.

Lemma final_within_stock rng rows pantryItems dailyTargets :
  unit_interval_rng rng ->
  Forall (fun row => whole_requirements (Recipe.recipe_ingredients row)) rows ->
  Forall (within_stock pantryItems)
    (finalRecipes_of rng (recipesWithMacros_of rows pantryItems) dailyTargets).
Proof.
  intros Hrng Hrows.
  pose proof (@final_within rng rows pantryItems dailyTargets Hrng) as Hw.
  pose proof (@finalRecipes_valid rng rows pantryItems dailyTargets Hrng) as Hv.
  rewrite Forall_forall in Hw, Hv, Hrows. apply Forall_forall. intros a Ha.
  destruct (Hw a Ha) as (Hrow & Hle).
  destruct (Hv a Ha) as ((k & Hk & Hb) & _).
  split; [now apply Hrows | split; [|exact Hle]].
  exists k. split; [exact Hk | lia].
Qed.

(** X18.  With random draws in [0, 1), every assignment of the plan the
    three stages compute is for a row of the recipe table and has no more
    servings than calculateAvailableServings reports for that recipe and
    the pantry.  Hence, when the requirement quantities are positive whole
    numbers and the pantry quantities whole numbers that are not negative,
    a computed plan in which no ingredient is required twice has no missing
    ingredient. *)
Theorem computed_plan_stays_within_each_recipes_availability :
  forall (rng : Rng) (rows : list Recipe.t) (pantryItems : list PantryItem.t)
         (dailyTargets : MacroProfile),
    unit_interval_rng rng ->
    let finalRecipes :=
      finalRecipes_of rng (recipesWithMacros_of rows pantryItems) dailyTargets in
    Forall (within_availability rows pantryItems) finalRecipes
    /\ (whole_pantry pantryItems ->
        Forall (fun row => whole_requirements (Recipe.recipe_ingredients row))
          rows ->
        NoDup (plan_ingredient_ids finalRecipes) ->
        calculateMissingIngredients finalRecipes pantryItems = []).
Proof.
  intros rng rows pantryItems dailyTargets Hrng finalRecipes.
  split; [now apply final_within|].
  intros Hp Hrows Hnd.
  apply within_stock_no_shortfall; [exact Hp | | exact Hnd].
  now apply final_within_stock.
Qed.

Lemma computed_plan_stays_within_each_recipes_availability_witness :
  unit_interval_rng ex_rng
  /\ whole_pantry ex_pantry
  /\ Forall (fun row => whole_requirements (Recipe.recipe_ingredients row))
       [ex_chicken_rice; ex_oil_shot]
  /\ NoDup (plan_ingredient_ids ex_disjoint_plan)
  /\ List.length ex_disjoint_plan = 2%nat
  /\ calculateMissingIngredients ex_disjoint_plan ex_pantry = [].
Proof.
  assert (Hp : whole_pantry ex_pantry).
  { repeat (apply Forall_cons || apply Forall_nil);
      (eexists; split; [reflexivity | lia]). }
  assert (Hrows : Forall (fun row => whole_requirements
                                       (Recipe.recipe_ingredients row))
                    [ex_chicken_rice; ex_oil_shot]).
  { repeat (apply Forall_cons || apply Forall_nil);
      (eexists; split; [reflexivity | lia]). }
  assert (Hnd : NoDup (plan_ingredient_ids ex_disjoint_plan)).
  { vm_compute. repeat constructor; cbn; intuition discriminate. }
  split; [exact ex_rng_unit_interval|].
  split; [exact Hp | split; [exact Hrows | split; [exact Hnd|]]].
  split; [reflexivity|].
  exact (proj2 (@computed_plan_stays_within_each_recipes_availability
                  ex_rng [ex_chicken_rice; ex_oil_shot] ex_pantry
                  (dailyTargets_of ex_user) ex_rng_unit_interval) Hp Hrows Hnd).
Defined.
